(** * libdect: S-format codec, Call Control and Mobility Management

    A shallow embedding of the S-format message codec (s_fmt.c), of the
    Call Control entity (cc.c) and of the Mobility Management entity
    (mm.c) of libdect, with the properties the specification states
    about them.

    Conventions.  Octets and C integers are [Z]; a store into a
    [uint8_t] keeps the value modulo 256 ([u8]).  [&], [|], [~], [<<]
    and [>>] are [Z.land], [Z.lor], [Z.lnot], [Z.shiftl] and
    [Z.shiftr].  A C function returning [int] status returns the same
    number here. *)

From Stdlib Require Import ZArith List Bool Lia.
Import ListNotations.
Open Scope Z_scope.

(** ** Octet strings *)

Module Octets.

Definition u8 (v : Z) : Z := v mod 256.

(** [d[k]]; octets the model does not hold read as 0. *)
Definition rd (d : list Z) (k : Z) : Z := nth (Z.to_nat k) d 0.

Fixpoint wr_nat (d : list Z) (k : nat) (v : Z) : list Z :=
  match k, d with
  | O, [] => [v]
  | O, _ :: t => v :: t
  | S k', [] => 0 :: wr_nat [] k' v
  | S k', h :: t => h :: wr_nat t k' v
  end.

(** [d[k] = v] for a [uint8_t] array [d]. *)
Definition wr (d : list Z) (k : Z) (v : Z) : list Z :=
  wr_nat d (Z.to_nat k) (u8 v).

(** [d[k] |= v]. *)
Definition wr_or (d : list Z) (k : Z) (v : Z) : list Z :=
  wr d k (Z.lor (rd d k) v).

(** [memcpy(d + k, src, n)] with [n] the length of [src]. *)
Fixpoint memcpy (d : list Z) (k : Z) (src : list Z) : list Z :=
  match src with
  | [] => d
  | b :: src' => memcpy (wr d k b) (k + 1) src'
  end.

(** The [n] octets at [d + k]. *)
Definition sub (d : list Z) (k n : Z) : list Z :=
  map (fun i => rd d (k + Z.of_nat i)) (seq 0 (Z.to_nat n)).

Definition is_octet (b : Z) : bool := (0 <=? b) && (b <? 256).

Definition octets (l : list Z) : bool := forallb is_octet l.

(** Every octet: the 256 values on which a property of octets is
    decided by evaluation. *)
Definition all_octets : list Z := map Z.of_nat (seq 0 256).

Definition forall_octet (p : Z -> bool) : bool := forallb p all_octets.

End Octets.

Import Octets.

(** ** Constants of s_fmt.h

    Modelled from the spec: s_fmt.h is not among the sources.  The
    framing constants follow section 4.1 of the specification (high
    bit set for a fixed-length IE, a 3-bit identifier and a 4-bit
    value); the IE identifiers are those of ETSI EN 300 175-5, on
    which the specification rests the wire format. *)

Definition DECT_SFMT_IE_FIXED_LEN : Z := 0x80.
Definition DECT_SFMT_IE_FIXED_ID_MASK : Z := 0x70.
Definition DECT_SFMT_IE_FIXED_VAL_MASK : Z := 0x0f.
Definition DECT_OCTET_GROUP_END : Z := 0x80.

Definition DECT_IE_EXT_PREFIX : Z := 0xa0.
Definition DECT_IE_SENDING_COMPLETE : Z := 0xa1.
Definition DECT_IE_DELIMITER_REQUEST : Z := 0xa2.
Definition DECT_IE_USE_TPUI : Z := 0xa3.
Definition DECT_IE_REPEAT_INDICATOR : Z := 0xd0.
Definition DECT_IE_DOUBLE_OCTET_ELEMENT : Z := 0xe0.
Definition DECT_IE_BASIC_SERVICE : Z := 0xe0.
Definition DECT_IE_RELEASE_REASON : Z := 0xe2.
Definition DECT_IE_SIGNAL : Z := 0xe4.
Definition DECT_IE_TIMER_RESTART : Z := 0xe5.
Definition DECT_IE_TEST_HOOK_CONTROL : Z := 0xe6.
Definition DECT_IE_SINGLE_DISPLAY : Z := 0xe8.
Definition DECT_IE_SINGLE_KEYPAD : Z := 0xe9.

Definition DECT_IE_INFO_TYPE : Z := 0x01.
Definition DECT_IE_IDENTITY_TYPE : Z := 0x02.
Definition DECT_IE_PORTABLE_IDENTITY : Z := 0x05.
Definition DECT_IE_FIXED_IDENTITY : Z := 0x06.
Definition DECT_IE_LOCATION_AREA : Z := 0x07.
Definition DECT_IE_NWK_ASSIGNED_IDENTITY : Z := 0x09.
Definition DECT_IE_AUTH_TYPE : Z := 0x0a.
Definition DECT_IE_ALLOCATION_TYPE : Z := 0x0b.
Definition DECT_IE_RAND : Z := 0x0c.
Definition DECT_IE_RES : Z := 0x0d.
Definition DECT_IE_RS : Z := 0x0e.
Definition DECT_IE_IWU_ATTRIBUTES : Z := 0x12.
Definition DECT_IE_CALL_ATTRIBUTES : Z := 0x13.
Definition DECT_IE_SERVICE_CHANGE_INFO : Z := 0x16.
Definition DECT_IE_CONNECTION_ATTRIBUTES : Z := 0x17.
Definition DECT_IE_CIPHER_INFO : Z := 0x19.
Definition DECT_IE_CALL_IDENTITY : Z := 0x1a.
Definition DECT_IE_CONNECTION_IDENTITY : Z := 0x1b.
Definition DECT_IE_FACILITY : Z := 0x1c.
Definition DECT_IE_PROGRESS_INDICATOR : Z := 0x1e.
Definition DECT_IE_MMS_GENERIC_HEADER : Z := 0x20.
Definition DECT_IE_MMS_OBJECT_HEADER : Z := 0x21.
Definition DECT_IE_MMS_EXTENDED_HEADER : Z := 0x22.
Definition DECT_IE_TIME_DATE : Z := 0x23.
Definition DECT_IE_MULTI_DISPLAY : Z := 0x28.
Definition DECT_IE_MULTI_KEYPAD : Z := 0x2c.
Definition DECT_IE_FEATURE_ACTIVATE : Z := 0x38.
Definition DECT_IE_FEATURE_INDICATE : Z := 0x39.
Definition DECT_IE_NETWORK_PARAMETER : Z := 0x41.
Definition DECT_IE_EXT_HO_INDICATOR : Z := 0x42.
Definition DECT_IE_ZAP_FIELD : Z := 0x52.
Definition DECT_IE_SERVICE_CLASS : Z := 0x54.
Definition DECT_IE_KEY : Z := 0x56.
Definition DECT_IE_REJECT_REASON : Z := 0x60.
Definition DECT_IE_SETUP_CAPABILITY : Z := 0x62.
Definition DECT_IE_TERMINAL_CAPABILITY : Z := 0x63.
Definition DECT_IE_END_TO_END_COMPATIBILITY : Z := 0x64.
Definition DECT_IE_RATE_PARAMETERS : Z := 0x65.
Definition DECT_IE_TRANSIT_DELAY : Z := 0x66.
Definition DECT_IE_WINDOW_SIZE : Z := 0x67.
Definition DECT_IE_CALLING_PARTY_NUMBER : Z := 0x6c.
Definition DECT_IE_CALLING_PARTY_NAME : Z := 0x6d.
Definition DECT_IE_CALLED_PARTY_NUMBER : Z := 0x70.
Definition DECT_IE_CALLED_PARTY_SUBADDR : Z := 0x71.
Definition DECT_IE_DURATION : Z := 0x72.
Definition DECT_IE_SEGMENTED_INFO : Z := 0x75.
Definition DECT_IE_ALPHANUMERIC : Z := 0x76.
Definition DECT_IE_IWU_TO_IWU : Z := 0x77.
Definition DECT_IE_MODEL_IDENTIFIER : Z := 0x78.
Definition DECT_IE_IWU_PACKET : Z := 0x7a.
Definition DECT_IE_ESCAPE_TO_PROPRIETARY : Z := 0x7b.
Definition DECT_IE_CODEC_LIST : Z := 0x7c.
Definition DECT_IE_EVENTS_NOTIFICATION : Z := 0x7d.
Definition DECT_IE_CALL_INFORMATION : Z := 0x7e.
Definition DECT_IE_ESCAPE_FOR_EXTENSION : Z := 0x7f.

(** [enum dect_ie_list_types], the value field of <<REPEAT-INDICATOR>>. *)
Definition DECT_IE_LIST_NORMAL : Z := 0x1.
Definition DECT_IE_LIST_PRIORITIZED : Z := 0x2.

(** [enum dect_sfmt_error].  The codec returns [0] for success and its
    callers test [< 0] for failure; a plain [return -1] of the source
    is [-1] here. *)
Definition DECT_SFMT_OK : Z := 0.
Definition DECT_SFMT_MANDATORY_IE_MISSING : Z := -1.
Definition DECT_SFMT_MANDATORY_IE_ERROR : Z := -2.
Definition DECT_SFMT_INVALID_IE : Z := -3.

(** [enum dect_sfmt_ie_flags].  [DECT_SFMT_IE_END] marks the sentinel
    [DECT_SFMT_IE_END_MSG] that closes every descriptor table; a table
    is modelled as the list of the entries before the sentinel, and
    [desc->flags & DECT_SFMT_IE_END] as that list being empty. *)
Definition DECT_SFMT_IE_REPEAT : Z := 0x1.

(** ** Handles, descriptors, message buffers *)

Inductive dect_mode := DECT_MODE_FP | DECT_MODE_PP.

Inductive dect_sfmt_ie_status :=
| DECT_SFMT_IE_NONE
| DECT_SFMT_IE_OPTIONAL
| DECT_SFMT_IE_MANDATORY.

Record dect_sfmt_ie_desc := DECT_SFMT_IE {
  type : Z;
  fp_pp : dect_sfmt_ie_status;
  pp_fp : dect_sfmt_ie_status;
  flags : Z
}.

Definition dect_sfmt_msg_desc := list dect_sfmt_ie_desc.

(** The part of [struct dect_handle] the codec and the protocol
    entities read: the role, and the allocator of the application's
    operation vector, of which the model keeps whether it is out of
    memory ([dect_malloc] and [dect_zalloc] then return [NULL]). *)
Record dect_handle := {
  mode : dect_mode;
  dh_nomem : bool
}.

(** [struct dect_msg_buf]: [mb_data] holds the [mb->len] octets at
    [mb->data]; [mb_tail] the octets of the buffer that follow them. *)
Record dect_msg_buf := {
  mb_data : list Z;
  mb_tail : list Z;
  mb_type : Z
}.

Definition mb_len (mb : dect_msg_buf) : Z := Z.of_nat (length (mb_data mb)).

(** The memory [mb->data] points to. *)
Definition mb_mem (mb : dect_msg_buf) : list Z := mb_data mb ++ mb_tail mb.

(** [dect_mbuf_pull(mb, len)], for [len <= mb->len]. *)
Definition dect_mbuf_pull (mb : dect_msg_buf) (len : Z) : dect_msg_buf :=
  {| mb_data := skipn (Z.to_nat len) (mb_data mb);
     mb_tail := mb_tail mb;
     mb_type := mb_type mb |}.

(** A received message: its octets in a zero-filled buffer. *)
Definition mbuf_of (l : list Z) : dect_msg_buf :=
  {| mb_data := l; mb_tail := []; mb_type := 0 |}.

(** [struct dect_sfmt_ie]: [ie_data] is the memory [ie->data] points
    to, from the first octet of the IE on. *)
Record dect_sfmt_ie := {
  ie_id : Z;
  ie_len : Z;
  ie_data : list Z
}.

Definition dect_rx_status (dh : dect_handle) (desc : dect_sfmt_ie_desc)
  : dect_sfmt_ie_status :=
  match mode dh with
  | DECT_MODE_FP => pp_fp desc
  | DECT_MODE_PP => fp_pp desc
  end.

Definition dect_tx_status (dh : dect_handle) (desc : dect_sfmt_ie_desc)
  : dect_sfmt_ie_status :=
  match mode dh with
  | DECT_MODE_FP => fp_pp desc
  | DECT_MODE_PP => pp_fp desc
  end.

(** ** IE headers *)

Definition is_fixed_len (id : Z) : bool :=
  negb (Z.land id DECT_SFMT_IE_FIXED_LEN =? 0).

(** [dect_parse_sfmt_ie_header]: [None] is the error return. *)
Definition dect_parse_sfmt_ie_header (mb : dect_msg_buf) : option dect_sfmt_ie :=
  let data := mb_mem mb in
  if mb_len mb <? 1 then None
  else
    let id := Z.land (rd data 0) DECT_SFMT_IE_FIXED_LEN in
    if is_fixed_len id then
      let id := Z.lor id (Z.land (rd data 0) DECT_SFMT_IE_FIXED_ID_MASK) in
      let val := Z.land (rd data 0) DECT_SFMT_IE_FIXED_VAL_MASK in
      if negb (id =? DECT_IE_DOUBLE_OCTET_ELEMENT) then
        Some {| ie_id := if id =? DECT_IE_EXT_PREFIX then Z.lor id val else id;
                ie_len := 1;
                ie_data := data |}
      else if mb_len mb <? 2 then None
      else Some {| ie_id := Z.lor id val; ie_len := 2; ie_data := data |}
    else if (mb_len mb <? 2) || (mb_len mb <? 2 + rd data 1) then None
    else Some {| ie_id := rd data 0; ie_len := rd data 1 + 2; ie_data := data |}.

(** [dect_build_sfmt_ie_header]; [None] when [dect_assert] fails. *)
Definition dect_build_sfmt_ie_header (dst : dect_sfmt_ie) (id : Z)
  : option dect_sfmt_ie :=
  if is_fixed_len id then
    let data := wr_or (ie_data dst) 0 id in
    if negb (Z.land id DECT_SFMT_IE_FIXED_ID_MASK =?
             Z.land DECT_IE_DOUBLE_OCTET_ELEMENT DECT_SFMT_IE_FIXED_ID_MASK)
    then Some {| ie_id := ie_id dst; ie_len := 1; ie_data := data |}
    else Some {| ie_id := ie_id dst; ie_len := 2; ie_data := data |}
  else if ie_len dst =? 2 then
    Some {| ie_id := ie_id dst; ie_len := 0; ie_data := ie_data dst |}
  else if ie_len dst >? 2 then
    Some {| ie_id := ie_id dst; ie_len := ie_len dst;
            ie_data := wr (wr (ie_data dst) 1 (ie_len dst - 2)) 0 id |}
  else None.

(** ** Constants of libdect.h used by the IE handlers

    Modelled from the spec: libdect.h is not among the sources.  The
    values are the bit layouts of the IEs in ETSI EN 300 175-5, section
    7.6 and 7.7, to which the specification refers for the octet-level
    semantics of each IE. *)

Definition DECT_BASIC_SERVICE_CALL_CLASS_SHIFT : Z := 4.
Definition DECT_BASIC_SERVICE_SERVICE_MASK : Z := 0x0f.
Definition DECT_TIMER_RESTART : Z := 0x0.
Definition DECT_TIMER_STOP : Z := 0x1.
Definition DECT_LOCATION_AREA_TYPE_MASK : Z := 0xc0.
Definition DECT_LOCATION_AREA_TYPE_SHIFT : Z := 6.
Definition DECT_LOCATION_LEVEL_MASK : Z := 0x3f.
Definition DECT_SFMT_IE_PROGRESS_INDICATOR_LOCATION_MASK : Z := 0x0f.
Definition DECT_TIME_LIMIT_DEFINED_TIME_LIMIT_1 : Z := 0x1.
Definition DECT_TIME_LIMIT_DEFINED_TIME_LIMIT_2 : Z := 0x2.

(** ** IE structures *)

(** [struct dect_ie_basic_service] *)
Record dect_ie_basic_service := {
  bs_class : Z;
  bs_service : Z
}.

(** [struct dect_ie_display]: [info] is an array, of which the handlers
    use the first [len] octets. *)
Record dect_ie_display := {
  display_len : Z;
  display_info : list Z
}.

(** [struct dect_ie_keypad] *)
Record dect_ie_keypad := {
  keypad_len : Z;
  keypad_info : list Z
}.

(** [struct dect_ie_identity_type] *)
Record dect_ie_identity_type := {
  it_group : Z;
  it_type : Z
}.

(** [struct dect_ie_location_area] *)
Record dect_ie_location_area := {
  la_type : Z;
  la_level : Z
}.

(** [struct dect_ie_allocation_type] *)
Record dect_ie_allocation_type := {
  at_auth_id : Z;
  at_auth_key_num : Z;
  at_auth_code_num : Z
}.

(** [struct dect_ie_cipher_info] *)
Record dect_ie_cipher_info := {
  ci_enable : Z;
  ci_cipher_alg_id : Z;
  ci_cipher_key_type : Z;
  ci_cipher_key_num : Z
}.

(** [struct dect_ie_time_date] *)
Record dect_ie_time_date := {
  td_coding : Z;
  td_interpretation : Z;
  td_year : Z;
  td_month : Z;
  td_day : Z;
  td_hour : Z;
  td_minute : Z;
  td_second : Z;
  td_timezone : Z
}.

(** [struct dect_ie_feature_indicate] *)
Record dect_ie_feature_indicate := {
  fi_feature : Z;
  fi_status : Z
}.

(** [struct dect_ie_network_parameter] *)
Record dect_ie_network_parameter := {
  np_discriminator : Z;
  np_len : Z;
  np_data : list Z
}.

(** [struct dect_ie_setup_capability] *)
Record dect_ie_setup_capability := {
  sc_page_capability : Z;
  sc_setup_capability : Z
}.

(** [struct dect_ie_called_party_number] *)
Record dect_ie_called_party_number := {
  cpn_type : Z;
  cpn_npi : Z;
  cpn_len : Z;
  cpn_address : list Z
}.

(** [struct dect_ie_duration] *)
Record dect_ie_duration := {
  dur_lock : Z;
  dur_time : Z;
  dur_duration : Z
}.

(** [struct dect_ie_iwu_to_iwu] *)
Record dect_ie_iwu_to_iwu := {
  iwu_sr : Z;
  iwu_pd : Z;
  iwu_len : Z;
  iwu_data : list Z
}.

(** [struct dect_ie_facility] *)
Record dect_ie_facility := {
  fac_service : Z;
  fac_len : Z;
  fac_components : list Z
}.

(** [struct dect_ie_service_change_info] *)
Record dect_ie_service_change_info := {
  sci_master : Z;
  sci_mode : Z
}.

(** [struct dect_ie_progress_indicator] *)
Record dect_ie_progress_indicator := {
  pi_location : Z;
  pi_progress : Z
}.

(** What the sources leave open: the sizes of the arrays in the IE
    structures of libdect.h, and the handlers whose code needs the
    identity routines of identities.c or further declarations of
    libdect.h (<<INFO-TYPE>>, <<PORTABLE-IDENTITY>>, <<FIXED-IDENTITY>>,
    <<AUTH-TYPE>>, <<TERMINAL-CAPABILITY>>, <<CALLING-PARTY-NUMBER>>,
    <<CALLING-PARTY-NAME>>, <<ESCAPE-TO-PROPRIETARY>>, <<CODEC-LIST>>,
    <<EVENTS-NOTIFICATION>>).  They are parameters of the development:
    [xie] is the type of the structures of those IEs, [x_parse] and
    [x_build] their handlers by identifier ([None] where the table has
    no handler) and [x_sized] whether the entry sets [.size]. *)
Record externals := {
  display_info_size : Z;
  keypad_info_size : Z;
  network_parameter_data_size : Z;
  called_party_number_address_size : Z;
  iwu_to_iwu_data_size : Z;
  facility_components_size : Z;
  xie : Type;
  x_sized : Z -> bool;
  x_parse : Z -> option (dect_sfmt_ie -> option xie);
  x_build : Z -> option (dect_sfmt_ie -> xie -> option dect_sfmt_ie)
}.

(** A sample of the externals, on which the statements are run: the
    structure of an IE whose handlers are left open is the octets of
    its contents, which its handlers copy; the arrays have sizes in
    the range of those of libdect.h. *)
Definition raw_parse (src : dect_sfmt_ie) : option (list Z) :=
  Some (sub (ie_data src) 2 (ie_len src - 2)).

Definition raw_build (dst : dect_sfmt_ie) (v : list Z) : option dect_sfmt_ie :=
  Some {| ie_id := ie_id dst; ie_len := Z.of_nat (length v) + 2;
          ie_data := memcpy (ie_data dst) 2 v |}.

Definition sample_externals : externals :=
  {| display_info_size := 256;
     keypad_info_size := 64;
     network_parameter_data_size := 32;
     called_party_number_address_size := 64;
     iwu_to_iwu_data_size := 256;
     facility_components_size := 256;
     xie := list Z;
     x_sized := fun _ => true;
     x_parse := fun _ => Some raw_parse;
     x_build := fun _ => Some raw_build |}.

(** A handle of each role, with an allocator that serves. *)
Definition fp : dect_handle := {| mode := DECT_MODE_FP; dh_nomem := false |}.
Definition pp : dect_handle := {| mode := DECT_MODE_PP; dh_nomem := false |}.


Section Libdect.

Variable X : externals.

(** [struct dect_ie_common], seen as the tagged union of the IE
    structures that embed it.  [IE_list] is a [struct dect_ie_list]
    reached through its [common] member, of which the handlers read
    and write the [type]; [IE_empty] a structure without members
    (<<SENDING-COMPLETE>>, <<DELIMITER-REQUEST>>, <<USE-TPUI>>);
    [IE_auth_value] and [IE_auth_res] hold the octets of the integer
    [value] as they lie in memory. *)
Inductive dect_ie_common :=
| IE_list (type : Z)
| IE_empty
| IE_basic_service (ie : dect_ie_basic_service)
| IE_release_reason (reason : Z)
| IE_signal (code : Z)
| IE_timer_restart (code : Z)
| IE_display (ie : dect_ie_display)
| IE_keypad (ie : dect_ie_keypad)
| IE_identity_type (ie : dect_ie_identity_type)
| IE_location_area (ie : dect_ie_location_area)
| IE_allocation_type (ie : dect_ie_allocation_type)
| IE_auth_value (value : list Z)
| IE_auth_res (value : list Z)
| IE_cipher_info (ie : dect_ie_cipher_info)
| IE_time_date (ie : dect_ie_time_date)
| IE_feature_activate (feature : Z)
| IE_feature_indicate (ie : dect_ie_feature_indicate)
| IE_network_parameter (ie : dect_ie_network_parameter)
| IE_reject_reason (reason : Z)
| IE_setup_capability (ie : dect_ie_setup_capability)
| IE_called_party_number (ie : dect_ie_called_party_number)
| IE_duration (ie : dect_ie_duration)
| IE_iwu_to_iwu (ie : dect_ie_iwu_to_iwu)
| IE_facility (ie : dect_ie_facility)
| IE_service_change_info (ie : dect_ie_service_change_info)
| IE_progress_indicator (ie : dect_ie_progress_indicator)
| IE_other (ie : xie X).

(** [struct dect_ie_list] *)
Record dect_ie_list := {
  il_type : Z;
  il_list : list dect_ie_common
}.

(** ** IE handlers

    A parse handler reads [src] and fills the zero-initialised
    structure [dect_parse_sfmt_ie] allocated; here it returns the
    filled structure, or [None] for the return value -1.  A build
    handler writes the octets of the IE at [dst->data] and, for a
    variable-length IE, sets [dst->len]; here it returns the new
    [dst], or [None] for -1.  A build handler applied to a structure
    of another type than its own has no defined result in C (the
    handler casts); the model answers [None]. *)

Definition set_data (dst : dect_sfmt_ie) (data : list Z) : dect_sfmt_ie :=
  {| ie_id := ie_id dst; ie_len := ie_len dst; ie_data := data |}.

Definition set_len (dst : dect_sfmt_ie) (len : Z) : dect_sfmt_ie :=
  {| ie_id := ie_id dst; ie_len := len; ie_data := ie_data dst |}.

Definition dect_sfmt_parse_repeat_indicator (src : dect_sfmt_ie)
  : option dect_ie_common :=
  let type := Z.land (rd (ie_data src) 0) DECT_SFMT_IE_FIXED_VAL_MASK in
  if (type =? DECT_IE_LIST_NORMAL) || (type =? DECT_IE_LIST_PRIORITIZED)
  then Some (IE_list type)
  else None.

Definition dect_sfmt_build_repeat_indicator (dst : dect_sfmt_ie)
  (ie : dect_ie_common) : option dect_sfmt_ie :=
  match ie with
  | IE_list type => Some (set_data dst (wr (ie_data dst) 0 type))
  | _ => None
  end.

Definition dect_sfmt_parse_empty_single_octet (src : dect_sfmt_ie)
  : option dect_ie_common :=
  Some IE_empty.

Definition dect_sfmt_build_empty_single_octet (dst : dect_sfmt_ie)
  (ie : dect_ie_common) : option dect_sfmt_ie :=
  Some (set_data dst (wr (ie_data dst) 0 0)).

Definition dect_sfmt_parse_basic_service (src : dect_sfmt_ie)
  : option dect_ie_common :=
  Some (IE_basic_service
    {| bs_class := Z.shiftr (rd (ie_data src) 1) DECT_BASIC_SERVICE_CALL_CLASS_SHIFT;
       bs_service := Z.land (rd (ie_data src) 1) DECT_BASIC_SERVICE_SERVICE_MASK |}).

Definition dect_sfmt_build_basic_service (dst : dect_sfmt_ie)
  (ie : dect_ie_common) : option dect_sfmt_ie :=
  match ie with
  | IE_basic_service src =>
    let d := wr (ie_data dst) 1
               (Z.shiftl (bs_class src) DECT_BASIC_SERVICE_CALL_CLASS_SHIFT) in
    let d := wr_or d 1 (bs_service src) in
    Some (set_data dst d)
  | _ => None
  end.

Definition dect_sfmt_parse_single_display (src : dect_sfmt_ie)
  : option dect_ie_common :=
  Some (IE_display {| display_len := 1; display_info := [rd (ie_data src) 1] |}).

Definition dect_sfmt_build_single_display (dst : dect_sfmt_ie)
  (src : dect_ie_common) : option dect_sfmt_ie :=
  match src with
  | IE_display ie => Some (set_data dst (wr (ie_data dst) 1 (rd (display_info ie) 0)))
  | _ => None
  end.

Definition dect_sfmt_parse_single_keypad (src : dect_sfmt_ie)
  : option dect_ie_common :=
  Some (IE_keypad {| keypad_len := 1; keypad_info := [rd (ie_data src) 1] |}).

Definition dect_sfmt_build_single_keypad (dst : dect_sfmt_ie)
  (src : dect_ie_common) : option dect_sfmt_ie :=
  match src with
  | IE_keypad ie => Some (set_data dst (wr (ie_data dst) 1 (rd (keypad_info ie) 0)))
  | _ => None
  end.

Definition dect_sfmt_parse_release_reason (src : dect_sfmt_ie)
  : option dect_ie_common :=
  Some (IE_release_reason (rd (ie_data src) 1)).

Definition dect_sfmt_build_release_reason (dst : dect_sfmt_ie)
  (ie : dect_ie_common) : option dect_sfmt_ie :=
  match ie with
  | IE_release_reason reason => Some (set_data dst (wr (ie_data dst) 1 reason))
  | _ => None
  end.

Definition dect_sfmt_parse_signal (src : dect_sfmt_ie)
  : option dect_ie_common :=
  Some (IE_signal (rd (ie_data src) 1)).

Definition dect_sfmt_build_signal (dst : dect_sfmt_ie)
  (src : dect_ie_common) : option dect_sfmt_ie :=
  match src with
  | IE_signal code => Some (set_data dst (wr (ie_data dst) 1 code))
  | _ => None
  end.

Definition dect_sfmt_parse_timer_restart (src : dect_sfmt_ie)
  : option dect_ie_common :=
  let code := rd (ie_data src) 1 in
  if (code =? DECT_TIMER_RESTART) || (code =? DECT_TIMER_STOP)
  then Some (IE_timer_restart code)
  else None.

Definition dect_sfmt_build_identity_type (dst : dect_sfmt_ie)
  (src : dect_ie_common) : option dect_sfmt_ie :=
  match src with
  | IE_identity_type ie =>
    let d := wr (ie_data dst) 2 (Z.lor (it_group ie) DECT_OCTET_GROUP_END) in
    let d := wr d 3 (Z.lor (it_type ie) DECT_OCTET_GROUP_END) in
    Some {| ie_id := ie_id dst; ie_len := 4; ie_data := d |}
  | _ => None
  end.

Definition dect_sfmt_parse_identity_type (src : dect_sfmt_ie)
  : option dect_ie_common :=
  Some (IE_identity_type
    {| it_group := Z.land (rd (ie_data src) 2) (Z.lnot DECT_OCTET_GROUP_END);
       it_type := Z.land (rd (ie_data src) 3) (Z.lnot DECT_OCTET_GROUP_END) |}).

Definition dect_sfmt_parse_location_area (src : dect_sfmt_ie)
  : option dect_ie_common :=
  Some (IE_location_area
    {| la_type := Z.shiftr (Z.land (rd (ie_data src) 2) DECT_LOCATION_AREA_TYPE_MASK)
                           DECT_LOCATION_AREA_TYPE_SHIFT;
       la_level := Z.land (rd (ie_data src) 2) DECT_LOCATION_LEVEL_MASK |}).

Definition dect_sfmt_build_location_area (dst : dect_sfmt_ie)
  (ie : dect_ie_common) : option dect_sfmt_ie :=
  match ie with
  | IE_location_area src =>
    let d := wr (ie_data dst) 2 (Z.shiftl (la_type src) DECT_LOCATION_AREA_TYPE_SHIFT) in
    let d := wr_or d 2 (la_level src) in
    Some {| ie_id := ie_id dst; ie_len := 3; ie_data := d |}
  | _ => None
  end.

Definition dect_sfmt_parse_allocation_type (src : dect_sfmt_ie)
  : option dect_ie_common :=
  Some (IE_allocation_type
    {| at_auth_id := rd (ie_data src) 2;
       at_auth_key_num := Z.shiftr (Z.land (rd (ie_data src) 3) 0xf0) 4;
       at_auth_code_num := Z.land (rd (ie_data src) 3) 0x0f |}).

Definition dect_sfmt_build_allocation_type (dst : dect_sfmt_ie)
  (ie : dect_ie_common) : option dect_sfmt_ie :=
  match ie with
  | IE_allocation_type src =>
    let d := wr (ie_data dst) 2 (at_auth_id src) in
    let d := wr d 3 (Z.shiftl (at_auth_key_num src) 4) in
    let d := wr_or d 3 (at_auth_code_num src) in
    Some {| ie_id := ie_id dst; ie_len := 4; ie_data := d |}
  | _ => None
  end.

(** [sizeof(dst->value)] is 8 for the [uint64_t] of
    [struct dect_ie_auth_value] and 4 for the [uint32_t] of
    [struct dect_ie_auth_res]. *)
Definition dect_sfmt_parse_auth_value (src : dect_sfmt_ie)
  : option dect_ie_common :=
  if negb (ie_len src =? 8 + 2) then None
  else Some (IE_auth_value (sub (ie_data src) 2 8)).

Definition dect_sfmt_build_auth_value (dst : dect_sfmt_ie)
  (ie : dect_ie_common) : option dect_sfmt_ie :=
  match ie with
  | IE_auth_value value =>
    Some {| ie_id := ie_id dst; ie_len := 8 + 2;
            ie_data := memcpy (ie_data dst) 2 (sub value 0 8) |}
  | _ => None
  end.

Definition dect_sfmt_parse_auth_res (src : dect_sfmt_ie)
  : option dect_ie_common :=
  if negb (ie_len src =? 4 + 2) then None
  else Some (IE_auth_res (sub (ie_data src) 2 4)).

Definition dect_sfmt_build_auth_res (dst : dect_sfmt_ie)
  (ie : dect_ie_common) : option dect_sfmt_ie :=
  match ie with
  | IE_auth_res value =>
    Some {| ie_id := ie_id dst; ie_len := 4 + 2;
            ie_data := memcpy (ie_data dst) 2 (sub value 0 4) |}
  | _ => None
  end.

Definition dect_sfmt_parse_service_change_info (src : dect_sfmt_ie)
  : option dect_ie_common :=
  Some (IE_service_change_info
    {| sci_master := Z.land (rd (ie_data src) 2) 0x40;
       sci_mode := Z.land (rd (ie_data src) 2) 0x0f |}).

Definition dect_sfmt_parse_cipher_info (src : dect_sfmt_ie)
  : option dect_ie_common :=
  if negb (ie_len src =? 4) then None
  else Some (IE_cipher_info
    {| ci_enable := Z.land (rd (ie_data src) 2) 0x80;
       ci_cipher_alg_id := Z.land (rd (ie_data src) 2) 0x7f;
       ci_cipher_key_type := Z.shiftr (Z.land (rd (ie_data src) 3) 0xf0) 4;
       ci_cipher_key_num := Z.land (rd (ie_data src) 3) 0x0f |}).

Definition dect_sfmt_build_cipher_info (dst : dect_sfmt_ie)
  (ie : dect_ie_common) : option dect_sfmt_ie :=
  match ie with
  | IE_cipher_info src =>
    let d := wr (ie_data dst) 2 (if ci_enable src =? 0 then 0 else 0x80) in
    let d := wr_or d 2 (ci_cipher_alg_id src) in
    let d := wr d 3 (Z.shiftl (ci_cipher_key_type src) 4) in
    let d := wr_or d 3 (Z.lor (ci_cipher_key_num src) 0x8) in
    Some {| ie_id := ie_id dst; ie_len := 4; ie_data := d |}
  | _ => None
  end.

Definition dect_sfmt_parse_facility (src : dect_sfmt_ie)
  : option dect_ie_common :=
  let len := ie_len src - 3 in
  if len >? facility_components_size X then None
  else Some (IE_facility
    {| fac_service := Z.land (rd (ie_data src) 2) 0x1f;
       fac_len := len;
       fac_components := sub (ie_data src) 3 len |}).

Definition dect_sfmt_parse_progress_indicator (src : dect_sfmt_ie)
  : option dect_ie_common :=
  Some (IE_progress_indicator
    {| pi_location := Z.land (rd (ie_data src) 2)
                             DECT_SFMT_IE_PROGRESS_INDICATOR_LOCATION_MASK;
       pi_progress := Z.land (rd (ie_data src) 3) (Z.lnot DECT_OCTET_GROUP_END) |}).

Definition dect_sfmt_build_progress_indicator (dst : dect_sfmt_ie)
  (ie : dect_ie_common) : option dect_sfmt_ie :=
  match ie with
  | IE_progress_indicator src =>
    let d := wr (ie_data dst) 3 (Z.lor DECT_OCTET_GROUP_END (pi_progress src)) in
    let d := wr d 2 (Z.lor DECT_OCTET_GROUP_END (pi_location src)) in
    Some {| ie_id := ie_id dst; ie_len := 4; ie_data := d |}
  | _ => None
  end.

Definition dect_sfmt_parse_time_date (src : dect_sfmt_ie)
  : option dect_ie_common :=
  let data := ie_data src in
  let coding := Z.shiftr (rd data 2) 6 in
  let interpretation := Z.land (rd data 2) 0x3f in
  let n := 3 in
  let date := negb (Z.land coding 0x2 =? 0) in
  let n' := if date then n + 3 else n in
  let time := negb (Z.land coding 0x1 =? 0) in
  Some (IE_time_date
    {| td_coding := coding;
       td_interpretation := interpretation;
       td_year := if date then rd data n else 0;
       td_month := if date then rd data (n + 1) else 0;
       td_day := if date then rd data (n + 2) else 0;
       td_hour := if time then rd data n' else 0;
       td_minute := if time then rd data (n' + 1) else 0;
       td_second := if time then rd data (n' + 2) else 0;
       td_timezone := if time then rd data (n' + 3) else 0 |}).

Definition dect_sfmt_build_time_date (dst : dect_sfmt_ie)
  (ie : dect_ie_common) : option dect_sfmt_ie :=
  match ie with
  | IE_time_date src =>
    let d := wr (ie_data dst) 2 (Z.shiftl (td_coding src) 6) in
    let d := wr_or d 2 (td_interpretation src) in
    let n := 3 in
    let date := negb (Z.land (td_coding src) 0x2 =? 0) in
    let d := if date
             then wr (wr (wr d n (td_year src)) (n + 1) (td_month src))
                     (n + 2) (td_day src)
             else d in
    let n := if date then n + 3 else n in
    let time := negb (Z.land (td_coding src) 0x1 =? 0) in
    let d := if time
             then wr (wr (wr (wr d n (td_hour src)) (n + 1) (td_minute src))
                         (n + 2) (td_second src)) (n + 3) (td_timezone src)
             else d in
    let n := if time then n + 4 else n in
    Some {| ie_id := ie_id dst; ie_len := n; ie_data := d |}
  | _ => None
  end.

Definition dect_sfmt_parse_multi_display (src : dect_sfmt_ie)
  : option dect_ie_common :=
  let len := ie_len src - 2 in
  if len >? display_info_size X then None
  else Some (IE_display
    {| display_len := len; display_info := sub (ie_data src) 2 len |}).

Definition dect_sfmt_build_multi_display (dst : dect_sfmt_ie)
  (ie : dect_ie_common) : option dect_sfmt_ie :=
  match ie with
  | IE_display src =>
    Some {| ie_id := ie_id dst; ie_len := display_len src + 2;
            ie_data := memcpy (ie_data dst) 2
                         (sub (display_info src) 0 (display_len src)) |}
  | _ => None
  end.

Definition dect_sfmt_parse_multi_keypad (src : dect_sfmt_ie)
  : option dect_ie_common :=
  let len := ie_len src - 2 in
  if len >? keypad_info_size X then None
  else Some (IE_keypad
    {| keypad_len := len; keypad_info := sub (ie_data src) 2 len |}).

Definition dect_sfmt_build_multi_keypad (dst : dect_sfmt_ie)
  (ie : dect_ie_common) : option dect_sfmt_ie :=
  match ie with
  | IE_keypad src =>
    Some {| ie_id := ie_id dst; ie_len := keypad_len src + 2;
            ie_data := memcpy (ie_data dst) 2
                         (sub (keypad_info src) 0 (keypad_len src)) |}
  | _ => None
  end.

Definition dect_sfmt_parse_feature_activate (src : dect_sfmt_ie)
  : option dect_ie_common :=
  Some (IE_feature_activate
    (Z.land (rd (ie_data src) 2) (Z.lnot DECT_OCTET_GROUP_END))).

Definition dect_sfmt_build_feature_activate (dst : dect_sfmt_ie)
  (ie : dect_ie_common) : option dect_sfmt_ie :=
  match ie with
  | IE_feature_activate feature =>
    let d := wr (ie_data dst) 2 feature in
    let d := wr_or d 2 DECT_OCTET_GROUP_END in
    Some {| ie_id := ie_id dst; ie_len := 3; ie_data := d |}
  | _ => None
  end.

Definition dect_sfmt_parse_feature_indicate (src : dect_sfmt_ie)
  : option dect_ie_common :=
  Some (IE_feature_indicate
    {| fi_feature := Z.land (rd (ie_data src) 2) (Z.lnot DECT_OCTET_GROUP_END);
       fi_status := rd (ie_data src) 3 |}).

Definition dect_sfmt_parse_network_parameter (src : dect_sfmt_ie)
  : option dect_ie_common :=
  let len := ie_len src - 3 in
  if len >? network_parameter_data_size X then None
  else Some (IE_network_parameter
    {| np_discriminator := rd (ie_data src) 2;
       np_len := len;
       np_data := sub (ie_data src) 3 len |}).

Definition dect_sfmt_build_network_parameter (dst : dect_sfmt_ie)
  (ie : dect_ie_common) : option dect_sfmt_ie :=
  match ie with
  | IE_network_parameter src =>
    let d := wr (ie_data dst) 2 (np_discriminator src) in
    let d := memcpy d 3 (sub (np_data src) 0 (np_len src)) in
    Some {| ie_id := ie_id dst; ie_len := np_len src + 3; ie_data := d |}
  | _ => None
  end.

Definition dect_sfmt_parse_reject_reason (src : dect_sfmt_ie)
  : option dect_ie_common :=
  Some (IE_reject_reason (rd (ie_data src) 2)).

Definition dect_sfmt_build_reject_reason (dst : dect_sfmt_ie)
  (ie : dect_ie_common) : option dect_sfmt_ie :=
  match ie with
  | IE_reject_reason reason =>
    Some {| ie_id := ie_id dst; ie_len := 3;
            ie_data := wr (ie_data dst) 2 reason |}
  | _ => None
  end.

Definition dect_sfmt_parse_setup_capability (src : dect_sfmt_ie)
  : option dect_ie_common :=
  Some (IE_setup_capability
    {| sc_page_capability := Z.land (rd (ie_data src) 2) 0x3;
       sc_setup_capability := Z.shiftr (Z.land (rd (ie_data src) 2) 0xc) 2 |}).

Definition dect_sfmt_build_setup_capability (dst : dect_sfmt_ie)
  (ie : dect_ie_common) : option dect_sfmt_ie :=
  match ie with
  | IE_setup_capability src =>
    let d := wr (ie_data dst) 2 (sc_page_capability src) in
    let d := wr_or d 2 (Z.shiftl (sc_setup_capability src) 2) in
    let d := wr_or d 2 DECT_OCTET_GROUP_END in
    Some {| ie_id := ie_id dst; ie_len := 3; ie_data := d |}
  | _ => None
  end.

Definition dect_sfmt_parse_called_party_number (src : dect_sfmt_ie)
  : option dect_ie_common :=
  let len := ie_len src - 3 in
  if len >? called_party_number_address_size X then None
  else Some (IE_called_party_number
    {| cpn_type := Z.shiftr (Z.land (rd (ie_data src) 2) 0x70) 4;
       cpn_npi := Z.land (rd (ie_data src) 2) 0x0f;
       cpn_len := len;
       cpn_address := sub (ie_data src) 3 len |}).

Definition dect_sfmt_build_called_party_number (dst : dect_sfmt_ie)
  (ie : dect_ie_common) : option dect_sfmt_ie :=
  match ie with
  | IE_called_party_number src =>
    let d := wr (ie_data dst) 2 (Z.shiftl (cpn_type src) 4) in
    let d := wr_or d 2 (cpn_npi src) in
    let d := wr_or d 2 DECT_OCTET_GROUP_END in
    let d := memcpy d 3 (sub (cpn_address src) 0 (cpn_len src)) in
    Some {| ie_id := ie_id dst; ie_len := cpn_len src + 3; ie_data := d |}
  | _ => None
  end.

Definition dect_sfmt_parse_duration (src : dect_sfmt_ie)
  : option dect_ie_common :=
  Some (IE_duration
    {| dur_lock := Z.land (rd (ie_data src) 2) 0x70;
       dur_time := Z.land (rd (ie_data src) 2) 0x0f;
       dur_duration :=
         if Z.land (rd (ie_data src) 2) DECT_OCTET_GROUP_END =? 0
         then rd (ie_data src) 3 else 0 |}).

Definition dect_sfmt_build_duration (dst : dect_sfmt_ie)
  (ie : dect_ie_common) : option dect_sfmt_ie :=
  match ie with
  | IE_duration src =>
    let d := wr (ie_data dst) 2 (Z.lor (Z.shiftl (dur_lock src) 4) (dur_time src)) in
    if negb (dur_time src =? DECT_TIME_LIMIT_DEFINED_TIME_LIMIT_1) &&
       negb (dur_time src =? DECT_TIME_LIMIT_DEFINED_TIME_LIMIT_2)
    then Some {| ie_id := ie_id dst; ie_len := 3;
                 ie_data := wr_or d 2 DECT_OCTET_GROUP_END |}
    else Some {| ie_id := ie_id dst; ie_len := 3 + 1;
                 ie_data := wr d 3 (dur_duration src) |}
  | _ => None
  end.

Definition dect_sfmt_parse_iwu_to_iwu (src : dect_sfmt_ie)
  : option dect_ie_common :=
  if Z.land (rd (ie_data src) 2) DECT_OCTET_GROUP_END =? 0 then None
  else
    let len := ie_len src - 3 in
    if len >? iwu_to_iwu_data_size X then None
    else Some (IE_iwu_to_iwu
      {| iwu_sr := Z.land (rd (ie_data src) 2) 0x40;
         iwu_pd := Z.land (rd (ie_data src) 2) 0x3f;
         iwu_len := len;
         iwu_data := sub (ie_data src) 3 len |}).

Definition dect_sfmt_build_iwu_to_iwu (dst : dect_sfmt_ie)
  (ie : dect_ie_common) : option dect_sfmt_ie :=
  match ie with
  | IE_iwu_to_iwu src =>
    let d := wr (ie_data dst) 2 (if iwu_sr src =? 0 then 0x0 else 0x40) in
    let d := wr_or d 2 (iwu_pd src) in
    let d := wr_or d 2 DECT_OCTET_GROUP_END in
    let d := memcpy d 3 (sub (iwu_data src) 0 (iwu_len src)) in
    Some {| ie_id := ie_id dst; ie_len := iwu_len src + 3; ie_data := d |}
  | _ => None
  end.

(** The handlers left open, on the structures of their IEs. *)
Definition x_parse_handler (id : Z)
  : option (dect_sfmt_ie -> option dect_ie_common) :=
  match x_parse X id with
  | Some parse =>
    Some (fun src => match parse src with
                     | Some v => Some (IE_other v)
                     | None => None
                     end)
  | None => None
  end.

Definition x_build_handler (id : Z)
  : option (dect_sfmt_ie -> dect_ie_common -> option dect_sfmt_ie) :=
  match x_build X id with
  | Some build =>
    Some (fun dst ie => match ie with
                        | IE_other v => build dst v
                        | _ => None
                        end)
  | None => None
  end.

(** ** The IE catalog *)

(** [struct dect_ie_handler]; [ieh_sized] is [ieh->size > 0], which
    holds of every entry that sets [.size]. *)
Record dect_ie_handler := {
  ieh_sized : bool;
  ieh_parse : option (dect_sfmt_ie -> option dect_ie_common);
  ieh_build : option (dect_sfmt_ie -> dect_ie_common -> option dect_sfmt_ie)
}.

Definition handler (sized : bool)
  (parse : option (dect_sfmt_ie -> option dect_ie_common))
  (build : option (dect_sfmt_ie -> dect_ie_common -> option dect_sfmt_ie))
  : dect_ie_handler :=
  {| ieh_sized := sized; ieh_parse := parse; ieh_build := build |}.

(** The identifiers whose handlers are parameters (see [externals]). *)
Definition x_ids : list Z :=
  [ DECT_IE_INFO_TYPE; DECT_IE_PORTABLE_IDENTITY; DECT_IE_FIXED_IDENTITY;
    DECT_IE_AUTH_TYPE; DECT_IE_TERMINAL_CAPABILITY;
    DECT_IE_CALLING_PARTY_NUMBER; DECT_IE_CALLING_PARTY_NAME;
    DECT_IE_ESCAPE_TO_PROPRIETARY; DECT_IE_CODEC_LIST;
    DECT_IE_EVENTS_NOTIFICATION ].

(** The identifiers of the entries that carry a name, and most of them
    a size, but neither a parse nor a build handler. *)
Definition sized_only_ids : list Z :=
  [ DECT_IE_NWK_ASSIGNED_IDENTITY; DECT_IE_IWU_ATTRIBUTES;
    DECT_IE_CALL_ATTRIBUTES; DECT_IE_CONNECTION_ATTRIBUTES;
    DECT_IE_CALL_IDENTITY; DECT_IE_CONNECTION_IDENTITY;
    DECT_IE_MMS_GENERIC_HEADER; DECT_IE_MMS_OBJECT_HEADER;
    DECT_IE_MMS_EXTENDED_HEADER;
    DECT_IE_EXT_HO_INDICATOR; DECT_IE_ZAP_FIELD; DECT_IE_SERVICE_CLASS;
    DECT_IE_KEY; DECT_IE_END_TO_END_COMPATIBILITY; DECT_IE_RATE_PARAMETERS;
    DECT_IE_TRANSIT_DELAY; DECT_IE_WINDOW_SIZE; DECT_IE_CALLED_PARTY_SUBADDR;
    DECT_IE_SEGMENTED_INFO; DECT_IE_ALPHANUMERIC; DECT_IE_MODEL_IDENTIFIER;
    DECT_IE_IWU_PACKET; DECT_IE_CALL_INFORMATION ].

Definition mem (id : Z) (l : list Z) : bool := existsb (Z.eqb id) l.

(** [dect_ie_handlers[id]]; an index the table does not initialise is
    an entry of null pointers and size 0. *)
Definition dect_ie_handlers (id : Z) : dect_ie_handler :=
  if id =? DECT_IE_REPEAT_INDICATOR then
    handler false (Some dect_sfmt_parse_repeat_indicator)
                  (Some dect_sfmt_build_repeat_indicator)
  else if (id =? DECT_IE_SENDING_COMPLETE) || (id =? DECT_IE_DELIMITER_REQUEST)
          || (id =? DECT_IE_USE_TPUI) then
    handler true (Some dect_sfmt_parse_empty_single_octet)
                 (Some dect_sfmt_build_empty_single_octet)
  else if id =? DECT_IE_BASIC_SERVICE then
    handler true (Some dect_sfmt_parse_basic_service)
                 (Some dect_sfmt_build_basic_service)
  else if id =? DECT_IE_RELEASE_REASON then
    handler true (Some dect_sfmt_parse_release_reason)
                 (Some dect_sfmt_build_release_reason)
  else if id =? DECT_IE_SIGNAL then
    handler true (Some dect_sfmt_parse_signal) (Some dect_sfmt_build_signal)
  else if id =? DECT_IE_TIMER_RESTART then
    handler true (Some dect_sfmt_parse_timer_restart) None
  else if id =? DECT_IE_SINGLE_DISPLAY then
    handler true (Some dect_sfmt_parse_single_display)
                 (Some dect_sfmt_build_single_display)
  else if id =? DECT_IE_SINGLE_KEYPAD then
    handler true (Some dect_sfmt_parse_single_keypad)
                 (Some dect_sfmt_build_single_keypad)
  else if id =? DECT_IE_IDENTITY_TYPE then
    handler true (Some dect_sfmt_parse_identity_type)
                 (Some dect_sfmt_build_identity_type)
  else if id =? DECT_IE_LOCATION_AREA then
    handler true (Some dect_sfmt_parse_location_area)
                 (Some dect_sfmt_build_location_area)
  else if id =? DECT_IE_ALLOCATION_TYPE then
    handler true (Some dect_sfmt_parse_allocation_type)
                 (Some dect_sfmt_build_allocation_type)
  else if (id =? DECT_IE_RAND) || (id =? DECT_IE_RS) then
    handler true (Some dect_sfmt_parse_auth_value)
                 (Some dect_sfmt_build_auth_value)
  else if id =? DECT_IE_RES then
    handler true (Some dect_sfmt_parse_auth_res) (Some dect_sfmt_build_auth_res)
  else if id =? DECT_IE_SERVICE_CHANGE_INFO then
    handler true (Some dect_sfmt_parse_service_change_info) None
  else if id =? DECT_IE_CIPHER_INFO then
    handler true (Some dect_sfmt_parse_cipher_info)
                 (Some dect_sfmt_build_cipher_info)
  else if id =? DECT_IE_FACILITY then
    handler true (Some dect_sfmt_parse_facility) None
  else if id =? DECT_IE_PROGRESS_INDICATOR then
    handler true (Some dect_sfmt_parse_progress_indicator)
                 (Some dect_sfmt_build_progress_indicator)
  else if id =? DECT_IE_TIME_DATE then
    handler true (Some dect_sfmt_parse_time_date)
                 (Some dect_sfmt_build_time_date)
  else if id =? DECT_IE_MULTI_DISPLAY then
    handler true (Some dect_sfmt_parse_multi_display)
                 (Some dect_sfmt_build_multi_display)
  else if id =? DECT_IE_MULTI_KEYPAD then
    handler true (Some dect_sfmt_parse_multi_keypad)
                 (Some dect_sfmt_build_multi_keypad)
  else if id =? DECT_IE_FEATURE_ACTIVATE then
    handler true (Some dect_sfmt_parse_feature_activate)
                 (Some dect_sfmt_build_feature_activate)
  else if id =? DECT_IE_FEATURE_INDICATE then
    handler true (Some dect_sfmt_parse_feature_indicate) None
  else if id =? DECT_IE_NETWORK_PARAMETER then
    handler true (Some dect_sfmt_parse_network_parameter)
                 (Some dect_sfmt_build_network_parameter)
  else if id =? DECT_IE_REJECT_REASON then
    handler true (Some dect_sfmt_parse_reject_reason)
                 (Some dect_sfmt_build_reject_reason)
  else if id =? DECT_IE_SETUP_CAPABILITY then
    handler true (Some dect_sfmt_parse_setup_capability)
                 (Some dect_sfmt_build_setup_capability)
  else if id =? DECT_IE_CALLED_PARTY_NUMBER then
    handler true (Some dect_sfmt_parse_called_party_number)
                 (Some dect_sfmt_build_called_party_number)
  else if id =? DECT_IE_DURATION then
    handler true (Some dect_sfmt_parse_duration) (Some dect_sfmt_build_duration)
  else if id =? DECT_IE_IWU_TO_IWU then
    handler true (Some dect_sfmt_parse_iwu_to_iwu)
                 (Some dect_sfmt_build_iwu_to_iwu)
  else if mem id x_ids then
    handler (x_sized X id) (x_parse_handler id) (x_build_handler id)
  else if mem id sized_only_ids then
    handler true None None
  else
    handler false None None.

(** ** Parsing and building one IE *)

(** What a parse handler that works in place leaves behind when it
    returns -1.  The entry of <<REPEAT-INDICATOR>> sets no [.size]:
    nothing is allocated, and its handler writes through the cursor,
    which points to the list of the message.
    [dect_sfmt_parse_repeat_indicator] stores the type of the list
    before it looks at it.  The [NULL] that [err2] stores through
    [dst] goes to the front of the list structure, where its [common]
    header is (the cursor is cast to the list, and the build handler
    comes back from [&iel->common] with [dect_ie_container]); the
    field [type] is not reached: the list keeps the type the IE
    carried. *)
Definition left_in_place (ie : dect_sfmt_ie) : option dect_ie_common :=
  if ie_id ie =? DECT_IE_REPEAT_INDICATOR then
    Some (IE_list (Z.land (rd (ie_data ie) 0) DECT_SFMT_IE_FIXED_VAL_MASK))
  else None.

(** [dect_parse_sfmt_ie]: the return value and what is stored through
    [dst]: [Some (Some v)] for the structure [v] (for a list, the list
    with its type set), [Some None] for [NULL], and [None] when [*dst]
    is left as it was.  When the handler fails, a structure that was
    allocated is freed and the pointer cleared; without allocation
    what the handler wrote in place stays. *)
Definition dect_parse_sfmt_ie (dh : dect_handle) (type : Z) (ie : dect_sfmt_ie)
  : Z * option (option dect_ie_common) :=
  let ieh := dect_ie_handlers (ie_id ie) in
  match ieh_parse ieh with
  | None => (-1, None)
  | Some parse =>
    if ieh_sized ieh && dh_nomem dh then (-1, Some None)
    else
      match parse ie with
      | Some v => (0, Some (Some v))
      | None => (-1, Some (if ieh_sized ieh then None else left_in_place ie))
      end
  end.

(** [mb->len += dst.len] after the IE was written at
    [mb->data + mb->len]. *)
Definition mbuf_commit (mb : dect_msg_buf) (dst : dect_sfmt_ie) : dect_msg_buf :=
  {| mb_data := mb_data mb ++ sub (ie_data dst) 0 (ie_len dst);
     mb_tail := skipn (Z.to_nat (ie_len dst)) (ie_data dst);
     mb_type := mb_type mb |}.

(** The identifier [dect_build_sfmt_ie] builds under: a display or a
    keypad of more than one octet leaves a single-octet slot as the
    multi-octet IE. *)
Definition build_type (type : Z) (ie : dect_ie_common) : Z :=
  let type :=
    if type =? DECT_IE_SINGLE_DISPLAY then
      match ie with
      | IE_display display =>
        if display_len display >? 1 then DECT_IE_MULTI_DISPLAY else type
      | _ => type
      end
    else type in
  if type =? DECT_IE_SINGLE_KEYPAD then
    match ie with
    | IE_keypad keypad =>
      if keypad_len keypad >? 1 then DECT_IE_MULTI_KEYPAD else type
    | _ => type
    end
  else type.

(** The [dst] a build handler starts from: [dst.data] is the free
    part of the buffer, [dst.len] is 0. *)
Definition build_dst (mb : dect_msg_buf) : dect_sfmt_ie :=
  {| ie_id := 0; ie_len := 0; ie_data := mb_tail mb |}.

(** [dect_build_sfmt_ie]: the return value and the buffer, or [None]
    when the [dect_assert] of [dect_build_sfmt_ie_header] fails.  A
    type without build handler leaves through [err1] with [err] still
    0. *)
Definition dect_build_sfmt_ie (dh : dect_handle) (type : Z) (mb : dect_msg_buf)
  (ie : dect_ie_common) : option (Z * dect_msg_buf) :=
  let type := build_type type ie in
  let ieh := dect_ie_handlers type in
  match ieh_build ieh with
  | None => Some (0, mb)
  | Some build =>
    match build (build_dst mb) ie with
    | None => Some (-1, mb)
    | Some dst =>
      match dect_build_sfmt_ie_header dst type with
      | None => None
      | Some dst => Some (0, mbuf_commit mb dst)
      end
    end
  end.

Definition __dect_build_sfmt_ie (dh : dect_handle) (desc : dect_sfmt_ie_desc)
  (mb : dect_msg_buf) (ie : dect_ie_common) : option (Z * dect_msg_buf) :=
  match dect_tx_status dh desc with
  | DECT_SFMT_IE_NONE => Some (DECT_SFMT_INVALID_IE, mb)
  | _ => dect_build_sfmt_ie dh (type desc) mb ie
  end.

(** [err = ...; if (err != DECT_SFMT_OK) return err;] followed by the
    rest of the function. *)
Definition and_then (r : option (Z * dect_msg_buf))
  (k : dect_msg_buf -> option (Z * dect_msg_buf)) : option (Z * dect_msg_buf) :=
  match r with
  | None => None
  | Some (err, mb) =>
    if negb (err =? DECT_SFMT_OK) then Some (err, mb) else k mb
  end.

(** ** Messages

    A message structure ([struct dect_msg_common] followed by the
    members [ie[]]) is the list of its members in the order of the
    descriptor: a pointer to an IE ([NULL] is [None]) for a plain
    entry, a [struct dect_ie_list] for a <<REPEAT-INDICATOR>> entry.
    The entry flagged [DECT_SFMT_IE_REPEAT] that follows has no member
    of its own: its IEs are the elements of that list. *)

Inductive dect_msg_member :=
| Member (ie : option dect_ie_common)
| MemberList (iel : dect_ie_list).

Definition dect_msg_common := list dect_msg_member.

Definition is_repeat (desc : dect_sfmt_ie_desc) : bool :=
  negb (Z.land (flags desc) DECT_SFMT_IE_REPEAT =? 0).

(** Modelled from the spec: [dect_ie_list_init] is not among the
    sources; it leaves the list without elements (section 3, IE
    list).  The [type] of an empty list is read by nobody; it is 0
    here. *)
Definition dect_ie_list_init : dect_ie_list :=
  {| il_type := 0; il_list := [] |}.

(** [dect_msg_ie_init(desc, ie)]: the member of the entry [desc] as
    the cursor finds it on arrival. *)
Definition dect_msg_ie_init (desc : dect_sfmt_ie_desc) : list dect_msg_member :=
  if type desc =? DECT_IE_REPEAT_INDICATOR then [MemberList dect_ie_list_init]
  else if negb (is_repeat desc) then [Member None]
  else [].

(** The member of [desc] after [dect_parse_sfmt_ie] stored [stored]
    through the cursor.  At a <<REPEAT-INDICATOR>> entry the cursor is
    the list and the handler sets its [type], also when it then
    rejects the type and returns -1.  At an entry flagged
    [DECT_SFMT_IE_REPEAT] the cursor has already left the list
    ([dect_next_ie] moved it on when the walk left the
    <<REPEAT-INDICATOR>> entry), the pointer is stored in the member
    that follows the list, and the [dect_msg_ie_init] of the next
    entry overwrites it: the list keeps no element. *)
Definition stored_member (desc : dect_sfmt_ie_desc)
  (stored : option (option dect_ie_common)) : list dect_msg_member :=
  if type desc =? DECT_IE_REPEAT_INDICATOR then
    match stored with
    | Some (Some (IE_list t)) => [MemberList {| il_type := t; il_list := [] |}]
    | _ => dect_msg_ie_init desc
    end
  else if negb (is_repeat desc) then
    match stored with
    | Some o => [Member o]
    | None => [Member None]
    end
  else [].

Definition init_head (desc : dect_sfmt_msg_desc) : list dect_msg_member :=
  match desc with
  | [] => []
  | d :: _ => dect_msg_ie_init d
  end.

(** The result of [dect_parse_sfmt_msg]: the return value, the
    members of [_dst] the walk has set, and the buffer. *)
Record parse_result := {
  p_err : Z;
  p_msg : dect_msg_common;
  p_mb : dect_msg_buf
}.

Definition with_members (m : list dect_msg_member) (r : parse_result)
  : parse_result :=
  {| p_err := p_err r; p_msg := m ++ p_msg r; p_mb := p_mb r |}.

(** The policy switch of the inner loop for the entry [desc] and an
    IE of identifier [id]: [goto found], leave the switch and advance
    the cursor, or return [err]. *)
Inductive policy := Found | Advance | Reject (err : Z).

Definition dect_rx_policy (dh : dect_handle) (desc : dect_sfmt_ie_desc)
  (id : Z) : policy :=
  match dect_rx_status dh desc with
  | DECT_SFMT_IE_MANDATORY =>
    if type desc =? id then Found
    else Reject DECT_SFMT_MANDATORY_IE_MISSING
  | DECT_SFMT_IE_NONE =>
    if type desc =? id then Reject (-1) else Advance
  | DECT_SFMT_IE_OPTIONAL =>
    if type desc =? id then Found
    else if (type desc =? DECT_IE_SINGLE_DISPLAY) &&
            (id =? DECT_IE_MULTI_DISPLAY) then Found
    else if (type desc =? DECT_IE_SINGLE_KEYPAD) &&
            (id =? DECT_IE_MULTI_KEYPAD) then Found
    else Advance
  end.

Definition is_mandatory (s : dect_sfmt_ie_status) : bool :=
  match s with
  | DECT_SFMT_IE_MANDATORY => true
  | _ => false
  end.

(** The loop at [out:]. *)
Fixpoint parse_out (dh : dect_handle) (desc : dect_sfmt_msg_desc)
  (mb : dect_msg_buf) : parse_result :=
  match desc with
  | [] => {| p_err := DECT_SFMT_OK; p_msg := []; p_mb := mb |}
  | d :: rest =>
    if is_mandatory (dect_rx_status dh d) then
      {| p_err := DECT_SFMT_MANDATORY_IE_MISSING;
         p_msg := dect_msg_ie_init d; p_mb := mb |}
    else with_members (dect_msg_ie_init d) (parse_out dh rest mb)
  end.

(** An empty variable-length IE. *)
Definition is_empty_ie (ie : dect_sfmt_ie) : bool :=
  negb (is_fixed_len (ie_id ie)) && (ie_len ie =? 2).

(** The body of [while (mb->len > 0)] from the inner [while (1)] on,
    with the header of the IE at the front of the buffer parsed into
    [ie] and the cursor at the first entry of [desc]. *)
Fixpoint parse_walk (dh : dect_handle) (desc : dect_sfmt_msg_desc)
  (ie : dect_sfmt_ie) (mb : dect_msg_buf) : parse_result :=
  match desc with
  | [] => {| p_err := DECT_SFMT_OK; p_msg := []; p_mb := mb |}
  | d :: rest =>
    match dect_rx_policy dh d (ie_id ie) with
    | Reject err =>
      {| p_err := err; p_msg := dect_msg_ie_init d; p_mb := mb |}
    | Advance => with_members (dect_msg_ie_init d) (parse_walk dh rest ie mb)
    | Found =>
      let r := if is_empty_ie ie then (0, None)
               else dect_parse_sfmt_ie dh (type d) ie in
      if (fst r <? 0) && is_mandatory (dect_rx_status dh d) then
        {| p_err := DECT_SFMT_MANDATORY_IE_ERROR;
           p_msg := stored_member d (snd r); p_mb := mb |}
      else
        let mb := dect_mbuf_pull mb (ie_len ie) in
        with_members (stored_member d (snd r))
          (if mb_len mb >? 0 then
             match dect_parse_sfmt_ie_header mb with
             | None => {| p_err := -1; p_msg := init_head rest; p_mb := mb |}
             | Some ie => parse_walk dh rest ie mb
             end
           else parse_out dh rest mb)
    end
  end.

(** [dect_parse_sfmt_msg] *)
Definition dect_parse_sfmt_msg (dh : dect_handle) (mdesc : dect_sfmt_msg_desc)
  (mb : dect_msg_buf) : parse_result :=
  if mb_len mb >? 0 then
    match dect_parse_sfmt_ie_header mb with
    | None => {| p_err := -1; p_msg := init_head mdesc; p_mb := mb |}
    | Some ie => parse_walk dh mdesc ie mb
    end
  else parse_out dh mdesc mb.

(** [dect_foreach_ie(rsrc, iel)] with the body of the build loop. *)
Fixpoint build_elements (dh : dect_handle) (desc : dect_sfmt_ie_desc)
  (mb : dect_msg_buf) (l : list dect_ie_common) : option (Z * dect_msg_buf) :=
  match l with
  | [] => Some (DECT_SFMT_OK, mb)
  | rsrc :: l =>
    and_then (__dect_build_sfmt_ie dh desc mb rsrc)
             (fun mb => build_elements dh desc mb l)
  end.

(** [dect_build_sfmt_msg]: the return value and the buffer; [None]
    when a [dect_assert] fails or the walk leaves the descriptor table
    or the message structure. *)
Fixpoint dect_build_sfmt_msg (dh : dect_handle) (desc : dect_sfmt_msg_desc)
  (src : dect_msg_common) (mb : dect_msg_buf) : option (Z * dect_msg_buf) :=
  match desc with
  | [] => Some (DECT_SFMT_OK, mb)
  | d :: rest =>
    if type d =? DECT_IE_REPEAT_INDICATOR then
      match src with
      | MemberList iel :: next =>
        match il_list iel with
        | [] =>
          match rest with
          | [] => None
          | _ :: rest => dect_build_sfmt_msg dh rest next mb
          end
        | _ :: tl =>
          and_then
            (match tl with
             | [] => Some (DECT_SFMT_OK, mb)
             | _ :: _ => __dect_build_sfmt_ie dh d mb (IE_list (il_type iel))
             end)
            (fun mb =>
               match rest with
               | [] => None
               | r :: rest =>
                 if is_repeat r then
                   and_then (build_elements dh r mb (il_list iel))
                            (fun mb => dect_build_sfmt_msg dh rest next mb)
                 else None
               end)
        end
      | _ => None
      end
    else
      match src with
      | Member o :: next =>
        let next := if is_repeat d then src else next in
        match o with
        | Some ie =>
          and_then (__dect_build_sfmt_ie dh d mb ie)
                   (fun mb => dect_build_sfmt_msg dh rest next mb)
        | None =>
          if is_mandatory (dect_tx_status dh d)
          then Some (DECT_SFMT_MANDATORY_IE_MISSING, mb)
          else dect_build_sfmt_msg dh rest next mb
        end
      | _ => None
      end
  end.

(** ** Message descriptors of cc.c and mm.c

    The tables name the identifiers [S_SO_IE_], [S_SE_IE_], [S_DO_IE_]
    and [S_VL_IE_]; the codec compares them with the [DECT_IE_]
    identifiers of the wire, under which they are written here, and
    the status fields [IE_NONE], [IE_OPTIONAL] and [IE_MANDATORY] as
    in the source.  The closing [DECT_SFMT_IE_END_MSG] is the end of
    the list. *)

Abbreviation IE_NONE := DECT_SFMT_IE_NONE (only parsing).
Abbreviation IE_OPTIONAL := DECT_SFMT_IE_OPTIONAL (only parsing).
Abbreviation IE_MANDATORY := DECT_SFMT_IE_MANDATORY (only parsing).

Definition cc_setup_msg_desc : dect_sfmt_msg_desc :=
  [
    DECT_SFMT_IE DECT_IE_PORTABLE_IDENTITY IE_MANDATORY IE_MANDATORY 0;
    DECT_SFMT_IE DECT_IE_FIXED_IDENTITY IE_MANDATORY IE_MANDATORY 0;
    DECT_SFMT_IE DECT_IE_NWK_ASSIGNED_IDENTITY IE_NONE IE_OPTIONAL 0;
    DECT_SFMT_IE DECT_IE_BASIC_SERVICE IE_MANDATORY IE_MANDATORY 0;
    DECT_SFMT_IE DECT_IE_REPEAT_INDICATOR IE_OPTIONAL IE_OPTIONAL 0;
    DECT_SFMT_IE DECT_IE_IWU_ATTRIBUTES IE_OPTIONAL IE_OPTIONAL DECT_SFMT_IE_REPEAT;
    DECT_SFMT_IE DECT_IE_REPEAT_INDICATOR IE_OPTIONAL IE_OPTIONAL 0;
    DECT_SFMT_IE DECT_IE_CALL_ATTRIBUTES IE_OPTIONAL IE_OPTIONAL DECT_SFMT_IE_REPEAT;
    DECT_SFMT_IE DECT_IE_REPEAT_INDICATOR IE_OPTIONAL IE_OPTIONAL 0;
    DECT_SFMT_IE DECT_IE_CONNECTION_ATTRIBUTES IE_OPTIONAL IE_OPTIONAL DECT_SFMT_IE_REPEAT;
    DECT_SFMT_IE DECT_IE_CIPHER_INFO IE_OPTIONAL IE_OPTIONAL 0;
    DECT_SFMT_IE DECT_IE_CONNECTION_IDENTITY IE_OPTIONAL IE_OPTIONAL 0;
    DECT_SFMT_IE DECT_IE_REPEAT_INDICATOR IE_OPTIONAL IE_OPTIONAL 0;
    DECT_SFMT_IE DECT_IE_FACILITY IE_OPTIONAL IE_OPTIONAL DECT_SFMT_IE_REPEAT;
    DECT_SFMT_IE DECT_IE_REPEAT_INDICATOR IE_OPTIONAL IE_NONE 0;
    DECT_SFMT_IE DECT_IE_PROGRESS_INDICATOR IE_OPTIONAL IE_NONE DECT_SFMT_IE_REPEAT;
    DECT_SFMT_IE DECT_IE_SINGLE_DISPLAY IE_OPTIONAL IE_NONE 0;
    DECT_SFMT_IE DECT_IE_SINGLE_KEYPAD IE_NONE IE_OPTIONAL 0;
    DECT_SFMT_IE DECT_IE_SIGNAL IE_OPTIONAL IE_NONE 0;
    DECT_SFMT_IE DECT_IE_FEATURE_ACTIVATE IE_NONE IE_OPTIONAL 0;
    DECT_SFMT_IE DECT_IE_FEATURE_INDICATE IE_OPTIONAL IE_NONE 0;
    DECT_SFMT_IE DECT_IE_NETWORK_PARAMETER IE_OPTIONAL IE_OPTIONAL 0;
    DECT_SFMT_IE DECT_IE_EXT_HO_INDICATOR IE_OPTIONAL IE_NONE 0;
    DECT_SFMT_IE DECT_IE_TERMINAL_CAPABILITY IE_NONE IE_OPTIONAL 0;
    DECT_SFMT_IE DECT_IE_END_TO_END_COMPATIBILITY IE_OPTIONAL IE_OPTIONAL 0;
    DECT_SFMT_IE DECT_IE_RATE_PARAMETERS IE_OPTIONAL IE_OPTIONAL 0;
    DECT_SFMT_IE DECT_IE_TRANSIT_DELAY IE_OPTIONAL IE_OPTIONAL 0;
    DECT_SFMT_IE DECT_IE_WINDOW_SIZE IE_OPTIONAL IE_OPTIONAL 0;
    DECT_SFMT_IE DECT_IE_CALLING_PARTY_NUMBER IE_OPTIONAL IE_OPTIONAL 0;
    DECT_SFMT_IE DECT_IE_CALLED_PARTY_NUMBER IE_OPTIONAL IE_OPTIONAL 0;
    DECT_SFMT_IE DECT_IE_CALLED_PARTY_SUBADDR IE_OPTIONAL IE_OPTIONAL 0;
    DECT_SFMT_IE DECT_IE_SENDING_COMPLETE IE_OPTIONAL IE_OPTIONAL 0;
    DECT_SFMT_IE DECT_IE_REPEAT_INDICATOR IE_OPTIONAL IE_OPTIONAL 0;
    DECT_SFMT_IE DECT_IE_SEGMENTED_INFO IE_OPTIONAL IE_OPTIONAL DECT_SFMT_IE_REPEAT;
    DECT_SFMT_IE DECT_IE_IWU_TO_IWU IE_OPTIONAL IE_OPTIONAL 0;
    DECT_SFMT_IE DECT_IE_IWU_PACKET IE_OPTIONAL IE_OPTIONAL 0;
    DECT_SFMT_IE DECT_IE_CALLING_PARTY_NAME IE_OPTIONAL IE_OPTIONAL 0;
    DECT_SFMT_IE DECT_IE_CODEC_LIST IE_OPTIONAL IE_OPTIONAL 0;
    DECT_SFMT_IE DECT_IE_CALL_INFORMATION IE_OPTIONAL IE_OPTIONAL 0;
    DECT_SFMT_IE DECT_IE_ESCAPE_TO_PROPRIETARY IE_OPTIONAL IE_OPTIONAL 0
  ].

Definition cc_info_msg_desc : dect_sfmt_msg_desc :=
  [
    DECT_SFMT_IE DECT_IE_LOCATION_AREA IE_NONE IE_OPTIONAL 0;
    DECT_SFMT_IE DECT_IE_NWK_ASSIGNED_IDENTITY IE_NONE IE_OPTIONAL 0;
    DECT_SFMT_IE DECT_IE_REPEAT_INDICATOR IE_OPTIONAL IE_OPTIONAL 0;
    DECT_SFMT_IE DECT_IE_FACILITY IE_OPTIONAL IE_OPTIONAL DECT_SFMT_IE_REPEAT;
    DECT_SFMT_IE DECT_IE_REPEAT_INDICATOR IE_OPTIONAL IE_OPTIONAL 0;
    DECT_SFMT_IE DECT_IE_PROGRESS_INDICATOR IE_OPTIONAL IE_NONE DECT_SFMT_IE_REPEAT;
    DECT_SFMT_IE DECT_IE_SINGLE_DISPLAY IE_OPTIONAL IE_NONE 0;
    DECT_SFMT_IE DECT_IE_SINGLE_KEYPAD IE_OPTIONAL IE_OPTIONAL 0;
    DECT_SFMT_IE DECT_IE_SIGNAL IE_OPTIONAL IE_NONE 0;
    DECT_SFMT_IE DECT_IE_FEATURE_ACTIVATE IE_NONE IE_OPTIONAL 0;
    DECT_SFMT_IE DECT_IE_FEATURE_INDICATE IE_OPTIONAL IE_NONE 0;
    DECT_SFMT_IE DECT_IE_NETWORK_PARAMETER IE_OPTIONAL IE_OPTIONAL 0;
    DECT_SFMT_IE DECT_IE_EXT_HO_INDICATOR IE_OPTIONAL IE_NONE 0;
    DECT_SFMT_IE DECT_IE_CALLING_PARTY_NUMBER IE_OPTIONAL IE_OPTIONAL 0;
    DECT_SFMT_IE DECT_IE_CALLED_PARTY_NUMBER IE_OPTIONAL IE_OPTIONAL 0;
    DECT_SFMT_IE DECT_IE_CALLED_PARTY_SUBADDR IE_OPTIONAL IE_OPTIONAL 0;
    DECT_SFMT_IE DECT_IE_SENDING_COMPLETE IE_OPTIONAL IE_OPTIONAL 0;
    DECT_SFMT_IE DECT_IE_TEST_HOOK_CONTROL IE_OPTIONAL IE_NONE 0;
    DECT_SFMT_IE DECT_IE_REPEAT_INDICATOR IE_OPTIONAL IE_OPTIONAL 0;
    DECT_SFMT_IE DECT_IE_IWU_TO_IWU IE_OPTIONAL IE_OPTIONAL DECT_SFMT_IE_REPEAT;
    DECT_SFMT_IE DECT_IE_IWU_PACKET IE_OPTIONAL IE_OPTIONAL 0;
    DECT_SFMT_IE DECT_IE_CALLING_PARTY_NAME IE_OPTIONAL IE_OPTIONAL 0;
    DECT_SFMT_IE DECT_IE_CODEC_LIST IE_OPTIONAL IE_OPTIONAL 0;
    DECT_SFMT_IE DECT_IE_CALL_INFORMATION IE_OPTIONAL IE_OPTIONAL 0;
    DECT_SFMT_IE DECT_IE_ESCAPE_TO_PROPRIETARY IE_OPTIONAL IE_OPTIONAL 0
  ].

Definition cc_setup_ack_msg_desc : dect_sfmt_msg_desc :=
  [
    DECT_SFMT_IE DECT_IE_INFO_TYPE IE_OPTIONAL IE_NONE 0;
    DECT_SFMT_IE DECT_IE_PORTABLE_IDENTITY IE_OPTIONAL IE_NONE 0;
    DECT_SFMT_IE DECT_IE_FIXED_IDENTITY IE_OPTIONAL IE_NONE 0;
    DECT_SFMT_IE DECT_IE_LOCATION_AREA IE_OPTIONAL IE_NONE 0;
    DECT_SFMT_IE DECT_IE_IWU_ATTRIBUTES IE_OPTIONAL IE_NONE 0;
    DECT_SFMT_IE DECT_IE_CALL_ATTRIBUTES IE_OPTIONAL IE_NONE 0;
    DECT_SFMT_IE DECT_IE_CONNECTION_ATTRIBUTES IE_OPTIONAL IE_NONE 0;
    DECT_SFMT_IE DECT_IE_CONNECTION_IDENTITY IE_OPTIONAL IE_NONE 0;
    DECT_SFMT_IE DECT_IE_REPEAT_INDICATOR IE_OPTIONAL IE_NONE 0;
    DECT_SFMT_IE DECT_IE_FACILITY IE_OPTIONAL IE_NONE DECT_SFMT_IE_REPEAT;
    DECT_SFMT_IE DECT_IE_REPEAT_INDICATOR IE_OPTIONAL IE_NONE 0;
    DECT_SFMT_IE DECT_IE_PROGRESS_INDICATOR IE_OPTIONAL IE_NONE DECT_SFMT_IE_REPEAT;
    DECT_SFMT_IE DECT_IE_SINGLE_DISPLAY IE_OPTIONAL IE_NONE 0;
    DECT_SFMT_IE DECT_IE_SIGNAL IE_OPTIONAL IE_NONE 0;
    DECT_SFMT_IE DECT_IE_FEATURE_INDICATE IE_OPTIONAL IE_NONE 0;
    DECT_SFMT_IE DECT_IE_NETWORK_PARAMETER IE_OPTIONAL IE_NONE 0;
    DECT_SFMT_IE DECT_IE_EXT_HO_INDICATOR IE_OPTIONAL IE_NONE 0;
    DECT_SFMT_IE DECT_IE_TRANSIT_DELAY IE_OPTIONAL IE_NONE 0;
    DECT_SFMT_IE DECT_IE_WINDOW_SIZE IE_OPTIONAL IE_NONE 0;
    DECT_SFMT_IE DECT_IE_DELIMITER_REQUEST IE_OPTIONAL IE_NONE 0;
    DECT_SFMT_IE DECT_IE_REPEAT_INDICATOR IE_OPTIONAL IE_NONE 0;
    DECT_SFMT_IE DECT_IE_IWU_TO_IWU IE_OPTIONAL IE_NONE DECT_SFMT_IE_REPEAT;
    DECT_SFMT_IE DECT_IE_IWU_PACKET IE_OPTIONAL IE_NONE 0;
    DECT_SFMT_IE DECT_IE_CODEC_LIST IE_OPTIONAL IE_NONE 0;
    DECT_SFMT_IE DECT_IE_ESCAPE_TO_PROPRIETARY IE_OPTIONAL IE_NONE 0
  ].

Definition cc_call_proc_msg_desc : dect_sfmt_msg_desc :=
  [
    DECT_SFMT_IE DECT_IE_IWU_ATTRIBUTES IE_OPTIONAL IE_NONE 0;
    DECT_SFMT_IE DECT_IE_CALL_ATTRIBUTES IE_OPTIONAL IE_NONE 0;
    DECT_SFMT_IE DECT_IE_CONNECTION_ATTRIBUTES IE_OPTIONAL IE_NONE 0;
    DECT_SFMT_IE DECT_IE_CONNECTION_IDENTITY IE_OPTIONAL IE_NONE 0;
    DECT_SFMT_IE DECT_IE_REPEAT_INDICATOR IE_OPTIONAL IE_NONE 0;
    DECT_SFMT_IE DECT_IE_FACILITY IE_OPTIONAL IE_NONE DECT_SFMT_IE_REPEAT;
    DECT_SFMT_IE DECT_IE_REPEAT_INDICATOR IE_OPTIONAL IE_NONE 0;
    DECT_SFMT_IE DECT_IE_PROGRESS_INDICATOR IE_OPTIONAL IE_NONE DECT_SFMT_IE_REPEAT;
    DECT_SFMT_IE DECT_IE_SINGLE_DISPLAY IE_OPTIONAL IE_NONE 0;
    DECT_SFMT_IE DECT_IE_SIGNAL IE_OPTIONAL IE_NONE 0;
    DECT_SFMT_IE DECT_IE_FEATURE_INDICATE IE_OPTIONAL IE_NONE 0;
    DECT_SFMT_IE DECT_IE_TRANSIT_DELAY IE_OPTIONAL IE_NONE 0;
    DECT_SFMT_IE DECT_IE_WINDOW_SIZE IE_OPTIONAL IE_NONE 0;
    DECT_SFMT_IE DECT_IE_REPEAT_INDICATOR IE_OPTIONAL IE_NONE 0;
    DECT_SFMT_IE DECT_IE_IWU_TO_IWU IE_OPTIONAL IE_NONE DECT_SFMT_IE_REPEAT;
    DECT_SFMT_IE DECT_IE_IWU_PACKET IE_OPTIONAL IE_NONE 0;
    DECT_SFMT_IE DECT_IE_CODEC_LIST IE_OPTIONAL IE_NONE 0;
    DECT_SFMT_IE DECT_IE_ESCAPE_TO_PROPRIETARY IE_OPTIONAL IE_NONE 0
  ].

Definition cc_alerting_msg_desc : dect_sfmt_msg_desc :=
  [
    DECT_SFMT_IE DECT_IE_IWU_ATTRIBUTES IE_OPTIONAL IE_OPTIONAL 0;
    DECT_SFMT_IE DECT_IE_CALL_ATTRIBUTES IE_OPTIONAL IE_OPTIONAL 0;
    DECT_SFMT_IE DECT_IE_CONNECTION_ATTRIBUTES IE_OPTIONAL IE_OPTIONAL 0;
    DECT_SFMT_IE DECT_IE_CONNECTION_IDENTITY IE_OPTIONAL IE_OPTIONAL 0;
    DECT_SFMT_IE DECT_IE_REPEAT_INDICATOR IE_OPTIONAL IE_OPTIONAL 0;
    DECT_SFMT_IE DECT_IE_FACILITY IE_OPTIONAL IE_OPTIONAL DECT_SFMT_IE_REPEAT;
    DECT_SFMT_IE DECT_IE_REPEAT_INDICATOR IE_OPTIONAL IE_NONE 0;
    DECT_SFMT_IE DECT_IE_PROGRESS_INDICATOR IE_OPTIONAL IE_NONE DECT_SFMT_IE_REPEAT;
    DECT_SFMT_IE DECT_IE_SINGLE_DISPLAY IE_OPTIONAL IE_NONE 0;
    DECT_SFMT_IE DECT_IE_SIGNAL IE_OPTIONAL IE_NONE 0;
    DECT_SFMT_IE DECT_IE_FEATURE_INDICATE IE_OPTIONAL IE_NONE 0;
    DECT_SFMT_IE DECT_IE_TERMINAL_CAPABILITY IE_NONE IE_OPTIONAL 0;
    DECT_SFMT_IE DECT_IE_TRANSIT_DELAY IE_OPTIONAL IE_OPTIONAL 0;
    DECT_SFMT_IE DECT_IE_WINDOW_SIZE IE_OPTIONAL IE_OPTIONAL 0;
    DECT_SFMT_IE DECT_IE_REPEAT_INDICATOR IE_OPTIONAL IE_OPTIONAL 0;
    DECT_SFMT_IE DECT_IE_IWU_TO_IWU IE_OPTIONAL IE_OPTIONAL DECT_SFMT_IE_REPEAT;
    DECT_SFMT_IE DECT_IE_IWU_PACKET IE_OPTIONAL IE_OPTIONAL 0;
    DECT_SFMT_IE DECT_IE_CODEC_LIST IE_OPTIONAL IE_OPTIONAL 0;
    DECT_SFMT_IE DECT_IE_ESCAPE_TO_PROPRIETARY IE_OPTIONAL IE_OPTIONAL 0
  ].

Definition cc_connect_msg_desc : dect_sfmt_msg_desc :=
  [
    DECT_SFMT_IE DECT_IE_IWU_ATTRIBUTES IE_OPTIONAL IE_OPTIONAL 0;
    DECT_SFMT_IE DECT_IE_CALL_ATTRIBUTES IE_OPTIONAL IE_OPTIONAL 0;
    DECT_SFMT_IE DECT_IE_CONNECTION_ATTRIBUTES IE_OPTIONAL IE_OPTIONAL 0;
    DECT_SFMT_IE DECT_IE_CONNECTION_IDENTITY IE_OPTIONAL IE_OPTIONAL 0;
    DECT_SFMT_IE DECT_IE_REPEAT_INDICATOR IE_OPTIONAL IE_OPTIONAL 0;
    DECT_SFMT_IE DECT_IE_FACILITY IE_OPTIONAL IE_OPTIONAL DECT_SFMT_IE_REPEAT;
    DECT_SFMT_IE DECT_IE_REPEAT_INDICATOR IE_OPTIONAL IE_NONE 0;
    DECT_SFMT_IE DECT_IE_PROGRESS_INDICATOR IE_OPTIONAL IE_NONE DECT_SFMT_IE_REPEAT;
    DECT_SFMT_IE DECT_IE_SINGLE_DISPLAY IE_OPTIONAL IE_NONE 0;
    DECT_SFMT_IE DECT_IE_SIGNAL IE_OPTIONAL IE_NONE 0;
    DECT_SFMT_IE DECT_IE_FEATURE_INDICATE IE_OPTIONAL IE_NONE 0;
    DECT_SFMT_IE DECT_IE_NETWORK_PARAMETER IE_OPTIONAL IE_NONE 0;
    DECT_SFMT_IE DECT_IE_EXT_HO_INDICATOR IE_OPTIONAL IE_NONE 0;
    DECT_SFMT_IE DECT_IE_TERMINAL_CAPABILITY IE_NONE IE_OPTIONAL 0;
    DECT_SFMT_IE DECT_IE_TRANSIT_DELAY IE_OPTIONAL IE_OPTIONAL 0;
    DECT_SFMT_IE DECT_IE_WINDOW_SIZE IE_OPTIONAL IE_OPTIONAL 0;
    DECT_SFMT_IE DECT_IE_REPEAT_INDICATOR IE_OPTIONAL IE_OPTIONAL 0;
    DECT_SFMT_IE DECT_IE_SEGMENTED_INFO IE_OPTIONAL IE_OPTIONAL DECT_SFMT_IE_REPEAT;
    DECT_SFMT_IE DECT_IE_IWU_TO_IWU IE_OPTIONAL IE_OPTIONAL 0;
    DECT_SFMT_IE DECT_IE_IWU_PACKET IE_OPTIONAL IE_OPTIONAL 0;
    DECT_SFMT_IE DECT_IE_CODEC_LIST IE_OPTIONAL IE_OPTIONAL 0;
    DECT_SFMT_IE DECT_IE_ESCAPE_TO_PROPRIETARY IE_OPTIONAL IE_OPTIONAL 0
  ].

Definition cc_connect_ack_msg_desc : dect_sfmt_msg_desc :=
  [
    DECT_SFMT_IE DECT_IE_SINGLE_DISPLAY IE_OPTIONAL IE_NONE 0;
    DECT_SFMT_IE DECT_IE_FEATURE_INDICATE IE_OPTIONAL IE_NONE 0;
    DECT_SFMT_IE DECT_IE_REPEAT_INDICATOR IE_OPTIONAL IE_OPTIONAL 0;
    DECT_SFMT_IE DECT_IE_IWU_TO_IWU IE_OPTIONAL IE_OPTIONAL DECT_SFMT_IE_REPEAT;
    DECT_SFMT_IE DECT_IE_IWU_PACKET IE_OPTIONAL IE_OPTIONAL 0;
    DECT_SFMT_IE DECT_IE_ESCAPE_TO_PROPRIETARY IE_OPTIONAL IE_OPTIONAL 0
  ].

Definition cc_release_msg_desc : dect_sfmt_msg_desc :=
  [
    DECT_SFMT_IE DECT_IE_RELEASE_REASON IE_OPTIONAL IE_OPTIONAL 0;
    DECT_SFMT_IE DECT_IE_REPEAT_INDICATOR IE_OPTIONAL IE_OPTIONAL 0;
    DECT_SFMT_IE DECT_IE_FACILITY IE_OPTIONAL IE_OPTIONAL DECT_SFMT_IE_REPEAT;
    DECT_SFMT_IE DECT_IE_REPEAT_INDICATOR IE_OPTIONAL IE_NONE 0;
    DECT_SFMT_IE DECT_IE_PROGRESS_INDICATOR IE_OPTIONAL IE_NONE DECT_SFMT_IE_REPEAT;
    DECT_SFMT_IE DECT_IE_SINGLE_DISPLAY IE_OPTIONAL IE_NONE 0;
    DECT_SFMT_IE DECT_IE_FEATURE_INDICATE IE_OPTIONAL IE_NONE 0;
    DECT_SFMT_IE DECT_IE_REPEAT_INDICATOR IE_OPTIONAL IE_NONE 0;
    DECT_SFMT_IE DECT_IE_SEGMENTED_INFO IE_OPTIONAL IE_OPTIONAL DECT_SFMT_IE_REPEAT;
    DECT_SFMT_IE DECT_IE_IWU_TO_IWU IE_OPTIONAL IE_OPTIONAL 0;
    DECT_SFMT_IE DECT_IE_IWU_PACKET IE_OPTIONAL IE_OPTIONAL 0;
    DECT_SFMT_IE DECT_IE_ESCAPE_TO_PROPRIETARY IE_OPTIONAL IE_OPTIONAL 0
  ].

Definition cc_release_com_msg_desc : dect_sfmt_msg_desc :=
  [
    DECT_SFMT_IE DECT_IE_RELEASE_REASON IE_OPTIONAL IE_OPTIONAL 0;
    DECT_SFMT_IE DECT_IE_IDENTITY_TYPE IE_OPTIONAL IE_NONE 0;
    DECT_SFMT_IE DECT_IE_LOCATION_AREA IE_OPTIONAL IE_NONE 0;
    DECT_SFMT_IE DECT_IE_IWU_ATTRIBUTES IE_OPTIONAL IE_OPTIONAL 0;
    DECT_SFMT_IE DECT_IE_CONNECTION_ATTRIBUTES IE_OPTIONAL IE_OPTIONAL 0;
    DECT_SFMT_IE DECT_IE_REPEAT_INDICATOR IE_OPTIONAL IE_OPTIONAL 0;
    DECT_SFMT_IE DECT_IE_FACILITY IE_OPTIONAL IE_OPTIONAL DECT_SFMT_IE_REPEAT;
    DECT_SFMT_IE DECT_IE_SINGLE_DISPLAY IE_OPTIONAL IE_NONE 0;
    DECT_SFMT_IE DECT_IE_FEATURE_INDICATE IE_OPTIONAL IE_NONE 0;
    DECT_SFMT_IE DECT_IE_NETWORK_PARAMETER IE_OPTIONAL IE_NONE 0;
    DECT_SFMT_IE DECT_IE_REPEAT_INDICATOR IE_OPTIONAL IE_OPTIONAL 0;
    DECT_SFMT_IE DECT_IE_SEGMENTED_INFO IE_OPTIONAL IE_OPTIONAL DECT_SFMT_IE_REPEAT;
    DECT_SFMT_IE DECT_IE_IWU_TO_IWU IE_OPTIONAL IE_OPTIONAL 0;
    DECT_SFMT_IE DECT_IE_IWU_PACKET IE_OPTIONAL IE_OPTIONAL 0;
    DECT_SFMT_IE DECT_IE_ESCAPE_TO_PROPRIETARY IE_OPTIONAL IE_OPTIONAL 0
  ].

Definition cc_service_change_msg_desc : dect_sfmt_msg_desc :=
  [
    DECT_SFMT_IE DECT_IE_PORTABLE_IDENTITY IE_MANDATORY IE_MANDATORY 0;
    DECT_SFMT_IE DECT_IE_IWU_ATTRIBUTES IE_OPTIONAL IE_OPTIONAL 0;
    DECT_SFMT_IE DECT_IE_SERVICE_CHANGE_INFO IE_MANDATORY IE_MANDATORY 0;
    DECT_SFMT_IE DECT_IE_CALL_ATTRIBUTES IE_OPTIONAL IE_OPTIONAL 0;
    DECT_SFMT_IE DECT_IE_REPEAT_INDICATOR IE_OPTIONAL IE_OPTIONAL 0;
    DECT_SFMT_IE DECT_IE_CONNECTION_ATTRIBUTES IE_OPTIONAL IE_OPTIONAL DECT_SFMT_IE_REPEAT;
    DECT_SFMT_IE DECT_IE_CONNECTION_IDENTITY IE_OPTIONAL IE_OPTIONAL 0;
    DECT_SFMT_IE DECT_IE_REPEAT_INDICATOR IE_OPTIONAL IE_OPTIONAL 0;
    DECT_SFMT_IE DECT_IE_SEGMENTED_INFO IE_OPTIONAL IE_OPTIONAL DECT_SFMT_IE_REPEAT;
    DECT_SFMT_IE DECT_IE_IWU_TO_IWU IE_OPTIONAL IE_OPTIONAL 0;
    DECT_SFMT_IE DECT_IE_CODEC_LIST IE_OPTIONAL IE_OPTIONAL 0;
    DECT_SFMT_IE DECT_IE_ESCAPE_TO_PROPRIETARY IE_OPTIONAL IE_OPTIONAL 0
  ].

Definition cc_service_accept_msg_desc : dect_sfmt_msg_desc :=
  [
    DECT_SFMT_IE DECT_IE_IWU_ATTRIBUTES IE_OPTIONAL IE_OPTIONAL 0;
    DECT_SFMT_IE DECT_IE_CONNECTION_IDENTITY IE_OPTIONAL IE_OPTIONAL 0;
    DECT_SFMT_IE DECT_IE_REPEAT_INDICATOR IE_OPTIONAL IE_OPTIONAL 0;
    DECT_SFMT_IE DECT_IE_SEGMENTED_INFO IE_OPTIONAL IE_OPTIONAL DECT_SFMT_IE_REPEAT;
    DECT_SFMT_IE DECT_IE_IWU_TO_IWU IE_OPTIONAL IE_OPTIONAL 0;
    DECT_SFMT_IE DECT_IE_ESCAPE_TO_PROPRIETARY IE_OPTIONAL IE_OPTIONAL 0
  ].

Definition cc_service_reject_msg_desc : dect_sfmt_msg_desc :=
  [
    DECT_SFMT_IE DECT_IE_RELEASE_REASON IE_OPTIONAL IE_OPTIONAL 0;
    DECT_SFMT_IE DECT_IE_IWU_ATTRIBUTES IE_OPTIONAL IE_OPTIONAL 0;
    DECT_SFMT_IE DECT_IE_CONNECTION_ATTRIBUTES IE_OPTIONAL IE_OPTIONAL 0;
    DECT_SFMT_IE DECT_IE_REPEAT_INDICATOR IE_OPTIONAL IE_OPTIONAL 0;
    DECT_SFMT_IE DECT_IE_SEGMENTED_INFO IE_OPTIONAL IE_OPTIONAL DECT_SFMT_IE_REPEAT;
    DECT_SFMT_IE DECT_IE_IWU_TO_IWU IE_OPTIONAL IE_OPTIONAL 0;
    DECT_SFMT_IE DECT_IE_ESCAPE_TO_PROPRIETARY IE_OPTIONAL IE_OPTIONAL 0
  ].

Definition cc_notify_msg_desc : dect_sfmt_msg_desc :=
  [
    DECT_SFMT_IE DECT_IE_TIMER_RESTART IE_OPTIONAL IE_OPTIONAL 0;
    DECT_SFMT_IE DECT_IE_ESCAPE_TO_PROPRIETARY IE_OPTIONAL IE_OPTIONAL 0
  ].

Definition cc_iwu_info_msg_desc : dect_sfmt_msg_desc :=
  [].

Definition mm_access_rights_accept_msg_desc : dect_sfmt_msg_desc :=
  [
    DECT_SFMT_IE DECT_IE_PORTABLE_IDENTITY IE_MANDATORY IE_NONE 0;
    DECT_SFMT_IE DECT_IE_REPEAT_INDICATOR IE_OPTIONAL IE_NONE 0;
    DECT_SFMT_IE DECT_IE_FIXED_IDENTITY IE_MANDATORY IE_NONE DECT_SFMT_IE_REPEAT;
    DECT_SFMT_IE DECT_IE_LOCATION_AREA IE_OPTIONAL IE_NONE 0;
    DECT_SFMT_IE DECT_IE_AUTH_TYPE IE_OPTIONAL IE_NONE 0;
    DECT_SFMT_IE DECT_IE_CIPHER_INFO IE_OPTIONAL IE_NONE 0;
    DECT_SFMT_IE DECT_IE_ZAP_FIELD IE_OPTIONAL IE_NONE 0;
    DECT_SFMT_IE DECT_IE_SERVICE_CLASS IE_OPTIONAL IE_NONE 0;
    DECT_SFMT_IE DECT_IE_SETUP_CAPABILITY IE_OPTIONAL IE_NONE 0;
    DECT_SFMT_IE DECT_IE_MODEL_IDENTIFIER IE_OPTIONAL IE_NONE 0;
    DECT_SFMT_IE DECT_IE_IWU_TO_IWU IE_OPTIONAL IE_NONE 0;
    DECT_SFMT_IE DECT_IE_CODEC_LIST IE_OPTIONAL IE_NONE 0;
    DECT_SFMT_IE DECT_IE_ESCAPE_TO_PROPRIETARY IE_OPTIONAL IE_NONE 0
  ].

Definition mm_access_rights_request_msg_desc : dect_sfmt_msg_desc :=
  [
    DECT_SFMT_IE DECT_IE_PORTABLE_IDENTITY IE_NONE IE_MANDATORY 0;
    DECT_SFMT_IE DECT_IE_AUTH_TYPE IE_NONE IE_OPTIONAL 0;
    DECT_SFMT_IE DECT_IE_CIPHER_INFO IE_NONE IE_OPTIONAL 0;
    DECT_SFMT_IE DECT_IE_SETUP_CAPABILITY IE_NONE IE_OPTIONAL 0;
    DECT_SFMT_IE DECT_IE_TERMINAL_CAPABILITY IE_NONE IE_OPTIONAL 0;
    DECT_SFMT_IE DECT_IE_IWU_TO_IWU IE_NONE IE_OPTIONAL 0;
    DECT_SFMT_IE DECT_IE_MODEL_IDENTIFIER IE_NONE IE_OPTIONAL 0;
    DECT_SFMT_IE DECT_IE_CODEC_LIST IE_NONE IE_OPTIONAL 0;
    DECT_SFMT_IE DECT_IE_ESCAPE_TO_PROPRIETARY IE_NONE IE_OPTIONAL 0
  ].

Definition mm_access_rights_reject_msg_desc : dect_sfmt_msg_desc :=
  [
    DECT_SFMT_IE DECT_IE_REJECT_REASON IE_OPTIONAL IE_NONE 0;
    DECT_SFMT_IE DECT_IE_DURATION IE_OPTIONAL IE_NONE 0;
    DECT_SFMT_IE DECT_IE_IWU_TO_IWU IE_NONE IE_OPTIONAL 0;
    DECT_SFMT_IE DECT_IE_ESCAPE_TO_PROPRIETARY IE_NONE IE_OPTIONAL 0
  ].

Definition mm_authentication_reject_msg_desc : dect_sfmt_msg_desc :=
  [
    DECT_SFMT_IE DECT_IE_REPEAT_INDICATOR IE_OPTIONAL IE_OPTIONAL 0;
    DECT_SFMT_IE DECT_IE_AUTH_TYPE IE_OPTIONAL IE_OPTIONAL DECT_SFMT_IE_REPEAT;
    DECT_SFMT_IE DECT_IE_REJECT_REASON IE_OPTIONAL IE_OPTIONAL 0;
    DECT_SFMT_IE DECT_IE_REPEAT_INDICATOR IE_OPTIONAL IE_OPTIONAL 0;
    DECT_SFMT_IE DECT_IE_IWU_TO_IWU IE_OPTIONAL IE_OPTIONAL DECT_SFMT_IE_REPEAT;
    DECT_SFMT_IE DECT_IE_ESCAPE_TO_PROPRIETARY IE_OPTIONAL IE_OPTIONAL 0
  ].

Definition mm_authentication_reply_msg_desc : dect_sfmt_msg_desc :=
  [
    DECT_SFMT_IE DECT_IE_RES IE_MANDATORY IE_MANDATORY 0;
    DECT_SFMT_IE DECT_IE_RS IE_OPTIONAL IE_NONE 0;
    DECT_SFMT_IE DECT_IE_ZAP_FIELD IE_NONE IE_OPTIONAL 0;
    DECT_SFMT_IE DECT_IE_SERVICE_CLASS IE_NONE IE_OPTIONAL 0;
    DECT_SFMT_IE DECT_IE_KEY IE_NONE IE_OPTIONAL 0;
    DECT_SFMT_IE DECT_IE_REPEAT_INDICATOR IE_OPTIONAL IE_OPTIONAL 0;
    DECT_SFMT_IE DECT_IE_IWU_TO_IWU IE_OPTIONAL IE_OPTIONAL DECT_SFMT_IE_REPEAT;
    DECT_SFMT_IE DECT_IE_ESCAPE_TO_PROPRIETARY IE_OPTIONAL IE_OPTIONAL 0
  ].

Definition mm_authentication_request_msg_desc : dect_sfmt_msg_desc :=
  [
    DECT_SFMT_IE DECT_IE_AUTH_TYPE IE_MANDATORY IE_MANDATORY 0;
    DECT_SFMT_IE DECT_IE_RAND IE_MANDATORY IE_MANDATORY 0;
    DECT_SFMT_IE DECT_IE_RES IE_NONE IE_OPTIONAL 0;
    DECT_SFMT_IE DECT_IE_RS IE_OPTIONAL IE_NONE 0;
    DECT_SFMT_IE DECT_IE_CIPHER_INFO IE_OPTIONAL IE_OPTIONAL 0;
    DECT_SFMT_IE DECT_IE_REPEAT_INDICATOR IE_OPTIONAL IE_OPTIONAL 0;
    DECT_SFMT_IE DECT_IE_IWU_TO_IWU IE_OPTIONAL IE_OPTIONAL DECT_SFMT_IE_REPEAT;
    DECT_SFMT_IE DECT_IE_ESCAPE_TO_PROPRIETARY IE_OPTIONAL IE_OPTIONAL 0
  ].

Definition mm_key_allocate_msg_desc : dect_sfmt_msg_desc :=
  [
    DECT_SFMT_IE DECT_IE_ALLOCATION_TYPE IE_MANDATORY IE_NONE 0;
    DECT_SFMT_IE DECT_IE_RAND IE_MANDATORY IE_NONE 0;
    DECT_SFMT_IE DECT_IE_RS IE_MANDATORY IE_NONE 0;
    DECT_SFMT_IE DECT_IE_ESCAPE_TO_PROPRIETARY IE_OPTIONAL IE_NONE 0
  ].

Definition mm_locate_accept_msg_desc : dect_sfmt_msg_desc :=
  [
    DECT_SFMT_IE DECT_IE_PORTABLE_IDENTITY IE_MANDATORY IE_NONE 0;
    DECT_SFMT_IE DECT_IE_LOCATION_AREA IE_MANDATORY IE_NONE 0;
    DECT_SFMT_IE DECT_IE_USE_TPUI IE_OPTIONAL IE_NONE 0;
    DECT_SFMT_IE DECT_IE_NWK_ASSIGNED_IDENTITY IE_OPTIONAL IE_NONE 0;
    DECT_SFMT_IE DECT_IE_EXT_HO_INDICATOR IE_OPTIONAL IE_NONE 0;
    DECT_SFMT_IE DECT_IE_SETUP_CAPABILITY IE_OPTIONAL IE_NONE 0;
    DECT_SFMT_IE DECT_IE_DURATION IE_OPTIONAL IE_NONE 0;
    DECT_SFMT_IE DECT_IE_REPEAT_INDICATOR IE_OPTIONAL IE_OPTIONAL 0;
    DECT_SFMT_IE DECT_IE_SEGMENTED_INFO IE_OPTIONAL IE_OPTIONAL DECT_SFMT_IE_REPEAT;
    DECT_SFMT_IE DECT_IE_IWU_TO_IWU IE_OPTIONAL IE_NONE 0;
    DECT_SFMT_IE DECT_IE_MODEL_IDENTIFIER IE_OPTIONAL IE_NONE 0;
    DECT_SFMT_IE DECT_IE_CODEC_LIST IE_OPTIONAL IE_NONE 0;
    DECT_SFMT_IE DECT_IE_ESCAPE_TO_PROPRIETARY IE_OPTIONAL IE_NONE 0
  ].

Definition mm_locate_reject_msg_desc : dect_sfmt_msg_desc :=
  [
    DECT_SFMT_IE DECT_IE_REJECT_REASON IE_OPTIONAL IE_NONE 0;
    DECT_SFMT_IE DECT_IE_DURATION IE_OPTIONAL IE_NONE 0;
    DECT_SFMT_IE DECT_IE_REPEAT_INDICATOR IE_OPTIONAL IE_OPTIONAL 0;
    DECT_SFMT_IE DECT_IE_SEGMENTED_INFO IE_OPTIONAL IE_OPTIONAL DECT_SFMT_IE_REPEAT;
    DECT_SFMT_IE DECT_IE_IWU_TO_IWU IE_OPTIONAL IE_NONE 0;
    DECT_SFMT_IE DECT_IE_ESCAPE_TO_PROPRIETARY IE_OPTIONAL IE_NONE 0
  ].

Definition mm_locate_request_msg_desc : dect_sfmt_msg_desc :=
  [
    DECT_SFMT_IE DECT_IE_PORTABLE_IDENTITY IE_NONE IE_MANDATORY 0;
    DECT_SFMT_IE DECT_IE_FIXED_IDENTITY IE_NONE IE_OPTIONAL 0;
    DECT_SFMT_IE DECT_IE_LOCATION_AREA IE_NONE IE_OPTIONAL 0;
    DECT_SFMT_IE DECT_IE_NWK_ASSIGNED_IDENTITY IE_NONE IE_OPTIONAL 0;
    DECT_SFMT_IE DECT_IE_CIPHER_INFO IE_NONE IE_OPTIONAL 0;
    DECT_SFMT_IE DECT_IE_SETUP_CAPABILITY IE_NONE IE_OPTIONAL 0;
    DECT_SFMT_IE DECT_IE_TERMINAL_CAPABILITY IE_NONE IE_OPTIONAL 0;
    DECT_SFMT_IE DECT_IE_NETWORK_PARAMETER IE_NONE IE_OPTIONAL 0;
    DECT_SFMT_IE DECT_IE_REPEAT_INDICATOR IE_OPTIONAL IE_OPTIONAL 0;
    DECT_SFMT_IE DECT_IE_SEGMENTED_INFO IE_OPTIONAL IE_OPTIONAL DECT_SFMT_IE_REPEAT;
    DECT_SFMT_IE DECT_IE_IWU_TO_IWU IE_NONE IE_OPTIONAL 0;
    DECT_SFMT_IE DECT_IE_MODEL_IDENTIFIER IE_NONE IE_OPTIONAL 0;
    DECT_SFMT_IE DECT_IE_CODEC_LIST IE_NONE IE_OPTIONAL 0;
    DECT_SFMT_IE DECT_IE_ESCAPE_TO_PROPRIETARY IE_NONE IE_OPTIONAL 0
  ].

Definition mm_temporary_identity_assign_msg_desc : dect_sfmt_msg_desc :=
  [
    DECT_SFMT_IE DECT_IE_PORTABLE_IDENTITY IE_OPTIONAL IE_NONE 0;
    DECT_SFMT_IE DECT_IE_LOCATION_AREA IE_OPTIONAL IE_NONE 0;
    DECT_SFMT_IE DECT_IE_NWK_ASSIGNED_IDENTITY IE_OPTIONAL IE_NONE 0;
    DECT_SFMT_IE DECT_IE_DURATION IE_OPTIONAL IE_NONE 0;
    DECT_SFMT_IE DECT_IE_NETWORK_PARAMETER IE_OPTIONAL IE_NONE 0;
    DECT_SFMT_IE DECT_IE_REPEAT_INDICATOR IE_OPTIONAL IE_NONE 0;
    DECT_SFMT_IE DECT_IE_IWU_TO_IWU IE_OPTIONAL IE_NONE DECT_SFMT_IE_REPEAT;
    DECT_SFMT_IE DECT_IE_ESCAPE_TO_PROPRIETARY IE_OPTIONAL IE_NONE 0
  ].

Definition mm_temporary_identity_assign_ack_msg_desc : dect_sfmt_msg_desc :=
  [
    DECT_SFMT_IE DECT_IE_SEGMENTED_INFO IE_NONE IE_OPTIONAL 0;
    DECT_SFMT_IE DECT_IE_IWU_TO_IWU IE_NONE IE_OPTIONAL 0;
    DECT_SFMT_IE DECT_IE_ESCAPE_TO_PROPRIETARY IE_NONE IE_OPTIONAL 0
  ].

Definition mm_temporary_identity_assign_rej_msg_desc : dect_sfmt_msg_desc :=
  [
    DECT_SFMT_IE DECT_IE_REJECT_REASON IE_NONE IE_OPTIONAL 0;
    DECT_SFMT_IE DECT_IE_ESCAPE_TO_PROPRIETARY IE_NONE IE_OPTIONAL 0
  ].
(** ** What the entities use of the rest of the library

    Modelled from the spec: timer.c, lce.c and the IE collection
    routines are not among the sources.

    - A timer (section 3, Timer) is armed by [dect_start_timer],
      disarmed by [dect_stop_timer], and delivers at most one expiry
      per start: an expiry reaches the callback only while the timer
      is armed, and disarms it.
    - A transaction (section 3, Transaction) is OPEN from
      [dect_open_transaction] or [dect_confirm_transaction] until
      [dect_close_transaction].
    - [dect_lce_send] (section 4.2, outbound send) serialises the
      message with the codec and hands the buffer to the lower link;
      it fails when the codec does.
    - [dect_ie_collection_alloc] returns a collection without any IE,
      or [NULL] when the allocator is out of memory. *)

Record dect_timer := {
  t_armed : bool
}.


Definition dect_stop_timer (timer : dect_timer) : dect_timer :=
  {| t_armed := false |}.

Inductive dect_transaction_state :=
| DECT_TRANSACTION_UNINITIATED
| DECT_TRANSACTION_OPEN
| DECT_TRANSACTION_CLOSED.

Inductive dect_release_modes :=
| DECT_DDL_RELEASE_NORMAL
| DECT_DDL_RELEASE_PARTIAL.

(** What leaves the library: a message handed to the lower link, a
    primitive delivered to the application, and the closing of a
    transaction.  The parameter collection of a primitive is the list
    of the members the library stores in it, in the order of the
    assignments; every other member of the collection is [NULL].
    [None] is a [NULL] parameter. *)
Inductive event :=
| Sent (type : Z) (octets : list Z)
| Closed (mode : dect_release_modes)
| MNCC_ALERT_ind (param : dect_msg_common)
| MNCC_CONNECT_ind (param : dect_msg_common)
| MNCC_REJECT_ind (param : option dect_msg_common)
| MNCC_RELEASE_ind (param : dect_msg_common)
| MNCC_RELEASE_cfm (param : dect_msg_common)
| MNCC_INFO_ind (param : dect_msg_common).

Definition dect_lce_send (dh : dect_handle) (desc : dect_sfmt_msg_desc)
  (msg : dect_msg_common) (type : Z) : option (Z * list event) :=
  match dect_build_sfmt_msg dh desc msg
          {| mb_data := []; mb_tail := []; mb_type := type |} with
  | None => None
  | Some (err, mb) =>
    if err <? 0 then Some (-1, []) else Some (0, [Sent type (mb_data mb)])
  end.

(** The members of a message a primitive passes on, by their position
    in the message structure. *)
Definition members (idx : list nat) (msg : dect_msg_common) : dect_msg_common :=
  map (fun i => nth i msg (Member None)) idx.

(** A parameter collection without any IE: every member is [NULL] or
    a list without elements. *)
Definition no_parameters (param : dect_msg_common) : bool :=
  forallb (fun m => match m with
                    | Member None => true
                    | MemberList iel =>
                      match il_list iel with [] => true | _ => false end
                    | _ => false
                    end) param.

(** ** Call Control (cc.c) *)

(** [enum dect_cc_msg_types].  Modelled from the spec: cc.h is not
    among the sources; the message types are those of ETSI EN 300
    175-5, section 7.4.1. *)
Definition CC_ALERTING : Z := 0x01.
Definition CC_CALL_PROC : Z := 0x02.
Definition CC_CONNECT : Z := 0x07.
Definition CC_SETUP_ACK : Z := 0x0d.
Definition CC_CONNECT_ACK : Z := 0x0f.
Definition CC_SERVICE_CHANGE : Z := 0x20.
Definition CC_SERVICE_ACCEPT : Z := 0x21.
Definition CC_SERVICE_REJECT : Z := 0x23.
Definition CC_RELEASE : Z := 0x4d.
Definition CC_RELEASE_COM : Z := 0x5a.
Definition CC_IWU_INFO : Z := 0x60.
Definition CC_NOTIFY : Z := 0x6e.
Definition CC_INFO : Z := 0x7b.

Inductive dect_cc_states :=
| DECT_CC_NULL
| DECT_CC_CALL_INITIATED
| DECT_CC_OVERLAP_SENDING
| DECT_CC_CALL_PROCEEDING
| DECT_CC_CALL_DELIVERED
| DECT_CC_CALL_PRESENT
| DECT_CC_CALL_RECEIVED
| DECT_CC_CONNECT_PENDING
| DECT_CC_ACTIVE
| DECT_CC_RELEASE_PENDING
| DECT_CC_OVERLAP_RECEIVING
| DECT_CC_INCOMING_CALL_PROCEEDING.

Definition cc_state_eqb (a b : dect_cc_states) : bool :=
  match a, b with
  | DECT_CC_NULL, DECT_CC_NULL
  | DECT_CC_CALL_INITIATED, DECT_CC_CALL_INITIATED
  | DECT_CC_OVERLAP_SENDING, DECT_CC_OVERLAP_SENDING
  | DECT_CC_CALL_PROCEEDING, DECT_CC_CALL_PROCEEDING
  | DECT_CC_CALL_DELIVERED, DECT_CC_CALL_DELIVERED
  | DECT_CC_CALL_PRESENT, DECT_CC_CALL_PRESENT
  | DECT_CC_CALL_RECEIVED, DECT_CC_CALL_RECEIVED
  | DECT_CC_CONNECT_PENDING, DECT_CC_CONNECT_PENDING
  | DECT_CC_ACTIVE, DECT_CC_ACTIVE
  | DECT_CC_RELEASE_PENDING, DECT_CC_RELEASE_PENDING
  | DECT_CC_OVERLAP_RECEIVING, DECT_CC_OVERLAP_RECEIVING
  | DECT_CC_INCOMING_CALL_PROCEEDING, DECT_CC_INCOMING_CALL_PROCEEDING => true
  | _, _ => false
  end.

(** [struct dect_call]: [setup_timer] and [lu_sap] are pointers,
    [None] for [NULL]; of the U-plane socket the model keeps that it
    is open. *)
Record dect_call := {
  state : dect_cc_states;
  transaction : dect_transaction_state;
  setup_timer : option dect_timer;
  lu_sap : option unit
}.

(** The call of a CC transaction, [None] once [dect_call_destroy] has
    freed it, and what has left the library so far, oldest first. *)
Record cc_world := {
  w_call : option dect_call;
  w_out : list event
}.

Definition set_state (call : dect_call) (s : dect_cc_states) : dect_call :=
  {| state := s; transaction := transaction call;
     setup_timer := setup_timer call; lu_sap := lu_sap call |}.

Definition set_setup_timer (call : dect_call) (t : option dect_timer)
  : dect_call :=
  {| state := state call; transaction := transaction call;
     setup_timer := t; lu_sap := lu_sap call |}.


Definition set_lu_sap (call : dect_call) (s : option unit) : dect_call :=
  {| state := state call; transaction := transaction call;
     setup_timer := setup_timer call; lu_sap := s |}.

(** [dect_call_alloc] *)
Definition dect_call_alloc (dh : dect_handle) : option dect_call :=
  if dh_nomem dh then None
  else Some {| state := DECT_CC_NULL;
               transaction := DECT_TRANSACTION_UNINITIATED;
               setup_timer := Some {| t_armed := false |};
               lu_sap := None |}.

(** [dect_call_disconnect_uplane] *)
Definition dect_call_disconnect_uplane (call : dect_call) : dect_call :=
  match lu_sap call with
  | None => call
  | Some _ => set_lu_sap call None
  end.

(** [dect_close_transaction(dh, &call->transaction, mode)] followed by
    [dect_call_destroy(dh, call)]: the timer and the call are freed;
    the closing of the transaction is what remains to be seen. *)
Definition close_and_destroy (w : list event) (mode : dect_release_modes)
  : cc_world :=
  {| w_call := None; w_out := w ++ [Closed mode] |}.

(** [dect_cc_setup_timer], the callback of the setup timer.  The
    parameter collection is passed on as allocated, without any IE. *)
Definition dect_cc_setup_timer (dh : dect_handle) (call : dect_call)
  (out : list event) : cc_world :=
  let out :=
    if dh_nomem dh then out
    else out ++ [MNCC_REJECT_ind (Some [])] in
  close_and_destroy out DECT_DDL_RELEASE_NORMAL.


(** [dect_call_connect_uplane]; [sock] is whether the kernel gives and
    connects the LU1 socket and the event loop registers it. *)
Definition dect_call_connect_uplane (call : dect_call) (sock : bool)
  : Z * dect_call :=
  if sock then (0, set_lu_sap call (Some tt))
  else (-1, set_lu_sap call None).

(** [dect_mncc_connect_res]; [msg] is the
    [struct dect_cc_connect_ack_msg] the function fills from [param]. *)
Definition dect_mncc_connect_res (dh : dect_handle) (call : dect_call)
  (sock : bool) (msg : dect_msg_common)
  : option (Z * dect_call * list event) :=
  let call := snd (dect_call_connect_uplane call sock) in
  match dect_lce_send dh cc_connect_ack_msg_desc msg CC_CONNECT_ACK with
  | None => None
  | Some (err, out) =>
    if err <? 0 then Some (-1, dect_call_disconnect_uplane call, out)
    else Some (0, set_state call DECT_CC_ACTIVE, out)
  end.

(** The setup timer is stopped, freed and forgotten. *)
Definition drop_setup_timer (call : dect_call) : dect_call :=
  match setup_timer call with
  | Some _ => set_setup_timer call None
  | None => call
  end.

(** [dect_mncc_alert_ind]: facility, progress_indicator, display,
    signal, feature_indicate, terminal_capability, transit_delay,
    window_size, iwu_to_iwu and iwu_packet of the message. *)
Definition dect_mncc_alert_ind (dh : dect_handle) (msg : dect_msg_common)
  : list event :=
  if dh_nomem dh then []
  else [MNCC_ALERT_ind (members [4; 5; 6; 7; 8; 9; 10; 11; 12; 13]%nat msg)].

(** [dect_cc_rcv_alerting] *)
Definition dect_cc_rcv_alerting (dh : dect_handle) (call : dect_call)
  (mb : dect_msg_buf) (out : list event) : cc_world :=
  let r := dect_parse_sfmt_msg dh cc_alerting_msg_desc mb in
  if p_err r <? 0 then {| w_call := Some call; w_out := out |}
  else
    let call := drop_setup_timer call in
    let out := out ++ dect_mncc_alert_ind dh (p_msg r) in
    {| w_call := Some (set_state call DECT_CC_CALL_RECEIVED); w_out := out |}.

(** [dect_mncc_connect_ind]: facility, progress_indicator, display,
    signal, feature_indicate, terminal_capability, transit_delay,
    window_size, iwu_to_iwu and iwu_packet of the message. *)
Definition dect_mncc_connect_ind (dh : dect_handle) (msg : dect_msg_common)
  : list event :=
  if dh_nomem dh then []
  else [MNCC_CONNECT_ind (members [4; 5; 6; 7; 8; 11; 12; 13; 15; 16]%nat msg)].

(** [dect_cc_rcv_connect] *)
Definition dect_cc_rcv_connect (dh : dect_handle) (call : dect_call)
  (mb : dect_msg_buf) (out : list event) : cc_world :=
  let r := dect_parse_sfmt_msg dh cc_connect_msg_desc mb in
  if p_err r <? 0 then {| w_call := Some call; w_out := out |}
  else
    let call := drop_setup_timer call in
    let out := out ++ dect_mncc_connect_ind dh (p_msg r) in
    {| w_call := Some call; w_out := out |}.

(** The body shared by the receive functions that parse the message
    and do nothing more with it. *)
Definition rcv_only_parse (dh : dect_handle)
  (desc : dect_sfmt_msg_desc) (call : dect_call) (mb : dect_msg_buf)
  (out : list event) : cc_world :=
  let r := dect_parse_sfmt_msg dh desc mb in
  if p_err r <? 0 then {| w_call := Some call; w_out := out |}
  else {| w_call := Some call; w_out := out |}.

Definition dect_cc_rcv_call_proc (dh : dect_handle) :=
  rcv_only_parse dh cc_call_proc_msg_desc.

Definition dect_cc_rcv_setup_ack (dh : dect_handle) :=
  rcv_only_parse dh cc_setup_ack_msg_desc.

Definition dect_cc_rcv_connect_ack (dh : dect_handle) :=
  rcv_only_parse dh cc_connect_ack_msg_desc.

Definition dect_cc_rcv_service_change (dh : dect_handle) :=
  rcv_only_parse dh cc_service_change_msg_desc.

Definition dect_cc_rcv_service_accept (dh : dect_handle) :=
  rcv_only_parse dh cc_service_accept_msg_desc.

Definition dect_cc_rcv_service_reject (dh : dect_handle) :=
  rcv_only_parse dh cc_service_reject_msg_desc.

Definition dect_cc_rcv_iwu_info (dh : dect_handle) :=
  rcv_only_parse dh cc_iwu_info_msg_desc.

Definition dect_cc_rcv_notify (dh : dect_handle) :=
  rcv_only_parse dh cc_notify_msg_desc.

(** [dect_mncc_release_ind]: release_reason, facility, display,
    feature_indicate, iwu_to_iwu and iwu_packet of <<CC-RELEASE>>. *)
Definition dect_mncc_release_ind (dh : dect_handle) (msg : dect_msg_common)
  : list event :=
  if dh_nomem dh then []
  else [MNCC_RELEASE_ind (members [0; 1; 3; 4; 6; 7]%nat msg)].

(** [dect_cc_rcv_release] *)
Definition dect_cc_rcv_release (dh : dect_handle) (call : dect_call)
  (mb : dect_msg_buf) (out : list event) : cc_world :=
  let r := dect_parse_sfmt_msg dh cc_release_msg_desc mb in
  if p_err r <? 0 then {| w_call := Some call; w_out := out |}
  else {| w_call := Some call;
          w_out := out ++ dect_mncc_release_ind dh (p_msg r) |}.

(** [dect_mncc_release_cfm]: release_reason, identity_type,
    location_area, iwu_attributes, facility, display, feature_indicate,
    network_parameter, iwu_to_iwu and iwu_packet of <<CC-RELEASE-COM>>. *)
Definition dect_mncc_release_cfm (dh : dect_handle) (msg : dect_msg_common)
  : list event :=
  if dh_nomem dh then []
  else [MNCC_RELEASE_cfm (members [0; 1; 2; 3; 5; 6; 7; 8; 10; 11]%nat msg)].

(** [dect_cc_rcv_release_com]; outside RELEASE_PENDING the primitive
    is MNCC_RELEASE-ind with release_reason, facility, iwu_to_iwu and
    iwu_packet. *)
Definition dect_cc_rcv_release_com (dh : dect_handle) (call : dect_call)
  (mb : dect_msg_buf) (out : list event) : cc_world :=
  let r := dect_parse_sfmt_msg dh cc_release_com_msg_desc mb in
  if p_err r <? 0 then {| w_call := Some call; w_out := out |}
  else
    let out :=
      if cc_state_eqb (state call) DECT_CC_RELEASE_PENDING
      then out ++ dect_mncc_release_cfm dh (p_msg r)
      else if dh_nomem dh then out
      else out ++ [MNCC_RELEASE_ind (members [0; 5; 10; 11]%nat (p_msg r))] in
    close_and_destroy out DECT_DDL_RELEASE_NORMAL.

(** [dect_mncc_info_ind]: the members of <<CC-INFO>> in the order of
    the assignments. *)
Definition dect_mncc_info_ind (dh : dect_handle) (msg : dect_msg_common)
  : list event :=
  if dh_nomem dh then []
  else [MNCC_INFO_ind
          (members [0; 1; 2; 3; 4; 5; 6; 7; 8; 9; 12; 13; 11; 18; 14; 16; 17]%nat
                   msg)].

(** [dect_cc_rcv_info] *)
Definition dect_cc_rcv_info (dh : dect_handle) (call : dect_call)
  (mb : dect_msg_buf) (out : list event) : cc_world :=
  let r := dect_parse_sfmt_msg dh cc_info_msg_desc mb in
  if p_err r <? 0 then {| w_call := Some call; w_out := out |}
  else {| w_call := Some call;
          w_out := out ++ dect_mncc_info_ind dh (p_msg r) |}.

(** [dect_cc_rcv]: the receive function of the protocol, for a
    message of an open CC transaction. *)
Definition dect_cc_rcv (dh : dect_handle) (call : dect_call)
  (mb : dect_msg_buf) (out : list event) : cc_world :=
  let t := mb_type mb in
  if t =? CC_ALERTING then dect_cc_rcv_alerting dh call mb out
  else if t =? CC_CALL_PROC then dect_cc_rcv_call_proc dh call mb out
  else if t =? CC_CONNECT then dect_cc_rcv_connect dh call mb out
  else if t =? CC_SETUP_ACK then dect_cc_rcv_setup_ack dh call mb out
  else if t =? CC_CONNECT_ACK then dect_cc_rcv_connect_ack dh call mb out
  else if t =? CC_SERVICE_CHANGE then dect_cc_rcv_service_change dh call mb out
  else if t =? CC_SERVICE_ACCEPT then dect_cc_rcv_service_accept dh call mb out
  else if t =? CC_SERVICE_REJECT then dect_cc_rcv_service_reject dh call mb out
  else if t =? CC_RELEASE then dect_cc_rcv_release dh call mb out
  else if t =? CC_RELEASE_COM then dect_cc_rcv_release_com dh call mb out
  else if t =? CC_IWU_INFO then dect_cc_rcv_iwu_info dh call mb out
  else if t =? CC_NOTIFY then dect_cc_rcv_notify dh call mb out
  else if t =? CC_INFO then dect_cc_rcv_info dh call mb out
  else {| w_call := Some call; w_out := out |}.

(** What reaches the call from outside: a message of its transaction,
    or the event loop reporting that the time of the setup timer has
    run out. *)
Inductive cc_input :=
| Rcv (mb : dect_msg_buf)
| Timeout.

Definition setup_timer_armed (w : cc_world) : bool :=
  match w_call w with
  | Some call =>
    match setup_timer call with
    | Some timer => t_armed timer
    | None => false
    end
  | None => false
  end.

(** One input.  A message reaches [dect_cc_rcv] while the call, and
    with it the transaction, exists; the expiry reaches
    [dect_cc_setup_timer] only while the timer is armed. *)
Definition cc_step (dh : dect_handle) (w : cc_world) (i : cc_input) : cc_world :=
  match w_call w with
  | None => w
  | Some call =>
    match i with
    | Rcv mb => dect_cc_rcv dh call mb (w_out w)
    | Timeout =>
      if setup_timer_armed w then dect_cc_setup_timer dh call (w_out w)
      else w
    end
  end.




(** ** Mobility Management (mm.c) *)

(** [enum dect_mm_msg_types].  Modelled from the spec: mm.h is not
    among the sources; the message types are those of ETSI EN 300
    175-5, section 7.4.3. *)
Definition DECT_MM_LOCATE_ACCEPT : Z := 0x55.
Definition DECT_MM_LOCATE_REJECT : Z := 0x57.
Definition DECT_MM_ACCESS_RIGHTS_ACCEPT : Z := 0x45.

(** [struct dect_mm_transaction] *)
Record dect_mm_transaction := {
  mm_transaction : dect_transaction_state
}.

(** The members of [struct dect_mm_locate_param] the response reads. *)
Record dect_mm_locate_param := {
  portable_identity : option dect_ie_common;
  location_area : option dect_ie_common;
  nwk_assigned_identity : option dect_ie_common;
  duration : option dect_ie_common;
  iwu_to_iwu : option dect_ie_common;
  model_identifier : option dect_ie_common;
  reject_reason : option dect_ie_common
}.

(** [dect_mm_send_msg] *)
Definition dect_mm_send_msg (dh : dect_handle) (mmta : dect_mm_transaction)
  (desc : dect_sfmt_msg_desc) (msg : dect_msg_common) (type : Z)
  : option (Z * list event) :=
  dect_lce_send dh desc msg type.

(** [dect_mm_send_locate_accept]: the members of
    [struct dect_mm_locate_accept_msg] in the order of
    [mm_locate_accept_msg_desc]; those the initialiser does not name
    are zero. *)
Definition dect_mm_send_locate_accept (dh : dect_handle)
  (mmta : dect_mm_transaction) (param : dect_mm_locate_param)
  : option (Z * list event) :=
  let msg :=
    [ Member (portable_identity param);
      Member (location_area param);
      Member None;
      Member (nwk_assigned_identity param);
      Member None;
      Member None;
      Member (duration param);
      MemberList {| il_type := 0; il_list := [] |};
      Member (iwu_to_iwu param);
      Member (model_identifier param);
      Member None;
      Member None ] in
  dect_mm_send_msg dh mmta mm_locate_accept_msg_desc msg DECT_MM_LOCATE_ACCEPT.

(** [dect_mm_send_locate_reject] *)
Definition dect_mm_send_locate_reject (dh : dect_handle)
  (mmta : dect_mm_transaction) (param : dect_mm_locate_param)
  : option (Z * list event) :=
  let msg :=
    [ Member (reject_reason param);
      Member (duration param);
      MemberList {| il_type := 0; il_list := [] |};
      Member (iwu_to_iwu param);
      Member None ] in
  dect_mm_send_msg dh mmta mm_locate_reject_msg_desc msg DECT_MM_LOCATE_REJECT.

(** [dect_mm_locate_res]: the return value, the transaction and what
    left the library. *)
Definition dect_mm_locate_res (dh : dect_handle) (mmta : dect_mm_transaction)
  (param : dect_mm_locate_param)
  : option (Z * dect_mm_transaction * list event) :=
  match (match reject_reason param with
         | None => dect_mm_send_locate_accept dh mmta param
         | Some _ => dect_mm_send_locate_reject dh mmta param
         end) with
  | Some (err, out) => Some (err, mmta, out)
  | None => None
  end.

(** [dect_mm_access_rights_res], for a parameter whose list of fixed
    identities [fixed_identity] has elements ([msg] is the
    [struct dect_mm_access_rights_accept_msg] the function fills from
    [param]): the response of the sibling exchange closes the
    transaction and frees it. *)
Definition dect_mm_access_rights_res (dh : dect_handle)
  (mmta : dect_mm_transaction) (msg : dect_msg_common)
  : option (Z * option dect_mm_transaction * list event) :=
  match dect_mm_send_msg dh mmta mm_access_rights_accept_msg_desc msg
          DECT_MM_ACCESS_RIGHTS_ACCEPT with
  | Some (err, out) => Some (err, None, out ++ [Closed DECT_DDL_RELEASE_PARTIAL])
  | None => None
  end.

Definition is_closed (e : event) : bool :=
  match e with
  | Closed _ => true
  | _ => false
  end.

Definition is_sent (type : Z) (e : event) : bool :=
  match e with
  | Sent t _ => t =? type
  | _ => false
  end.

(** ** Notions the statements use *)

(** The walk passes the entry [desc] for an IE of identifier [id]. *)
Definition advances (dh : dect_handle) (id : Z) (desc : dect_sfmt_ie_desc)
  : bool :=
  match dect_rx_policy dh desc id with
  | Advance => true
  | _ => false
  end.

(** The members of the entries the walk has passed. *)
Definition passed (pre : list dect_sfmt_ie_desc) : list dect_msg_member :=
  flat_map dect_msg_ie_init pre.

(** The member of the entry [desc] after the IE [ie], which the walk
    found at it, failed to parse: no IE.  A plain entry keeps [NULL];
    the list of a <<REPEAT-INDICATOR>> entry is without elements and
    has the list type the IE carried. *)
Definition dropped (desc : dect_sfmt_ie_desc) (ie : dect_sfmt_ie)
  : list dect_msg_member :=
  if type desc =? DECT_IE_REPEAT_INDICATOR then
    [MemberList
       {| il_type := Z.land (rd (ie_data ie) 0) DECT_SFMT_IE_FIXED_VAL_MASK;
          il_list := [] |}]
  else dect_msg_ie_init desc.

(** The elements [l] of a list are built one after the other for the
    entry [desc], from the buffer [mb] to the buffer [mb'], each with
    the result OK, and each appends to the wire the octets of its
    place in [chunks]. *)
Fixpoint built_in_order (dh : dect_handle) (desc : dect_sfmt_ie_desc)
  (mb : dect_msg_buf) (l : list dect_ie_common) (chunks : list (list Z))
  (mb' : dect_msg_buf) : Prop :=
  match l, chunks with
  | [], [] => mb' = mb
  | e :: l, c :: chunks =>
    exists m,
      __dect_build_sfmt_ie dh desc mb e = Some (DECT_SFMT_OK, m) /\
      mb_data m = mb_data mb ++ c /\
      built_in_order dh desc m l chunks mb'
  | _, _ => False
  end.

(** The identifiers of the IEs of a buffer, in the order of the wire;
    [fuel] bounds their number. *)
Fixpoint wire_ids (fuel : nat) (mb : dect_msg_buf) : list Z :=
  match fuel with
  | O => []
  | S fuel =>
    if mb_len mb >? 0 then
      match dect_parse_sfmt_ie_header mb with
      | None => []
      | Some ie => ie_id ie :: wire_ids fuel (dect_mbuf_pull mb (ie_len ie))
      end
    else []
  end.

Definition ie_ids (mb : dect_msg_buf) : list Z :=
  wire_ids (length (mb_data mb)) mb.

(** The octet of a <<REPEAT-INDICATOR>>: its identifier and the type
    of the list. *)
Definition repeat_indicator_octet (type : Z) : Z :=
  u8 (Z.lor (u8 type) DECT_IE_REPEAT_INDICATOR).

(** The setup timer of the call is not running. *)
Definition timer_off (call : dect_call) : bool :=
  match setup_timer call with
  | Some timer => negb (t_armed timer)
  | None => true
  end.


(** *** Legitimate samples

    The IEs on which the round trip is stated: an octet string that
    is one IE, in the one encoding its build handler produces, of one
    of the types <<SENDING-COMPLETE>>, <<DELIMITER-REQUEST>>,
    <<USE-TPUI>>, <<REPEAT-INDICATOR>>, <<BASIC-SERVICE>>,
    <<RELEASE-REASON>>, <<SIGNAL>>, <<SINGLE-DISPLAY>>,
    <<SINGLE-KEYPAD>>, <<IDENTITY-TYPE>>, <<LOCATION-AREA>>,
    <<ALLOCATION-TYPE>>, <<RAND>>, <<RS>>, <<RES>>,
    <<PROGRESS-INDICATOR>>, <<TIME-DATE>>, <<MULTI-DISPLAY>>,
    <<MULTI-KEYPAD>>, <<FEATURE-ACTIVATE>>, <<NETWORK-PARAMETER>>,
    <<REJECT-REASON>>, <<SETUP-CAPABILITY>>, <<CALLED-PARTY-NUMBER>>
    and <<IWU-TO-IWU>>.  The spare bits are 0, the octet groups have
    no extension octets, the contents have the length the type fixes
    or one the structure can hold, and a variable-length IE has
    contents.

    The other types with both handlers are not among them:
    <<CIPHER-INFO>> and <<DURATION>>, whose handlers do not give a
    field back as it was, and the types of [x_ids], whose handlers
    are parameters. *)







(** The tables as cc.c and mm.c write them: an entry flagged
    [DECT_SFMT_IE_REPEAT] follows each <<REPEAT-INDICATOR>> entry, and
    stands nowhere else. *)
Fixpoint wf_desc (desc : dect_sfmt_msg_desc) : bool :=
  match desc with
  | [] => true
  | d :: rest =>
    if type d =? DECT_IE_REPEAT_INDICATOR then
      match rest with
      | r :: rest' =>
        is_repeat r && negb (type r =? DECT_IE_REPEAT_INDICATOR) && wf_desc rest'
      | [] => false
      end
    else negb (is_repeat d) && wf_desc rest
  end.

(** A zeroed memory: the free part of a message buffer as the builder
    expects it, which ORs the identifier of a fixed-length IE into the
    first octet. *)
Definition zeroed (d : list Z) : bool := forallb (Z.eqb 0) d.

(** Two memories hold the same octets. *)
Definition same_octets (d x : list Z) : Prop :=
  forall k, 0 <= k -> rd d k = rd x k.





(** ** Releasing a message (s_fmt.c) *)

(** What [dect_msg_free] hands back: [__dect_ie_put] of an IE, or
    [dect_ie_list_put] of what the member at the cursor points to. *)
Inductive released :=
| IE_put (ie : dect_ie_common)
| IE_list_put (ie : option dect_ie_common).

(** [dect_msg_free]: the puts in the order of the calls; [None] when
    the walk leaves the descriptor table or the message structure.  At
    a <<REPEAT-INDICATOR>> entry the function steps over the entry that
    follows, and the cursor over the list. *)
Fixpoint dect_msg_free (dh : dect_handle) (desc : dect_sfmt_msg_desc)
  (msg : dect_msg_common) : option (list released) :=
  match desc with
  | [] => Some []
  | d :: rest =>
    if type d =? DECT_IE_REPEAT_INDICATOR then
      match msg with
      | MemberList _ :: next =>
        match rest with
        | [] => None
        | _ :: rest => dect_msg_free dh rest next
        end
      | _ => None
      end
    else
      match msg with
      | Member o :: next =>
        if is_repeat d then
          option_map (cons (IE_list_put o)) (dect_msg_free dh rest msg)
        else
          match o with
          | Some ie => option_map (cons (IE_put ie)) (dect_msg_free dh rest next)
          | None => dect_msg_free dh rest next
          end
      | _ => None
      end
  end.

(** ** Further primitives of Call Control (cc.c)

    As for [dect_mncc_setup_req], [msg] is the message structure the
    function fills from its parameters. *)

(** [dect_mncc_connect_req]: neither the result of the send nor that
    of the U-plane connect is looked at. *)
Definition dect_mncc_connect_req (dh : dect_handle) (call : dect_call)
  (sock : bool) (msg : dect_msg_common)
  : option (Z * dect_call * list event) :=
  match dect_lce_send dh cc_connect_msg_desc msg CC_CONNECT with
  | None => None
  | Some (_, out) => Some (0, snd (dect_call_connect_uplane call sock), out)
  end.

(** [dect_mncc_release_req] *)
Definition dect_mncc_release_req (dh : dect_handle) (call : dect_call)
  (msg : dect_msg_common) : option (Z * dect_call * list event) :=
  match dect_lce_send dh cc_release_msg_desc msg CC_RELEASE with
  | None => None
  | Some (_, out) => Some (0, set_state call DECT_CC_RELEASE_PENDING, out)
  end.

(** [dect_mncc_release_res]: the return value and the world; [out] is
    what has left the library before. *)
Definition dect_mncc_release_res (dh : dect_handle) (call : dect_call)
  (msg : dect_msg_common) (out : list event) : option (Z * cc_world) :=
  match dect_lce_send dh cc_release_com_msg_desc msg CC_RELEASE_COM with
  | None => None
  | Some (_, sent) =>
    let call := dect_call_disconnect_uplane call in
    Some (0, close_and_destroy (out ++ sent) DECT_DDL_RELEASE_NORMAL)
  end.

(** [dect_mncc_reject_req] *)
Definition dect_mncc_reject_req (dh : dect_handle) (call : dect_call)
  (msg : dect_msg_common) (out : list event) : option (Z * cc_world) :=
  match dect_lce_send dh cc_release_com_msg_desc msg CC_RELEASE_COM with
  | None => None
  | Some (_, sent) =>
    Some (0, close_and_destroy (out ++ sent) DECT_DDL_RELEASE_NORMAL)
  end.

(** [dect_mncc_info_req] *)
Definition dect_mncc_info_req (dh : dect_handle) (call : dect_call)
  (msg : dect_msg_common) : option (Z * dect_call * list event) :=
  match dect_lce_send dh cc_info_msg_desc msg CC_INFO with
  | None => None
  | Some (_, out) => Some (0, call, out)
  end.

(** [dect_cc_shutdown]: the primitive is delivered with a [NULL]
    parameter, without any allocation. *)
Definition dect_cc_shutdown (dh : dect_handle) (call : dect_call)
  (out : list event) : cc_world :=
  close_and_destroy (out ++ [MNCC_REJECT_ind None]) DECT_DDL_RELEASE_NORMAL.

(** ** Further notions *)

(** A plain entry: neither a <<REPEAT-INDICATOR>> nor a repeated one. *)
Definition plain (d : dect_sfmt_ie_desc) : bool :=
  negb (type d =? DECT_IE_REPEAT_INDICATOR) && negb (is_repeat d).

(** The IEs the members of a message point to. *)
Definition present (msg : dect_msg_common) : list dect_ie_common :=
  flat_map (fun m => match m with
                     | Member (Some ie) => [ie]
                     | _ => []
                     end) msg.

(** No list of the message has an element. *)
Definition lists_empty (msg : dect_msg_common) : bool :=
  forallb (fun m => match m with
                    | MemberList iel =>
                      match il_list iel with [] => true | _ => false end
                    | Member _ => true
                    end) msg.

(** The message structure of a table: a list for each
    <<REPEAT-INDICATOR>> entry, a pointer for each plain entry, and
    nothing more. *)
Fixpoint shaped (desc : dect_sfmt_msg_desc) (msg : dect_msg_common) : bool :=
  match desc with
  | [] => match msg with [] => true | _ => false end
  | d :: rest =>
    if type d =? DECT_IE_REPEAT_INDICATOR then
      match msg with
      | MemberList _ :: next => shaped rest next
      | _ => false
      end
    else if is_repeat d then shaped rest msg
    else
      match msg with
      | Member _ :: next => shaped rest next
      | _ => false
      end
  end.

(** The IE types the catalog can parse and cannot build. *)
Definition parse_only_ids : list Z :=
  [ DECT_IE_TIMER_RESTART; DECT_IE_SERVICE_CHANGE_INFO; DECT_IE_FACILITY;
    DECT_IE_FEATURE_INDICATE ].

(** The array of a parsed structure holds its [len] octets, and [len]
    is within the size of the array. *)
Definition within (len size : Z) (data : list Z) : bool :=
  (0 <=? len) && (len <=? size) && (Z.of_nat (length data) =? len).

Definition in_bounds (v : dect_ie_common) : bool :=
  match v with
  | IE_display ie => within (display_len ie) (display_info_size X) (display_info ie)
  | IE_keypad ie => within (keypad_len ie) (keypad_info_size X) (keypad_info ie)
  | IE_network_parameter ie =>
    within (np_len ie) (network_parameter_data_size X) (np_data ie)
  | IE_called_party_number ie =>
    within (cpn_len ie) (called_party_number_address_size X) (cpn_address ie)
  | IE_iwu_to_iwu ie => within (iwu_len ie) (iwu_to_iwu_data_size X) (iwu_data ie)
  | IE_facility ie =>
    within (fac_len ie) (facility_components_size X) (fac_components ie)
  | IE_auth_value value => Z.of_nat (length value) =? 8
  | IE_auth_res value => Z.of_nat (length value) =? 4
  | _ => true
  end.

(** The descriptor [dect_cc_rcv] parses a message of type [t]
    against. *)
Definition cc_msg_desc (t : Z) : option dect_sfmt_msg_desc :=
  if t =? CC_ALERTING then Some cc_alerting_msg_desc
  else if t =? CC_CALL_PROC then Some cc_call_proc_msg_desc
  else if t =? CC_CONNECT then Some cc_connect_msg_desc
  else if t =? CC_SETUP_ACK then Some cc_setup_ack_msg_desc
  else if t =? CC_CONNECT_ACK then Some cc_connect_ack_msg_desc
  else if t =? CC_SERVICE_CHANGE then Some cc_service_change_msg_desc
  else if t =? CC_SERVICE_ACCEPT then Some cc_service_accept_msg_desc
  else if t =? CC_SERVICE_REJECT then Some cc_service_reject_msg_desc
  else if t =? CC_RELEASE then Some cc_release_msg_desc
  else if t =? CC_RELEASE_COM then Some cc_release_com_msg_desc
  else if t =? CC_IWU_INFO then Some cc_iwu_info_msg_desc
  else if t =? CC_NOTIFY then Some cc_notify_msg_desc
  else if t =? CC_INFO then Some cc_info_msg_desc
  else None.

(** A transaction is closed [n] times in what has left the library. *)
Definition closings (out : list event) : nat :=
  length (filter is_closed out).

(** * Properties *)

(** ** Octet strings *)

Lemma nth_wr_nat (d : list Z) (k j : nat) (v : Z) :
  nth j (wr_nat d k v) 0 = if Nat.eqb j k then v else nth j d 0.
Proof.
  revert d j; induction k as [|k IH]; intros d j.
  - destruct d, j; simpl; try reflexivity; destruct j; reflexivity.
  - destruct d, j; simpl; try reflexivity.
    + rewrite IH. destruct (Nat.eqb j k); [reflexivity | destruct j; reflexivity].
    + apply IH.
Qed.

Lemma rd_wr (d : list Z) (k j v : Z) :
  0 <= k -> 0 <= j ->
  rd (wr d k v) j = if j =? k then u8 v else rd d j.
Proof.
  intros Hk Hj. unfold rd, wr. rewrite nth_wr_nat.
  destruct (Z.eqb_spec j k) as [->|Hne].
  - now rewrite Nat.eqb_refl.
  - destruct (Nat.eqb_spec (Z.to_nat j) (Z.to_nat k)) as [E|]; [|reflexivity].
    apply Z2Nat.inj in E; [contradiction | assumption | assumption].
Qed.

Lemma rd_wr_or (d : list Z) (k j v : Z) :
  0 <= k -> 0 <= j ->
  rd (wr_or d k v) j = if j =? k then u8 (Z.lor (rd d k) v) else rd d j.
Proof. intros; unfold wr_or; now apply rd_wr. Qed.

Lemma rd_memcpy (src d : list Z) (k j : Z) :
  0 <= k -> 0 <= j ->
  rd (memcpy d k src) j =
  if (k <=? j) && (j <? k + Z.of_nat (length src))
  then u8 (nth (Z.to_nat (j - k)) src 0)
  else rd d j.
Proof.
  revert d k; induction src as [|b src IH]; intros d k Hk Hj; simpl memcpy.
  - simpl length. replace (k + Z.of_nat 0) with k by lia.
    destruct (Z.leb_spec k j), (Z.ltb_spec j k); simpl; try reflexivity; lia.
  - rewrite IH by lia. rewrite rd_wr by lia.
    change (length (b :: src)) with (S (length src)).
    destruct (Z.eqb_spec j k) as [->|Hne].
    + rewrite Z.sub_diag. simpl nth.
      destruct (Z.leb_spec (k + 1) k); [lia|].
      destruct (Z.leb_spec k k); [|lia].
      destruct (Z.ltb_spec k (k + Z.of_nat (S (length src)))); [|lia].
      reflexivity.
    + destruct (Z.leb_spec (k + 1) j), (Z.ltb_spec j (k + 1 + Z.of_nat (length src)));
        destruct (Z.leb_spec k j), (Z.ltb_spec j (k + Z.of_nat (S (length src))));
        simpl; try lia; try reflexivity.
      replace (Z.to_nat (j - k)) with (S (Z.to_nat (j - (k + 1)))) by lia.
      reflexivity.
Qed.

Lemma length_sub (d : list Z) (k n : Z) : length (sub d k n) = Z.to_nat n.
Proof. unfold sub. now rewrite length_map, length_seq. Qed.

Lemma nth_map_seq (f : nat -> Z) (a n i : nat) :
  (i < n)%nat -> nth i (map f (seq a n)) 0 = f (a + i)%nat.
Proof.
  revert a i; induction n as [|n IH]; intros a i Hi; [lia|].
  destruct i; simpl.
  - f_equal; lia.
  - rewrite IH by lia. f_equal; lia.
Qed.

Lemma nth_sub (d : list Z) (k n : Z) (i : nat) :
  (i < Z.to_nat n)%nat -> nth i (sub d k n) 0 = rd d (k + Z.of_nat i).
Proof. intros Hi. unfold sub. now rewrite nth_map_seq. Qed.

(** A list is the octets read back from a memory that holds it. *)
Lemma sub_eq (d l : list Z) (k : Z) :
  (forall i, (i < length l)%nat -> rd d (k + Z.of_nat i) = nth i l 0) ->
  sub d k (Z.of_nat (length l)) = l.
Proof.
  intros H. apply (nth_ext _ _ 0 0).
  - now rewrite length_sub, Nat2Z.id.
  - intros i Hi. rewrite length_sub, Nat2Z.id in Hi.
    rewrite nth_sub by now rewrite Nat2Z.id. now apply H.
Qed.


Lemma octets_forall (l : list Z) :
  octets l = true <-> forall b, In b l -> 0 <= b < 256.
Proof.
  unfold octets, is_octet. rewrite forallb_forall.
  split; intros H b Hb; specialize (H b Hb).
  - apply andb_true_iff in H as [H1 H2]. lia.
  - apply andb_true_iff. split; [apply Z.leb_le | apply Z.ltb_lt]; lia.
Qed.

Lemma u8_octet (b : Z) : 0 <= b < 256 -> u8 b = b.
Proof. intros; unfold u8; now apply Z.mod_small. Qed.

Lemma map_u8_octets (l : list Z) : octets l = true -> map u8 l = l.
Proof.
  intros H. rewrite octets_forall in H.
  induction l as [|b l IH]; [reflexivity|]. simpl. f_equal.
  - apply u8_octet, H; now left.
  - apply IH; intros; apply H; now right.
Qed.

(** A property of octets that evaluates to [true] on the 256 octets
    holds of every octet. *)
Lemma forall_octet_spec (p : Z -> bool) :
  forall_octet p = true -> forall b, 0 <= b < 256 -> p b = true.
Proof.
  unfold forall_octet, all_octets. intros H b Hb.
  rewrite forallb_forall in H. apply H.
  apply in_map_iff. exists (Z.to_nat b). split; [lia|].
  apply in_seq. lia.
Qed.

(** ** The walk of [dect_parse_sfmt_msg] *)

Lemma with_members_app (a b : list dect_msg_member) (r : parse_result) :
  with_members a (with_members b r) = with_members (a ++ b) r.
Proof. unfold with_members; simpl. now rewrite app_assoc. Qed.

Lemma with_members_nil (r : parse_result) : with_members [] r = r.
Proof. now destruct r. Qed.

Lemma p_err_with_members (m : list dect_msg_member) (r : parse_result) :
  p_err (with_members m r) = p_err r.
Proof. reflexivity. Qed.

(** The walk passes a prefix of entries none of which stops it. *)
Lemma parse_walk_passes (dh : dect_handle) (pre rest : dect_sfmt_msg_desc)
  (ie : dect_sfmt_ie) (mb : dect_msg_buf) :
  forallb (advances dh (ie_id ie)) pre = true ->
  parse_walk dh (pre ++ rest) ie mb =
  with_members (passed pre) (parse_walk dh rest ie mb).
Proof.
  induction pre as [|e pre IH]; intros H; simpl.
  - now rewrite with_members_nil.
  - apply andb_true_iff in H as [He Hpre]. unfold advances in He.
    destruct (dect_rx_policy dh e (ie_id ie)); try discriminate.
    rewrite IH by assumption. unfold passed; simpl.
    now rewrite with_members_app.
Qed.

(** The step at the entry that matches: the loop goes on with the
    rest of the descriptor and the rest of the buffer. *)
Lemma parse_walk_found (dh : dect_handle) (d : dect_sfmt_ie_desc)
  (rest : dect_sfmt_msg_desc) (ie : dect_sfmt_ie) (mb : dect_msg_buf) :
  dect_rx_policy dh d (ie_id ie) = Found ->
  parse_walk dh (d :: rest) ie mb =
  let r := if is_empty_ie ie then (0, None)
           else dect_parse_sfmt_ie dh (type d) ie in
  if (fst r <? 0) && is_mandatory (dect_rx_status dh d) then
    {| p_err := DECT_SFMT_MANDATORY_IE_ERROR;
       p_msg := stored_member d (snd r); p_mb := mb |}
  else with_members (stored_member d (snd r))
         (dect_parse_sfmt_msg dh rest (dect_mbuf_pull mb (ie_len ie))).
Proof. intros H. simpl. rewrite H. reflexivity. Qed.

Lemma dect_parse_sfmt_msg_walk (dh : dect_handle) (mdesc : dect_sfmt_msg_desc)
  (mb : dect_msg_buf) (ie : dect_sfmt_ie) :
  0 < mb_len mb -> dect_parse_sfmt_ie_header mb = Some ie ->
  dect_parse_sfmt_msg dh mdesc mb = parse_walk dh mdesc ie mb.
Proof.
  intros Hlen Hh. unfold dect_parse_sfmt_msg. rewrite Hh.
  destruct (Z.gtb_spec (mb_len mb) 0); [reflexivity | lia].
Qed.

(** An entry finds only the IE of its own type, or the multi-octet
    form of its display or keypad IE. *)
Lemma found_id (dh : dect_handle) (d : dect_sfmt_ie_desc) (id : Z) :
  dect_rx_policy dh d id = Found ->
  type d = id \/
  (type d = DECT_IE_SINGLE_DISPLAY /\ id = DECT_IE_MULTI_DISPLAY) \/
  (type d = DECT_IE_SINGLE_KEYPAD /\ id = DECT_IE_MULTI_KEYPAD).
Proof.
  unfold dect_rx_policy.
  destruct (Z.eqb_spec (type d) id) as [|_]; [now left|].
  destruct (dect_rx_status dh d); try discriminate.
  destruct (Z.eqb_spec (type d) DECT_IE_SINGLE_DISPLAY) as [Hd|_],
           (Z.eqb_spec id DECT_IE_MULTI_DISPLAY) as [Hi|_]; simpl;
    try (intros _; right; left; now split);
    destruct (Z.eqb_spec (type d) DECT_IE_SINGLE_KEYPAD) as [Hd'|_],
             (Z.eqb_spec id DECT_IE_MULTI_KEYPAD) as [Hi'|_]; simpl;
    try discriminate; intros _; right; right; now split.
Qed.

(** A member that a failed [dect_parse_sfmt_ie] leaves holds no IE. *)
Lemma failed_member (dh : dect_handle) (d : dect_sfmt_ie_desc)
  (ie : dect_sfmt_ie) :
  dect_rx_policy dh d (ie_id ie) = Found ->
  fst (dect_parse_sfmt_ie dh (type d) ie) < 0 ->
  stored_member d (snd (dect_parse_sfmt_ie dh (type d) ie)) = dropped d ie.
Proof.
  intros Hfound. apply found_id in Hfound.
  unfold dect_parse_sfmt_ie, stored_member, dropped, left_in_place.
  destruct (Z.eqb_spec (type d) DECT_IE_REPEAT_INDICATOR) as [Hri|Hri].
  - assert (Hid : ie_id ie = DECT_IE_REPEAT_INDICATOR).
    { destruct Hfound as [<-|[[H _]|[H _]]]; [exact Hri| |];
        rewrite Hri in H; discriminate. }
    rewrite Hid. cbn.
    destruct (dect_sfmt_parse_repeat_indicator ie); simpl; [lia|].
    reflexivity.
  - assert (Hid : (ie_id ie =? DECT_IE_REPEAT_INDICATOR) = false).
    { apply Z.eqb_neq. destruct Hfound as [<-|[[_ ->]|[_ ->]]];
        [exact Hri| |]; discriminate. }
    rewrite Hid. unfold dect_msg_ie_init.
    apply Z.eqb_neq in Hri. rewrite Hri.
    destruct (ieh_parse (dect_ie_handlers (ie_id ie))) as [parse|]; simpl.
    + destruct (ieh_sized (dect_ie_handlers (ie_id ie)) && dh_nomem dh); simpl.
      * intros _. now destruct (is_repeat d).
      * destruct (parse ie); simpl; [lia|].
        intros _.
        now destruct (is_repeat d), (ieh_sized (dect_ie_handlers (ie_id ie))).
    + intros _. now destruct (is_repeat d).
Qed.

(** The header of a variable-length IE without contents. *)
Lemma header_of_empty_ie (mb : dect_msg_buf) (id : Z) (octs : list Z) :
  0 <= id < 0x80 -> mb_data mb = id :: 0 :: octs ->
  0 < mb_len mb /\
  dect_parse_sfmt_ie_header mb =
    Some {| ie_id := id; ie_len := 2; ie_data := mb_mem mb |} /\
  is_empty_ie {| ie_id := id; ie_len := 2; ie_data := mb_mem mb |} = true.
Proof.
  intros Hid Hd.
  assert (Hland : Z.land id DECT_SFMT_IE_FIXED_LEN = 0).
  { pose proof (forall_octet_spec
      (fun b => if b <? 0x80 then Z.land b DECT_SFMT_IE_FIXED_LEN =? 0 else true)
      eq_refl id ltac:(lia)) as H.
    simpl in H. destruct (Z.ltb_spec id 128); [|lia]. now apply Z.eqb_eq. }
  assert (Hlen : mb_len mb = 2 + Z.of_nat (length octs)).
  { unfold mb_len. rewrite Hd. simpl length. lia. }
  split; [lia|]. split.
  - unfold dect_parse_sfmt_ie_header, mb_mem. rewrite Hd. simpl app.
    change (rd (id :: 0 :: octs ++ mb_tail mb) 0) with id.
    change (rd (id :: 0 :: octs ++ mb_tail mb) 1) with 0.
    rewrite Hland. change (is_fixed_len 0) with false. cbv iota.
    destruct (Z.ltb_spec (mb_len mb) 1); [lia|].
    destruct (Z.ltb_spec (mb_len mb) 2); [lia|].
    destruct (Z.ltb_spec (mb_len mb) (2 + 0)); [lia|].
    reflexivity.
  - unfold is_empty_ie, is_fixed_len; simpl. now rewrite Hland.
Qed.

(** C8, amended.  The direction policy comes before the check for an
    empty IE.  An inbound variable-length IE of two octets (a header
    without contents) that the walk finds at an entry of the
    descriptor is treated as absent: the member of its entry stays as
    initialised, whatever the parse handler of the IE would do; the
    cursor moves to the next entry, the two octets are pulled, and
    parsing goes on with the rest of the descriptor and the rest of
    the buffer.  When the walk comes to an entry that rejects the
    identifier, the message is rejected with the error of the policy;
    when every entry lets the identifier pass, the parse ends with the
    IE left in the buffer. *)
Theorem empty_ie_is_absent (dh : dect_handle) (pre : dect_sfmt_msg_desc)
  (d : dect_sfmt_ie_desc) (rest : dect_sfmt_msg_desc) (mb : dect_msg_buf)
  (id : Z) (octs : list Z) :
  0 <= id < 0x80 ->
  mb_data mb = id :: 0 :: octs ->
  forallb (advances dh id) pre = true ->
  (dect_rx_policy dh d id = Found ->
   dect_parse_sfmt_msg dh (pre ++ d :: rest) mb =
   with_members (passed pre ++ dect_msg_ie_init d)
     (dect_parse_sfmt_msg dh rest
        {| mb_data := octs; mb_tail := mb_tail mb; mb_type := mb_type mb |})) /\
  (forall err, dect_rx_policy dh d id = Reject err ->
   p_err (dect_parse_sfmt_msg dh (pre ++ d :: rest) mb) = err) /\
  dect_parse_sfmt_msg dh pre mb =
  {| p_err := DECT_SFMT_OK; p_msg := passed pre; p_mb := mb |}.
Proof.
  intros Hid Hd Hpre.
  destruct (header_of_empty_ie mb id octs Hid Hd) as (Hlen & Hh & Hempty).
  split; [|split].
  - intros Hd_found.
    rewrite (dect_parse_sfmt_msg_walk dh _ mb _ Hlen Hh).
    rewrite parse_walk_passes by exact Hpre.
    rewrite parse_walk_found by exact Hd_found.
    rewrite Hempty. cbv zeta. simpl fst. simpl snd.
    change (0 <? 0) with false. simpl andb. cbv iota.
    rewrite with_members_app. simpl ie_len.
    replace (dect_mbuf_pull mb 2)
      with {| mb_data := octs; mb_tail := mb_tail mb; mb_type := mb_type mb |}
      by (unfold dect_mbuf_pull; rewrite Hd; reflexivity).
    replace (stored_member d None) with (dect_msg_ie_init d); [reflexivity|].
    unfold stored_member, dect_msg_ie_init.
    now destruct (type d =? DECT_IE_REPEAT_INDICATOR), (is_repeat d).
  - intros err Hrej.
    rewrite (dect_parse_sfmt_msg_walk dh _ mb _ Hlen Hh).
    rewrite parse_walk_passes by exact Hpre. rewrite p_err_with_members.
    simpl. simpl in Hrej. rewrite Hrej. reflexivity.
  - rewrite (dect_parse_sfmt_msg_walk dh _ mb _ Hlen Hh).
    rewrite <- (app_nil_r pre) at 1.
    rewrite parse_walk_passes by exact Hpre.
    unfold with_members. simpl. now rewrite app_nil_r.
Qed.

(** C3.  When [dect_parse_sfmt_ie] fails on an IE the walk has found
    at the entry [d], the whole parse returns MANDATORY_IE_ERROR if
    the direction-filtered status of [d] is MANDATORY; if it is
    OPTIONAL the corrupt IE is dropped: the member of [d] holds no IE
    ([NULL], as initialised, for an entry that is not a
    <<REPEAT-INDICATOR>>; for a <<REPEAT-INDICATOR>> a list without
    elements, of the list type the IE carried), the IE is pulled off
    the buffer, the cursor moves on, and the result is that of parsing
    the rest of the message against the rest of the descriptor. *)
Theorem corrupt_ie_policy (dh : dect_handle) (pre : dect_sfmt_msg_desc)
  (d : dect_sfmt_ie_desc) (rest : dect_sfmt_msg_desc) (mb : dect_msg_buf)
  (ie : dect_sfmt_ie) :
  0 < mb_len mb ->
  dect_parse_sfmt_ie_header mb = Some ie ->
  forallb (advances dh (ie_id ie)) pre = true ->
  dect_rx_policy dh d (ie_id ie) = Found ->
  is_empty_ie ie = false ->
  fst (dect_parse_sfmt_ie dh (type d) ie) < 0 ->
  (dect_rx_status dh d = DECT_SFMT_IE_MANDATORY ->
   p_err (dect_parse_sfmt_msg dh (pre ++ d :: rest) mb) =
   DECT_SFMT_MANDATORY_IE_ERROR) /\
  (dect_rx_status dh d = DECT_SFMT_IE_OPTIONAL ->
   dect_parse_sfmt_msg dh (pre ++ d :: rest) mb =
   with_members (passed pre ++ dropped d ie)
     (dect_parse_sfmt_msg dh rest (dect_mbuf_pull mb (ie_len ie))) /\
   no_parameters (dropped d ie) = true /\
   (type d <> DECT_IE_REPEAT_INDICATOR ->
    dropped d ie = dect_msg_ie_init d)).
Proof.
  intros Hlen Hh Hpre Hfound Hne Hfail.
  rewrite (dect_parse_sfmt_msg_walk dh _ mb ie Hlen Hh).
  rewrite parse_walk_passes by exact Hpre.
  rewrite parse_walk_found by exact Hfound.
  rewrite Hne. cbv zeta.
  destruct (Z.ltb_spec (fst (dect_parse_sfmt_ie dh (type d) ie)) 0) as [_|]; [|lia].
  rewrite (failed_member dh d ie Hfound Hfail).
  split; intros Hs; rewrite Hs; simpl.
  - reflexivity.
  - split; [now rewrite with_members_app|].
    unfold dropped, dect_msg_ie_init.
    destruct (Z.eqb_spec (type d) DECT_IE_REPEAT_INDICATOR) as [Hri|Hri].
    + split; [reflexivity | intros H; contradiction].
    + split; [now destruct (is_repeat d) | reflexivity].
Qed.

(** ** Direction policing *)

Lemma parse_out_ok (dh : dect_handle) (desc : dect_sfmt_msg_desc)
  (mb : dect_msg_buf) :
  p_err (parse_out dh desc mb) = DECT_SFMT_OK ->
  forall d, In d desc -> is_mandatory (dect_rx_status dh d) = false.
Proof.
  induction desc as [|e desc IH]; simpl; intros H d Hd; [contradiction|].
  destruct (is_mandatory (dect_rx_status dh e)) eqn:He; [discriminate|].
  destruct Hd as [<-|Hd]; [assumption | now apply IH].
Qed.

Lemma parse_out_missing (dh : dect_handle) (desc : dect_sfmt_msg_desc)
  (mb : dect_msg_buf) (d : dect_sfmt_ie_desc) :
  In d desc -> dect_rx_status dh d = DECT_SFMT_IE_MANDATORY ->
  p_err (parse_out dh desc mb) = DECT_SFMT_MANDATORY_IE_MISSING.
Proof.
  induction desc as [|e desc IH]; simpl; intros Hd Hs; [contradiction|].
  destruct (is_mandatory (dect_rx_status dh e)) eqn:He; [reflexivity|].
  destruct Hd as [->|Hd]; [now rewrite Hs in He | now apply IH].
Qed.

Lemma parse_out_err (dh : dect_handle) (desc : dect_sfmt_msg_desc)
  (mb : dect_msg_buf) :
  p_err (parse_out dh desc mb) = DECT_SFMT_OK \/ p_err (parse_out dh desc mb) < 0.
Proof.
  induction desc as [|e desc IH]; simpl; [now left|].
  destruct (is_mandatory (dect_rx_status dh e)); [right; reflexivity | exact IH].
Qed.

(** The return value is 0 or negative. *)
Lemma parse_walk_err (dh : dect_handle) (desc : dect_sfmt_msg_desc) :
  forall ie mb,
  p_err (parse_walk dh desc ie mb) = DECT_SFMT_OK \/
  p_err (parse_walk dh desc ie mb) < 0.
Proof.
  induction desc as [|d desc IH]; intros ie mb; simpl; [now left|].
  unfold dect_rx_policy.
  destruct (dect_rx_status dh d); simpl;
    repeat match goal with
           | |- context [if ?c then _ else _] => destruct c; simpl
           | |- context [match dect_parse_sfmt_ie_header ?m with _ => _ end] =>
             destruct (dect_parse_sfmt_ie_header m); simpl
           end;
    try (right; reflexivity); try apply IH; try apply parse_out_err.
Qed.

Lemma dect_parse_sfmt_msg_err (dh : dect_handle) (mdesc : dect_sfmt_msg_desc)
  (mb : dect_msg_buf) :
  p_err (dect_parse_sfmt_msg dh mdesc mb) = DECT_SFMT_OK \/
  p_err (dect_parse_sfmt_msg dh mdesc mb) < 0.
Proof.
  unfold dect_parse_sfmt_msg.
  destruct (mb_len mb >? 0); [|apply parse_out_err].
  destruct (dect_parse_sfmt_ie_header mb); [apply parse_walk_err | right; reflexivity].
Qed.

(** An IE of a buffer of octets has one octet or more. *)
Lemma header_len (mb : dect_msg_buf) (ie : dect_sfmt_ie) :
  octets (mb_data mb) = true ->
  dect_parse_sfmt_ie_header mb = Some ie ->
  1 <= ie_len ie <= mb_len mb.
Proof.
  intros Ho. unfold dect_parse_sfmt_ie_header.
  destruct (Z.ltb_spec (mb_len mb) 1); [discriminate|].
  destruct (is_fixed_len _).
  - destruct (negb _).
    + intros [= <-]; simpl; lia.
    + destruct (Z.ltb_spec (mb_len mb) 2); [discriminate|].
      intros [= <-]; simpl; lia.
  - destruct (Z.ltb_spec (mb_len mb) 2); [discriminate|].
    destruct (Z.ltb_spec (mb_len mb) (2 + rd (mb_mem mb) 1)); [discriminate|].
    intros [= <-]; simpl.
    assert (0 <= rd (mb_mem mb) 1 < 256); [|lia].
    rewrite octets_forall in Ho. apply Ho.
    unfold rd, mb_mem. rewrite app_nth1 by (unfold mb_len in *; lia).
    apply nth_In. unfold mb_len in *; lia.
Qed.

Lemma octets_pull (mb : dect_msg_buf) (n : Z) :
  octets (mb_data mb) = true -> octets (mb_data (dect_mbuf_pull mb n)) = true.
Proof.
  rewrite !octets_forall. intros H b Hb. apply H.
  simpl in Hb. rewrite <- (firstn_skipn (Z.to_nat n) (mb_data mb)).
  apply in_or_app; now right.
Qed.

Lemma length_pull (mb : dect_msg_buf) (n : Z) :
  length (mb_data (dect_mbuf_pull mb n)) = (length (mb_data mb) - Z.to_nat n)%nat.
Proof. simpl. apply length_skipn. Qed.

(** A MANDATORY entry the walk has left behind was matched by an IE
    of the wire. *)
Lemma parse_walk_ok (dh : dect_handle) (desc : dect_sfmt_msg_desc) :
  forall ie mb fuel,
  octets (mb_data mb) = true ->
  0 < mb_len mb ->
  dect_parse_sfmt_ie_header mb = Some ie ->
  (length (mb_data mb) <= fuel)%nat ->
  p_err (parse_walk dh desc ie mb) = DECT_SFMT_OK ->
  forall d, In d desc -> dect_rx_status dh d = DECT_SFMT_IE_MANDATORY ->
  In (type d) (wire_ids fuel mb).
Proof.
  induction desc as [|e desc IH]; intros ie mb fuel Ho Hlen Hh Hfuel Hok d Hd Hs;
    [contradiction|].
  assert (Hwire : exists fuel', fuel = S fuel' /\
            wire_ids fuel mb =
            ie_id ie :: wire_ids fuel' (dect_mbuf_pull mb (ie_len ie))).
  { destruct fuel as [|fuel']; [unfold mb_len in Hlen; lia|].
    exists fuel'. split; [reflexivity|]. simpl. rewrite Hh.
    destruct (Z.gtb_spec (mb_len mb) 0); [reflexivity | lia]. }
  destruct Hwire as (fuel' & -> & Hw). rewrite Hw.
  pose proof (header_len mb ie Ho Hh) as Hl.
  destruct (dect_rx_policy dh e (ie_id ie)) eqn:Hp.
  - (* found *)
    rewrite parse_walk_found in Hok by exact Hp. cbv zeta in Hok.
    destruct ((fst _ <? 0) && is_mandatory (dect_rx_status dh e)) eqn:Hc;
      [discriminate|].
    rewrite p_err_with_members in Hok.
    destruct Hd as [<-|Hd].
    + left. unfold dect_rx_policy in Hp. rewrite Hs in Hp.
      destruct (Z.eqb_spec (type e) (ie_id ie)); [congruence | discriminate].
    + right. unfold dect_parse_sfmt_msg in Hok.
      destruct (Z.gtb_spec (mb_len (dect_mbuf_pull mb (ie_len ie))) 0) as [Hpos|].
      * destruct (dect_parse_sfmt_ie_header (dect_mbuf_pull mb (ie_len ie)))
          as [ie'|] eqn:Hh'; [|discriminate].
        assert (Hf : (length (mb_data (dect_mbuf_pull mb (ie_len ie))) <= fuel')%nat)
          by (rewrite length_pull; unfold mb_len in Hl; lia).
        exact (IH ie' (dect_mbuf_pull mb (ie_len ie)) fuel'
                  (octets_pull mb _ Ho) Hpos Hh' Hf Hok d Hd Hs).
      * pose proof (parse_out_ok dh desc _ Hok d Hd) as Hm.
        now rewrite Hs in Hm.
  - (* advance *)
    simpl in Hok. rewrite Hp in Hok. rewrite p_err_with_members in Hok.
    destruct Hd as [<-|Hd].
    + unfold dect_rx_policy in Hp. rewrite Hs in Hp.
      destruct (type e =? ie_id ie); discriminate.
    + rewrite <- Hw. apply (IH ie mb (S fuel')); auto.
  - (* reject *)
    simpl in Hok. rewrite Hp in Hok. simpl in Hok.
    unfold dect_rx_policy in Hp.
    destruct (dect_rx_status dh e);
      repeat match type of Hp with
             | (if ?c then _ else _) = _ => destruct c
             end; try discriminate; injection Hp as <-; discriminate.
Qed.

(** A message that [dect_parse_sfmt_msg] accepts holds an IE for
    every entry whose direction-filtered status is MANDATORY. *)
Lemma accepted_has_mandatory (dh : dect_handle) (mdesc : dect_sfmt_msg_desc)
  (mb : dect_msg_buf) :
  octets (mb_data mb) = true ->
  p_err (dect_parse_sfmt_msg dh mdesc mb) = DECT_SFMT_OK ->
  forall d, In d mdesc -> dect_rx_status dh d = DECT_SFMT_IE_MANDATORY ->
  In (type d) (ie_ids mb).
Proof.
  intros Ho Hok d Hd Hs. unfold dect_parse_sfmt_msg in Hok.
  destruct (Z.gtb_spec (mb_len mb) 0) as [Hpos|].
  - destruct (dect_parse_sfmt_ie_header mb) as [ie|] eqn:Hh; [|discriminate].
    exact (parse_walk_ok dh mdesc ie mb _ Ho Hpos Hh (Nat.le_refl _) Hok d Hd Hs).
  - pose proof (parse_out_ok dh mdesc _ Hok d Hd) as Hm. now rewrite Hs in Hm.
Qed.

(** C2, amended.  [dect_parse_sfmt_msg] polices the direction with the
    status field the role of the handle selects (PP→FP on an FP
    handle, FP→PP on a PP handle), at the cursor of the descriptor:
    - when the walk for a wire IE has passed only entries that do not
      stop it and comes to an entry of the identifier of the IE whose
      status is NONE, the message is rejected;
    - when it comes to an entry whose status is MANDATORY and whose
      identifier is not that of the IE, the message is rejected with
      MANDATORY_IE_MISSING;
    - when the buffer is exhausted while an entry of status MANDATORY
      remains, the message is rejected with MANDATORY_IE_MISSING;
    - a message that holds no IE of the identifier of an entry of
      status MANDATORY is rejected.
    The loop of [dect_parse_sfmt_msg] with the cursor at a later
    entry and the buffer at a later IE is [dect_parse_sfmt_msg] on
    the rest of the descriptor and of the buffer ([parse_walk_found]),
    so that the statement holds at every IE of a message. *)
Theorem direction_policing (dh : dect_handle) (mdesc : dect_sfmt_msg_desc)
  (mb : dect_msg_buf) :
  octets (mb_data mb) = true ->
  (forall d, dect_rx_status dh d =
             match mode dh with
             | DECT_MODE_FP => pp_fp d
             | DECT_MODE_PP => fp_pp d
             end) /\
  (forall pre d rest ie,
     mdesc = pre ++ d :: rest ->
     0 < mb_len mb -> dect_parse_sfmt_ie_header mb = Some ie ->
     forallb (advances dh (ie_id ie)) pre = true ->
     (dect_rx_status dh d = DECT_SFMT_IE_NONE -> type d = ie_id ie ->
      p_err (dect_parse_sfmt_msg dh mdesc mb) < 0) /\
     (dect_rx_status dh d = DECT_SFMT_IE_MANDATORY -> type d <> ie_id ie ->
      p_err (dect_parse_sfmt_msg dh mdesc mb) = DECT_SFMT_MANDATORY_IE_MISSING)) /\
  (forall d, mb_len mb = 0 -> In d mdesc ->
     dect_rx_status dh d = DECT_SFMT_IE_MANDATORY ->
     p_err (dect_parse_sfmt_msg dh mdesc mb) = DECT_SFMT_MANDATORY_IE_MISSING) /\
  (forall d, In d mdesc -> dect_rx_status dh d = DECT_SFMT_IE_MANDATORY ->
     ~ In (type d) (ie_ids mb) ->
     p_err (dect_parse_sfmt_msg dh mdesc mb) < 0).
Proof.
  intros Ho. split; [|split; [|split]].
  - intros d. reflexivity.
  - intros pre d rest ie -> Hlen Hh Hpre.
    rewrite (dect_parse_sfmt_msg_walk dh _ mb ie Hlen Hh).
    rewrite parse_walk_passes by exact Hpre. rewrite p_err_with_members.
    split; intros Hs Ht; simpl; unfold dect_rx_policy; rewrite Hs.
    + rewrite Ht, Z.eqb_refl. simpl. lia.
    + destruct (Z.eqb_spec (type d) (ie_id ie)); [contradiction | reflexivity].
  - intros d Hlen Hd Hs. unfold dect_parse_sfmt_msg. rewrite Hlen.
    change (0 >? 0) with false. cbv iota.
    now apply (parse_out_missing dh mdesc mb d).
  - intros d Hd Hs Hni.
    destruct (dect_parse_sfmt_msg_err dh mdesc mb) as [Hok|Hneg]; [|exact Hneg].
    exfalso. apply Hni. now apply (accepted_has_mandatory dh mdesc mb).
Qed.

(** ** Building an IE *)

Lemma nth_map_u8 (l : list Z) (i : nat) : nth i (map u8 l) 0 = u8 (nth i l 0).
Proof. change 0 with (u8 0) at 1. apply map_nth. Qed.

(** The octets of a variable-length IE after its header was written:
    the identifier, the length of the contents, the contents. *)
Lemma sub_vl_ie (tail src : list Z) (id v : Z) :
  sub (wr (wr (memcpy tail 2 src) 1 v) 0 id) 0 (Z.of_nat (length src) + 2) =
  u8 id :: u8 v :: map u8 src.
Proof.
  replace (Z.of_nat (length src) + 2)
    with (Z.of_nat (length (u8 id :: u8 v :: map u8 src)))
    by (simpl length; rewrite length_map; lia).
  apply sub_eq. intros i Hi. rewrite Z.add_0_l.
  rewrite !rd_wr by lia.
  destruct i as [|[|i]]; [reflexivity | reflexivity |].
  destruct (Z.eqb_spec (Z.of_nat (S (S i))) 0); [lia|].
  destruct (Z.eqb_spec (Z.of_nat (S (S i))) 1); [lia|].
  rewrite rd_memcpy by lia.
  simpl length in Hi. rewrite length_map in Hi.
  destruct (Z.leb_spec 2 (Z.of_nat (S (S i)))); [|lia].
  destruct (Z.ltb_spec (Z.of_nat (S (S i))) (2 + Z.of_nat (length src))); [|lia].
  replace (Z.to_nat (Z.of_nat (S (S i)) - 2)) with i by lia.
  simpl andb. cbv iota.
  change (nth (S (S i)) (u8 id :: u8 v :: map u8 src) 0)
    with (nth i (map u8 src) 0).
  now rewrite nth_map_u8.
Qed.

Lemma handlers_multi_display :
  dect_ie_handlers DECT_IE_MULTI_DISPLAY =
  handler true (Some dect_sfmt_parse_multi_display)
               (Some dect_sfmt_build_multi_display).
Proof. reflexivity. Qed.

Lemma handlers_multi_keypad :
  dect_ie_handlers DECT_IE_MULTI_KEYPAD =
  handler true (Some dect_sfmt_parse_multi_keypad)
               (Some dect_sfmt_build_multi_keypad).
Proof. reflexivity. Qed.

(** What building contents of [len] octets, more than none, under a
    variable-length identifier appends. *)
Lemma build_multi_octets (mb : dect_msg_buf) (id len : Z) (info : list Z) :
  0 < len -> is_fixed_len id = false ->
  match dect_build_sfmt_ie_header
          {| ie_id := 0; ie_len := len + 2;
             ie_data := memcpy (mb_tail mb) 2 (sub info 0 len) |} id with
  | Some dst =>
    mb_data (mbuf_commit mb dst) =
    mb_data mb ++ u8 id :: u8 len :: map u8 (sub info 0 len)
  | None => False
  end.
Proof.
  intros Hlen Hid. unfold dect_build_sfmt_ie_header. rewrite Hid. simpl ie_len.
  destruct (Z.eqb_spec (len + 2) 2); [lia|].
  destruct (Z.gtb_spec (len + 2) 2); [|lia].
  unfold mbuf_commit. simpl. f_equal.
  replace (len + 2 - 2) with len by lia.
  rewrite <- (sub_vl_ie (mb_tail mb) (sub info 0 len) id len).
  rewrite length_sub. f_equal. lia.
Qed.

(** C9.  Built for a slot of type SINGLE-DISPLAY, a display whose
    contents are longer than one octet is emitted as MULTI-DISPLAY:
    the IE appended to the buffer is the MULTI-DISPLAY identifier, the
    length and the contents; and in the same way a keypad longer than
    one octet built for a SINGLE-KEYPAD slot is emitted as
    MULTI-KEYPAD. *)
Theorem single_slot_emits_multi (dh : dect_handle) (mb : dect_msg_buf) :
  (forall display, 1 < display_len display ->
   exists mb',
     dect_build_sfmt_ie dh DECT_IE_SINGLE_DISPLAY mb (IE_display display) =
       Some (DECT_SFMT_OK, mb') /\
     mb_data mb' =
       mb_data mb ++ DECT_IE_MULTI_DISPLAY :: u8 (display_len display) ::
                     map u8 (sub (display_info display) 0 (display_len display))) /\
  (forall keypad, 1 < keypad_len keypad ->
   exists mb',
     dect_build_sfmt_ie dh DECT_IE_SINGLE_KEYPAD mb (IE_keypad keypad) =
       Some (DECT_SFMT_OK, mb') /\
     mb_data mb' =
       mb_data mb ++ DECT_IE_MULTI_KEYPAD :: u8 (keypad_len keypad) ::
                     map u8 (sub (keypad_info keypad) 0 (keypad_len keypad))).
Proof.
  split.
  - intros display Hlen. unfold dect_build_sfmt_ie.
    assert (Ht : build_type DECT_IE_SINGLE_DISPLAY (IE_display display) =
                 DECT_IE_MULTI_DISPLAY).
    { unfold build_type. simpl.
      destruct (Z.gtb_spec (display_len display) 1); [reflexivity | lia]. }
    rewrite Ht, handlers_multi_display. simpl ieh_build. cbv beta iota.
    unfold dect_sfmt_build_multi_display, build_dst. simpl ie_data. simpl ie_id.
    pose proof (build_multi_octets mb DECT_IE_MULTI_DISPLAY (display_len display)
                  (display_info display) ltac:(lia) eq_refl) as H.
    destruct (dect_build_sfmt_ie_header _ DECT_IE_MULTI_DISPLAY) as [dst|];
      [|contradiction].
    eexists. split; [reflexivity | exact H].
  - intros keypad Hlen. unfold dect_build_sfmt_ie.
    assert (Ht : build_type DECT_IE_SINGLE_KEYPAD (IE_keypad keypad) =
                 DECT_IE_MULTI_KEYPAD).
    { unfold build_type. simpl.
      destruct (Z.gtb_spec (keypad_len keypad) 1); [reflexivity | lia]. }
    rewrite Ht, handlers_multi_keypad. simpl ieh_build. cbv beta iota.
    unfold dect_sfmt_build_multi_keypad, build_dst. simpl ie_data. simpl ie_id.
    pose proof (build_multi_octets mb DECT_IE_MULTI_KEYPAD (keypad_len keypad)
                  (keypad_info keypad) ltac:(lia) eq_refl) as H.
    destruct (dect_build_sfmt_ie_header _ DECT_IE_MULTI_KEYPAD) as [dst|];
      [|contradiction].
    eexists. split; [reflexivity | exact H].
Qed.

(** C10.  When the build handler of a variable-length IE leaves an
    IE without contents ([dst.len] is 2, the two octets of the
    header), [dect_build_sfmt_ie] succeeds and appends nothing: the
    octets and the length of the message are what they were, and the
    message build goes on with the next entry. *)
Theorem empty_payload_appends_nothing (dh : dect_handle) (t : Z)
  (mb : dect_msg_buf) (ie : dect_ie_common)
  (build : dect_sfmt_ie -> dect_ie_common -> option dect_sfmt_ie)
  (dst : dect_sfmt_ie) :
  is_fixed_len (build_type t ie) = false ->
  ieh_build (dect_ie_handlers (build_type t ie)) = Some build ->
  build (build_dst mb) ie = Some dst ->
  ie_len dst = 2 ->
  exists mb',
    dect_build_sfmt_ie dh t mb ie = Some (DECT_SFMT_OK, mb') /\
    mb_data mb' = mb_data mb /\
    mb_len mb' = mb_len mb /\
    forall d rest next,
      t = type d -> t <> DECT_IE_REPEAT_INDICATOR ->
      is_repeat d = false ->
      dect_tx_status dh d <> DECT_SFMT_IE_NONE ->
      dect_build_sfmt_msg dh (d :: rest) (Member (Some ie) :: next) mb =
      dect_build_sfmt_msg dh rest next mb'.
Proof.
  intros Hvl Hb Hdst Hlen.
  assert (Hie : dect_build_sfmt_ie dh t mb ie =
                Some (DECT_SFMT_OK,
                      mbuf_commit mb {| ie_id := ie_id dst; ie_len := 0;
                                        ie_data := ie_data dst |})).
  { unfold dect_build_sfmt_ie. rewrite Hb, Hdst.
    unfold dect_build_sfmt_ie_header. rewrite Hvl, Hlen. reflexivity. }
  eexists. split; [exact Hie|].
  assert (Hd : mb_data (mbuf_commit mb {| ie_id := ie_id dst; ie_len := 0;
                                          ie_data := ie_data dst |}) = mb_data mb)
    by (unfold mbuf_commit; simpl; apply app_nil_r).
  split; [exact Hd|]. split; [unfold mb_len; now rewrite Hd|].
  intros d rest next -> Hri Hrep Htx. simpl.
  destruct (Z.eqb_spec (type d) DECT_IE_REPEAT_INDICATOR); [contradiction|].
  rewrite Hrep. unfold __dect_build_sfmt_ie.
  destruct (dect_tx_status dh d); [contradiction | |]; rewrite Hie; reflexivity.
Qed.

(** ** Repeating lists *)

(** The builder only appends. *)
Lemma dect_build_sfmt_ie_appends (dh : dect_handle) (t : Z)
  (mb mb' : dect_msg_buf) (ie : dect_ie_common) (err : Z) :
  dect_build_sfmt_ie dh t mb ie = Some (err, mb') ->
  exists tl, mb_data mb' = mb_data mb ++ tl.
Proof.
  unfold dect_build_sfmt_ie.
  destruct (ieh_build _) as [build|].
  - destruct (build _ ie) as [dst|].
    + destruct (dect_build_sfmt_ie_header _ _) as [dst'|]; [|discriminate].
      intros [= _ <-]. eexists; reflexivity.
    + intros [= _ <-]. exists []; now rewrite app_nil_r.
  - intros [= _ <-]. exists []; now rewrite app_nil_r.
Qed.

Lemma __dect_build_sfmt_ie_appends (dh : dect_handle) (d : dect_sfmt_ie_desc)
  (mb mb' : dect_msg_buf) (ie : dect_ie_common) (err : Z) :
  __dect_build_sfmt_ie dh d mb ie = Some (err, mb') ->
  exists tl, mb_data mb' = mb_data mb ++ tl.
Proof.
  unfold __dect_build_sfmt_ie. destruct (dect_tx_status dh d).
  - intros [= _ <-]. exists []; now rewrite app_nil_r.
  - apply dect_build_sfmt_ie_appends.
  - apply dect_build_sfmt_ie_appends.
Qed.

Lemma and_then_appends (r : option (Z * dect_msg_buf))
  (k : dect_msg_buf -> option (Z * dect_msg_buf)) (mb mb' : dect_msg_buf)
  (err : Z) :
  (forall e m, r = Some (e, m) -> exists tl, mb_data m = mb_data mb ++ tl) ->
  (forall m e m', k m = Some (e, m') -> exists tl, mb_data m' = mb_data m ++ tl) ->
  and_then r k = Some (err, mb') ->
  exists tl, mb_data mb' = mb_data mb ++ tl.
Proof.
  intros Hr Hk. unfold and_then. destruct r as [[e m]|]; [|discriminate].
  destruct (Hr e m eq_refl) as (tl & Htl).
  destruct (negb (e =? DECT_SFMT_OK)).
  - intros [= _ <-]. now exists tl.
  - intros H. destruct (Hk _ _ _ H) as (tl' & Htl').
    exists (tl ++ tl'). now rewrite Htl', Htl, app_assoc.
Qed.

Lemma build_elements_appends (dh : dect_handle) (d : dect_sfmt_ie_desc)
  (l : list dect_ie_common) :
  forall mb err mb',
  build_elements dh d mb l = Some (err, mb') ->
  exists tl, mb_data mb' = mb_data mb ++ tl.
Proof.
  induction l as [|e l IH]; intros mb err mb'; simpl.
  - intros [= _ <-]. exists []; now rewrite app_nil_r.
  - apply and_then_appends.
    + intros e' m. apply __dect_build_sfmt_ie_appends.
    + intros m e' m'. apply IH.
Qed.

Lemma dect_build_sfmt_msg_appends_n (dh : dect_handle) (n : nat) :
  forall desc src mb err mb',
  (length desc <= n)%nat ->
  dect_build_sfmt_msg dh desc src mb = Some (err, mb') ->
  exists tl, mb_data mb' = mb_data mb ++ tl.
Proof.
  induction n as [|n IH]; intros desc src mb err mb' Hn.
  - destruct desc; [|simpl in Hn; lia].
    simpl. intros [= _ <-]. exists []; now rewrite app_nil_r.
  - destruct desc as [|d rest].
    { simpl. intros [= _ <-]. exists []; now rewrite app_nil_r. }
    simpl in Hn. simpl dect_build_sfmt_msg.
    destruct (type d =? DECT_IE_REPEAT_INDICATOR).
    + destruct src as [|[o|iel] next]; try discriminate.
      destruct (il_list iel) as [|e1 tl].
      * destruct rest as [|r rest]; [discriminate|].
        apply IH. simpl in Hn; lia.
      * apply and_then_appends.
        -- intros e m. destruct tl.
           ++ intros [= _ <-]. exists []; now rewrite app_nil_r.
           ++ apply __dect_build_sfmt_ie_appends.
        -- intros m e m'. destruct rest as [|r rest]; [discriminate|].
           destruct (is_repeat r); [|discriminate].
           apply and_then_appends.
           ++ intros e' m''. apply build_elements_appends.
           ++ intros m'' e' m3. apply IH. simpl in Hn; lia.
    + destruct src as [|[o|iel] next]; try discriminate.
      destruct o as [ie|].
      * apply and_then_appends.
        -- intros e m. apply __dect_build_sfmt_ie_appends.
        -- intros m e m'. apply IH. lia.
      * destruct (is_mandatory (dect_tx_status dh d)).
        -- intros [= _ <-]. exists []; now rewrite app_nil_r.
        -- apply IH. lia.
Qed.

Lemma dect_build_sfmt_msg_appends (dh : dect_handle)
  (desc : dect_sfmt_msg_desc) (src : dect_msg_common)
  (mb : dect_msg_buf) (err : Z) (mb' : dect_msg_buf) :
  dect_build_sfmt_msg dh desc src mb = Some (err, mb') ->
  exists tl, mb_data mb' = mb_data mb ++ tl.
Proof. apply (dect_build_sfmt_msg_appends_n dh (length desc)), Nat.le_refl. Qed.

Lemma build_repeat_indicator (dh : dect_handle) (d : dect_sfmt_ie_desc)
  (mb : dect_msg_buf) (ty : Z) :
  type d = DECT_IE_REPEAT_INDICATOR ->
  dect_tx_status dh d <> DECT_SFMT_IE_NONE ->
  exists mb1,
    __dect_build_sfmt_ie dh d mb (IE_list ty) = Some (DECT_SFMT_OK, mb1) /\
    mb_data mb1 = mb_data mb ++ [repeat_indicator_octet ty].
Proof.
  intros Ht Htx.
  assert (H : dect_build_sfmt_ie dh DECT_IE_REPEAT_INDICATOR mb (IE_list ty) =
              Some (DECT_SFMT_OK,
                    mbuf_commit mb
                      {| ie_id := 0; ie_len := 1;
                         ie_data := wr_or (wr (mb_tail mb) 0 ty) 0
                                          DECT_IE_REPEAT_INDICATOR |}))
    by reflexivity.
  eexists. split.
  - unfold __dect_build_sfmt_ie. rewrite Ht.
    destruct (dect_tx_status dh d); [contradiction | exact H | exact H].
  - unfold mbuf_commit. simpl mb_data. f_equal.
    unfold sub. simpl map.
    rewrite rd_wr_or, rd_wr by lia. reflexivity.
Qed.

Lemma advances_not_mandatory (dh : dect_handle) (id : Z)
  (post : dect_sfmt_msg_desc) (mb : dect_msg_buf) :
  forallb (advances dh id) post = true ->
  p_err (parse_out dh post mb) = DECT_SFMT_OK.
Proof.
  induction post as [|e post IH]; simpl; [reflexivity|].
  intros H. apply andb_true_iff in H as [He Hpost].
  unfold advances, dect_rx_policy in He.
  destruct (dect_rx_status dh e); simpl.
  - now apply IH.
  - now apply IH.
  - destruct (type e =? id); discriminate.
Qed.

Lemma parse_walk_to_end (dh : dect_handle) (post : dect_sfmt_msg_desc)
  (ie : dect_sfmt_ie) (mb : dect_msg_buf) :
  forallb (advances dh (ie_id ie)) post = true ->
  p_err (parse_walk dh post ie mb) = DECT_SFMT_OK.
Proof.
  intros H. rewrite <- (app_nil_r post).
  rewrite parse_walk_passes by exact H. reflexivity.
Qed.

(** The step of the walk at an entry of status OPTIONAL that matches:
    whatever becomes of the IE, the return value is that of the rest. *)
Lemma parse_walk_optional (dh : dect_handle) (d : dect_sfmt_ie_desc)
  (rest : dect_sfmt_msg_desc) (ie : dect_sfmt_ie) (mb : dect_msg_buf) :
  dect_rx_status dh d = DECT_SFMT_IE_OPTIONAL -> type d = ie_id ie ->
  p_err (parse_walk dh (d :: rest) ie mb) =
  p_err (dect_parse_sfmt_msg dh rest (dect_mbuf_pull mb (ie_len ie))).
Proof.
  intros Hs Ht.
  assert (Hf : dect_rx_policy dh d (ie_id ie) = Found)
    by (unfold dect_rx_policy; now rewrite Hs, Ht, Z.eqb_refl).
  rewrite parse_walk_found by exact Hf. cbv zeta. rewrite Hs. simpl is_mandatory.
  now rewrite andb_false_r.
Qed.

Lemma lists_empty_app (a b : dect_msg_common) :
  lists_empty (a ++ b) = lists_empty a && lists_empty b.
Proof. apply forallb_app. Qed.

Lemma lists_empty_init (d : dect_sfmt_ie_desc) :
  lists_empty (dect_msg_ie_init d) = true.
Proof.
  unfold dect_msg_ie_init.
  now destruct (type d =? DECT_IE_REPEAT_INDICATOR), (is_repeat d).
Qed.

Lemma lists_empty_stored (d : dect_sfmt_ie_desc)
  (s : option (option dect_ie_common)) :
  lists_empty (stored_member d s) = true.
Proof.
  unfold stored_member, dect_msg_ie_init.
  destruct (type d =? DECT_IE_REPEAT_INDICATOR).
  - destruct s as [[[]|]|]; reflexivity.
  - destruct (is_repeat d); [reflexivity|]. now destruct s.
Qed.

Lemma lists_empty_head (desc : dect_sfmt_msg_desc) :
  lists_empty (init_head desc) = true.
Proof. destruct desc; [reflexivity | apply lists_empty_init]. Qed.

Lemma lists_empty_out (dh : dect_handle) (desc : dect_sfmt_msg_desc)
  (mb : dect_msg_buf) :
  lists_empty (p_msg (parse_out dh desc mb)) = true.
Proof.
  induction desc as [|d desc IH]; simpl; [reflexivity|].
  destruct (is_mandatory _); simpl; [apply lists_empty_init|].
  now rewrite lists_empty_app, lists_empty_init, IH.
Qed.

Lemma lists_empty_walk (dh : dect_handle) (desc : dect_sfmt_msg_desc) :
  forall ie mb, lists_empty (p_msg (parse_walk dh desc ie mb)) = true.
Proof.
  induction desc as [|d desc IH]; intros ie mb; simpl; [reflexivity|].
  destruct (dect_rx_policy dh d (ie_id ie)); simpl.
  - destruct (_ && _); simpl; [apply lists_empty_stored|].
    rewrite lists_empty_app, lists_empty_stored. simpl.
    destruct (_ >? 0); [|apply lists_empty_out].
    destruct (dect_parse_sfmt_ie_header _); [apply IH | apply lists_empty_head].
  - now rewrite lists_empty_app, lists_empty_init, IH.
  - apply lists_empty_init.
Qed.

(** [dect_parse_sfmt_msg] never puts an element on an IE list. *)
Lemma dect_parse_sfmt_msg_lists_empty (dh : dect_handle)
  (mdesc : dect_sfmt_msg_desc) (mb : dect_msg_buf) :
  lists_empty (p_msg (dect_parse_sfmt_msg dh mdesc mb)) = true.
Proof.
  unfold dect_parse_sfmt_msg.
  destruct (_ >? 0); [|apply lists_empty_out].
  destruct (dect_parse_sfmt_ie_header mb);
    [apply lists_empty_walk | apply lists_empty_head].
Qed.

(** The elements of a list are built in the order of the list, each
    appending its octets. *)
Lemma build_elements_in_order (dh : dect_handle) (r : dect_sfmt_ie_desc)
  (l : list dect_ie_common) :
  forall mb mb',
  build_elements dh r mb l = Some (DECT_SFMT_OK, mb') ->
  exists chunks,
    built_in_order dh r mb l chunks mb' /\
    mb_data mb' = mb_data mb ++ concat chunks.
Proof.
  induction l as [|e l IH]; intros mb mb'; simpl build_elements.
  - intros [= <-]. exists []. split; [reflexivity|].
    simpl. now rewrite app_nil_r.
  - unfold and_then.
    destruct (__dect_build_sfmt_ie dh r mb e) as [[err m]|] eqn:Hb;
      [|discriminate].
    destruct (Z.eqb_spec err DECT_SFMT_OK) as [->|Hne]; simpl negb; cbv iota.
    + intros H. destruct (IH m mb' H) as (chunks & Hc & Hd).
      destruct (__dect_build_sfmt_ie_appends dh r mb m e _ Hb) as (c & Hcm).
      exists (c :: chunks). split.
      * exists m. now repeat split.
      * simpl. now rewrite Hd, Hcm, <- app_assoc.
    + intros [= -> _]. contradiction.
Qed.

(** What [dect_parse_sfmt_ie] leaves at a <<REPEAT-INDICATOR>> entry
    for a <<REPEAT-INDICATOR>>: a list without elements, of the type
    the IE carries. *)
Lemma stored_repeat_indicator (dh : dect_handle) (d : dect_sfmt_ie_desc)
  (ri : dect_sfmt_ie) :
  type d = DECT_IE_REPEAT_INDICATOR ->
  ie_id ri = DECT_IE_REPEAT_INDICATOR ->
  stored_member d (snd (dect_parse_sfmt_ie dh (type d) ri)) =
  [MemberList
     {| il_type := Z.land (rd (ie_data ri) 0) DECT_SFMT_IE_FIXED_VAL_MASK;
        il_list := [] |}].
Proof.
  intros Ht Hid.
  unfold stored_member, dect_parse_sfmt_ie, left_in_place.
  rewrite Ht, Hid. cbn.
  unfold dect_sfmt_parse_repeat_indicator.
  now destruct (_ || _).
Qed.

(** A repeated IE that its entry takes has no member of its own and
    is put on no list. *)
Lemma stored_repeated (r : dect_sfmt_ie_desc)
  (s : option (option dect_ie_common)) :
  type r <> DECT_IE_REPEAT_INDICATOR -> is_repeat r = true ->
  stored_member r s = [].
Proof.
  intros Ht Hrep. unfold stored_member.
  apply Z.eqb_neq in Ht. now rewrite Ht, Hrep.
Qed.

(** C7, as the code has it.  For an entry [d] of type
    REPEAT-INDICATOR followed by the entry [r] of the repeating IE,
    and the list [iel] of the message.

    The builder frames a list as specified: when it returns OK, the
    wire holds, behind what the buffer held, the <<REPEAT-INDICATOR>>
    octet (its identifier and the list type) if and only if the list
    has two elements or more, then the octets of every element in the
    order of the list, then the rest of the message; and the
    <<REPEAT-INDICATOR>> is built whenever the entry is allowed to
    the sending role.

    The parser returns OK for both framings and keeps neither:
    - no list of a message it has filled has an element;
    - an element without indicator is taken by [r] and pulled off the
      buffer, and the structure holds nothing of it;
    - of an indicator followed by two elements, the indicator gives
      the list its type, the first element is pulled and dropped, and
      the second, which no later entry takes, ends the parse and
      stays in the buffer, unread. *)
Theorem repeat_indicator_framing (dh : dect_handle) (d r : dect_sfmt_ie_desc) :
  type d = DECT_IE_REPEAT_INDICATOR ->
  type r <> DECT_IE_REPEAT_INDICATOR ->
  is_repeat r = true ->
  (forall rest iel next mb mb',
     dect_build_sfmt_msg dh (d :: r :: rest) (MemberList iel :: next) mb =
       Some (DECT_SFMT_OK, mb') ->
     let ri := if 2 <=? Z.of_nat (length (il_list iel))
               then [repeat_indicator_octet (il_type iel)] else [] in
     exists mb1 chunks mb2 tl,
       mb_data mb1 = mb_data mb ++ ri /\
       built_in_order dh r mb1 (il_list iel) chunks mb2 /\
       dect_build_sfmt_msg dh rest next mb2 = Some (DECT_SFMT_OK, mb') /\
       mb_data mb' = mb_data mb ++ ri ++ concat chunks ++ tl) /\
  (forall mb ty,
     dect_tx_status dh d <> DECT_SFMT_IE_NONE ->
     exists mb1,
       __dect_build_sfmt_ie dh d mb (IE_list ty) = Some (DECT_SFMT_OK, mb1) /\
       mb_data mb1 = mb_data mb ++ [repeat_indicator_octet ty]) /\
  (forall mdesc mb,
     lists_empty (p_msg (dect_parse_sfmt_msg dh mdesc mb)) = true) /\
  (forall pre post mb ie,
     dect_rx_status dh r = DECT_SFMT_IE_OPTIONAL ->
     forallb (advances dh (type r)) (pre ++ [d]) = true ->
     0 < mb_len mb -> dect_parse_sfmt_ie_header mb = Some ie ->
     ie_id ie = type r ->
     dect_parse_sfmt_msg dh (pre ++ d :: r :: post) mb =
     with_members (passed (pre ++ [d]))
       (dect_parse_sfmt_msg dh post (dect_mbuf_pull mb (ie_len ie)))) /\
  (forall pre post mb ri ie1 ie2,
     dect_rx_status dh d = DECT_SFMT_IE_OPTIONAL ->
     dect_rx_status dh r = DECT_SFMT_IE_OPTIONAL ->
     forallb (advances dh DECT_IE_REPEAT_INDICATOR) pre = true ->
     forallb (advances dh (type r)) post = true ->
     0 < mb_len mb -> dect_parse_sfmt_ie_header mb = Some ri ->
     ie_id ri = DECT_IE_REPEAT_INDICATOR ->
     let mb1 := dect_mbuf_pull mb (ie_len ri) in
     0 < mb_len mb1 -> dect_parse_sfmt_ie_header mb1 = Some ie1 ->
     ie_id ie1 = type r ->
     let mb2 := dect_mbuf_pull mb1 (ie_len ie1) in
     0 < mb_len mb2 -> dect_parse_sfmt_ie_header mb2 = Some ie2 ->
     ie_id ie2 = type r ->
     dect_parse_sfmt_msg dh (pre ++ d :: r :: post) mb =
     {| p_err := DECT_SFMT_OK;
        p_msg :=
          passed pre ++
          MemberList
            {| il_type :=
                 Z.land (rd (ie_data ri) 0) DECT_SFMT_IE_FIXED_VAL_MASK;
               il_list := [] |} :: passed post;
        p_mb := mb2 |}).
Proof.
  intros Ht Htr Hrep.
  split; [|split; [|split; [|split]]].
  - intros rest iel next mb mb' Hb ri.
    simpl dect_build_sfmt_msg in Hb. rewrite Ht, Z.eqb_refl, Hrep in Hb.
    destruct (il_list iel) as [|e1 l] eqn:Hl.
    + destruct (dect_build_sfmt_msg_appends dh rest next mb _ mb' Hb)
        as (tl & Htl).
      exists mb, [], mb, tl. subst ri. simpl.
      rewrite app_nil_r. repeat split; assumption.
    + unfold and_then at 1 in Hb.
      assert (H1 : exists mb1,
                (match l with
                 | [] => Some (DECT_SFMT_OK, mb)
                 | _ :: _ => __dect_build_sfmt_ie dh d mb (IE_list (il_type iel))
                 end) = Some (DECT_SFMT_OK, mb1) /\
                mb_data mb1 = mb_data mb ++ ri /\
                and_then (build_elements dh r mb1 (e1 :: l))
                  (fun mb => dect_build_sfmt_msg dh rest next mb) =
                Some (DECT_SFMT_OK, mb')).
      { destruct l as [|e2 l].
        - change (negb (DECT_SFMT_OK =? DECT_SFMT_OK)) with false in Hb.
          cbv iota in Hb. exists mb. subst ri. simpl.
          now rewrite app_nil_r.
        - assert (Hri : ri = [repeat_indicator_octet (il_type iel)]).
          { subst ri. destruct (Z.leb_spec 2 (Z.of_nat (length (e1 :: e2 :: l))));
              [reflexivity | simpl length in *; lia]. }
          rewrite Hri.
          destruct (dect_tx_status dh d) eqn:Htx.
          + unfold __dect_build_sfmt_ie in Hb. rewrite Htx in Hb.
            simpl in Hb. discriminate.
          + destruct (build_repeat_indicator dh d mb (il_type iel) Ht
                        ltac:(rewrite Htx; discriminate)) as (mb1 & Hb1 & Hd1).
            rewrite Hb1 in Hb |- *.
            change (negb (DECT_SFMT_OK =? DECT_SFMT_OK)) with false in Hb.
            cbv iota in Hb. now exists mb1.
          + destruct (build_repeat_indicator dh d mb (il_type iel) Ht
                        ltac:(rewrite Htx; discriminate)) as (mb1 & Hb1 & Hd1).
            rewrite Hb1 in Hb |- *.
            change (negb (DECT_SFMT_OK =? DECT_SFMT_OK)) with false in Hb.
            cbv iota in Hb. now exists mb1. }
      destruct H1 as (mb1 & _ & Hd1 & Hrest).
      unfold and_then in Hrest.
      destruct (build_elements dh r mb1 (e1 :: l)) as [[err mb2]|] eqn:Hel;
        [|discriminate].
      destruct (Z.eqb_spec err DECT_SFMT_OK) as [->|Hne]; simpl negb in Hrest;
        cbv iota in Hrest; [|injection Hrest as -> _; contradiction].
      destruct (build_elements_in_order dh r _ mb1 mb2 Hel) as (chunks & Hc & Hd2).
      destruct (dect_build_sfmt_msg_appends dh rest next mb2 _ mb' Hrest)
        as (tl & Htl).
      exists mb1, chunks, mb2, tl.
      split; [exact Hd1|]. split; [exact Hc|]. split; [exact Hrest|].
      now rewrite Htl, Hd2, Hd1, <- !app_assoc.
  - intros mb ty Htx. now apply build_repeat_indicator.
  - intros mdesc mb. apply dect_parse_sfmt_msg_lists_empty.
  - intros pre post mb ie Hsr Hall Hlen Hh Hid.
    replace (pre ++ d :: r :: post) with ((pre ++ [d]) ++ r :: post)
      by now rewrite <- app_assoc.
    rewrite (dect_parse_sfmt_msg_walk dh _ mb ie Hlen Hh).
    rewrite parse_walk_passes by (now rewrite Hid).
    assert (Hf : dect_rx_policy dh r (ie_id ie) = Found)
      by (unfold dect_rx_policy; now rewrite Hsr, Hid, Z.eqb_refl).
    rewrite parse_walk_found by exact Hf. cbv zeta.
    rewrite Hsr. simpl is_mandatory. rewrite andb_false_r.
    rewrite (stored_repeated r _ Htr Hrep). now rewrite with_members_nil.
  - intros pre post mb ri ie1 ie2 Hsd Hsr Hpre Hpost Hlen Hh Hid
           mb1 Hlen1 Hh1 Hid1 mb2 Hlen2 Hh2 Hid2.
    rewrite (dect_parse_sfmt_msg_walk dh _ mb ri Hlen Hh).
    rewrite parse_walk_passes by (now rewrite Hid).
    assert (Hfd : dect_rx_policy dh d (ie_id ri) = Found)
      by (unfold dect_rx_policy; now rewrite Hsd, Hid, Ht, Z.eqb_refl).
    rewrite parse_walk_found by exact Hfd. cbv zeta.
    rewrite Hsd. simpl is_mandatory. rewrite andb_false_r.
    assert (Hne : is_empty_ie ri = false)
      by (unfold is_empty_ie; now rewrite Hid).
    rewrite Hne. rewrite (stored_repeat_indicator dh d ri Ht Hid).
    fold mb1.
    rewrite (dect_parse_sfmt_msg_walk dh _ mb1 ie1 Hlen1 Hh1).
    assert (Hfr : dect_rx_policy dh r (ie_id ie1) = Found)
      by (unfold dect_rx_policy; now rewrite Hsr, Hid1, Z.eqb_refl).
    rewrite parse_walk_found by exact Hfr. cbv zeta.
    rewrite Hsr. simpl is_mandatory. rewrite andb_false_r.
    rewrite (stored_repeated r _ Htr Hrep), with_members_nil.
    fold mb2.
    rewrite (dect_parse_sfmt_msg_walk dh _ mb2 ie2 Hlen2 Hh2).
    rewrite <- (app_nil_r post) at 1.
    rewrite parse_walk_passes by (now rewrite Hid2).
    unfold with_members. simpl. now rewrite app_nil_r.
Qed.

(** ** The setup timer of Call Control *)


(** What [dect_lce_send] hands to the lower link. *)
Lemma dect_lce_send_out (dh : dect_handle) (desc : dect_sfmt_msg_desc)
  (msg : dect_msg_common) (t err : Z) (out : list event) :
  dect_lce_send dh desc msg t = Some (err, out) ->
  (err = -1 /\ out = []) \/ (err = 0 /\ exists octets, out = [Sent t octets]).
Proof.
  unfold dect_lce_send.
  destruct (dect_build_sfmt_msg dh desc msg _) as [[e mb]|]; [|discriminate].
  destruct (e <? 0); intros [= <- <-]; [left | right]; eauto.
Qed.


Lemma timer_off_drop (call : dect_call) :
  timer_off (drop_setup_timer call) = true.
Proof.
  unfold drop_setup_timer, timer_off.
  destruct (setup_timer call) eqn:E; simpl; [reflexivity | now rewrite E].
Qed.

Lemma setup_timer_drop (call : dect_call) :
  setup_timer (drop_setup_timer call) = None.
Proof.
  unfold drop_setup_timer.
  destruct (setup_timer call) eqn:E; [reflexivity | exact E].
Qed.



Lemma setup_timer_armed_off (call : dect_call) (out : list event) :
  timer_off call = true ->
  setup_timer_armed {| w_call := Some call; w_out := out |} = false.
Proof.
  unfold setup_timer_armed, timer_off. simpl.
  destruct (setup_timer call) as [t|]; [|reflexivity].
  now destruct (t_armed t).
Qed.





Lemma cc_step_rcv_connect (dh : dect_handle) (call : dect_call)
  (mb : dect_msg_buf) (out : list event) :
  mb_type mb = CC_CONNECT ->
  cc_step dh {| w_call := Some call; w_out := out |} (Rcv mb) =
  dect_cc_rcv_connect dh call mb out.
Proof. intros H. unfold cc_step, dect_cc_rcv. simpl. now rewrite H. Qed.


(** ** CC-CONNECT in CALL PRESENT *)

(** C5 (amended).  Receiving a CC-CONNECT that passes the codec in
    CALL PRESENT stops and frees the setup timer and, when the
    parameter collection can be allocated, delivers MNCC_CONNECT-ind
    with the IEs of the message; the receipt does not touch the
    transaction nor the U-plane socket.  It is the answer of the
    application, MNCC_CONNECT-res, that opens the U-plane and moves
    the call to ACTIVE, on a handle of either role: when the kernel
    grants the socket and CC-CONNECT-ACK is built, the message is
    sent, the socket is held by the call and the call is ACTIVE. *)
Theorem connect_in_call_present (dh : dect_handle) (call : dect_call)
  (mb : dect_msg_buf) (out : list event) :
  state call = DECT_CC_CALL_PRESENT ->
  mb_type mb = CC_CONNECT ->
  0 <= p_err (dect_parse_sfmt_msg dh cc_connect_msg_desc mb) ->
  let w := cc_step dh {| w_call := Some call; w_out := out |} (Rcv mb) in
  exists call',
    w_call w = Some call' /\
    setup_timer call' = None /\
    setup_timer_armed w = false /\
    (dh_nomem dh = false ->
     w_out w =
       out ++ [MNCC_CONNECT_ind
                 (members [4; 5; 6; 7; 8; 11; 12; 13; 15; 16]%nat
                    (p_msg (dect_parse_sfmt_msg dh cc_connect_msg_desc mb)))]) /\
    transaction call' = transaction call /\
    lu_sap call' = lu_sap call /\
    (forall msg err mb',
       dect_build_sfmt_msg dh cc_connect_ack_msg_desc msg
         {| mb_data := []; mb_tail := []; mb_type := CC_CONNECT_ACK |} =
       Some (err, mb') ->
       0 <= err ->
       exists call'',
         dect_mncc_connect_res dh call' true msg =
         Some (0, call'', [Sent CC_CONNECT_ACK (mb_data mb')]) /\
         state call'' = DECT_CC_ACTIVE /\
         lu_sap call'' = Some tt /\
         setup_timer call'' = None /\
         transaction call'' = transaction call).
Proof.
  intros Hst Ht Hok w. unfold w.
  rewrite (cc_step_rcv_connect dh call mb out Ht).
  unfold dect_cc_rcv_connect.
  destruct (Z.ltb_spec (p_err (dect_parse_sfmt_msg dh cc_connect_msg_desc mb)) 0);
    [lia|].
  exists (drop_setup_timer call). simpl w_call. simpl w_out.
  assert (Hsame : transaction (drop_setup_timer call) = transaction call /\
                  lu_sap (drop_setup_timer call) = lu_sap call).
  { unfold drop_setup_timer. now destruct (setup_timer call). }
  destruct Hsame as (Htr & Hlu).
  split; [reflexivity|]. split; [apply setup_timer_drop|].
  split; [apply setup_timer_armed_off; unfold timer_off;
          now rewrite setup_timer_drop|].
  split; [intros Hmem; unfold dect_mncc_connect_ind; now rewrite Hmem|].
  split; [exact Htr|]. split; [exact Hlu|].
  intros msg err mb' Hb Herr. unfold dect_mncc_connect_res, dect_lce_send.
  rewrite Hb. destruct (Z.ltb_spec err 0) as [|_]; [lia|]. simpl.
  eexists. split; [reflexivity|]. simpl.
  split; [reflexivity|]. split; [reflexivity|].
  split; [apply setup_timer_drop | exact Htr].
Qed.

(** ** The response to a location request *)

(** C6, as the code has it.  [dect_mm_locate_res] sends
    LOCATE-REJECT when the parameters hold a reject reason and
    LOCATE-ACCEPT when they do not; in both cases it returns with the
    transaction as it was, and nothing closes it.  The response of the
    sibling exchange, [dect_mm_access_rights_res], does close its
    transaction. *)
Theorem locate_res_keeps_transaction (dh : dect_handle)
  (mmta : dect_mm_transaction) (param : dect_mm_locate_param) :
  (forall err mmta' out,
     dect_mm_locate_res dh mmta param = Some (err, mmta', out) ->
     mmta' = mmta /\
     filter is_closed out = [] /\
     (0 <= err ->
      exists octets,
        out = [Sent (match reject_reason param with
                     | Some _ => DECT_MM_LOCATE_REJECT
                     | None => DECT_MM_LOCATE_ACCEPT
                     end) octets])) /\
  (forall msg err mmta' out,
     dect_mm_access_rights_res dh mmta msg = Some (err, mmta', out) ->
     mmta' = None /\ In (Closed DECT_DDL_RELEASE_PARTIAL) out).
Proof.
  split.
  - intros err mmta' out. unfold dect_mm_locate_res.
    destruct (reject_reason param) as [r|];
      [unfold dect_mm_send_locate_reject | unfold dect_mm_send_locate_accept];
      unfold dect_mm_send_msg;
      match goal with
      | |- context [dect_lce_send ?a ?b ?c ?d] =>
        destruct (dect_lce_send a b c d) as [[e o]|] eqn:Hs; [|discriminate]
      end;
      intros [= <- <- <-];
      apply dect_lce_send_out in Hs as [[-> ->] | [-> [octets ->]]];
      (split; [reflexivity|]); (split; [reflexivity|]); intros H;
      try lia; now exists octets.
  - intros msg err mmta' out. unfold dect_mm_access_rights_res, dect_mm_send_msg.
    destruct (dect_lce_send _ _ _ _) as [[e o]|]; [|discriminate].
    intros [= <- <- <-]. split; [reflexivity|].
    apply in_or_app. right. now left.
Qed.

(** ** The round trip of an IE *)

Lemma rd_beyond (x : list Z) (k : Z) :
  Z.of_nat (length x) <= k -> rd x k = 0.
Proof. intros H. unfold rd. apply nth_overflow. lia. Qed.


Lemma rd_app1 (x y : list Z) (k : Z) :
  0 <= k < Z.of_nat (length x) -> rd (x ++ y) k = rd x k.
Proof. intros H. unfold rd. apply app_nth1. lia. Qed.

Lemma rd_octet (x : list Z) (k : Z) :
  octets x = true -> 0 <= rd x k < 256.
Proof.
  intros H. rewrite octets_forall in H. unfold rd.
  destruct (Nat.lt_ge_cases (Z.to_nat k) (length x)) as [Hlt|Hge].
  - apply H, nth_In, Hlt.
  - rewrite nth_overflow by exact Hge. lia.
Qed.

Lemma zeroed_rd (d : list Z) (k : Z) : zeroed d = true -> rd d k = 0.
Proof.
  intros H. unfold zeroed in H. rewrite forallb_forall in H. unfold rd.
  destruct (Nat.lt_ge_cases (Z.to_nat k) (length d)) as [Hlt|Hge].
  - symmetry. apply Z.eqb_eq, H, nth_In, Hlt.
  - now apply nth_overflow.
Qed.

Lemma rd_skipn (d : list Z) (n : nat) (k : Z) :
  0 <= k -> rd (skipn n d) k = rd d (Z.of_nat n + k).
Proof.
  intros Hk. unfold rd.
  replace (Z.to_nat (Z.of_nat n + k)) with (n + Z.to_nat k)%nat by lia.
  revert d; induction n as [|n IH]; intros d; [reflexivity|].
  destruct d as [|a d]; simpl.
  - now destruct (Z.to_nat k).
  - apply IH.
Qed.

Lemma zeroed_skipn (d : list Z) (n : Z) :
  0 <= n -> (forall k, n <= k -> rd d k = 0) ->
  zeroed (skipn (Z.to_nat n) d) = true.
Proof.
  intros Hn H. unfold zeroed. apply forallb_forall. intros b Hb.
  apply (In_nth _ _ 0) in Hb as (i & Hi & <-).
  apply Z.eqb_eq. symmetry.
  pose proof (rd_skipn d (Z.to_nat n) (Z.of_nat i) ltac:(lia)) as E.
  unfold rd at 1 in E. rewrite Nat2Z.id in E. rewrite E. apply H. lia.
Qed.

Lemma sub_same (d x : list Z) :
  same_octets d x -> sub d 0 (Z.of_nat (length x)) = x.
Proof.
  intros H. apply sub_eq. intros i Hi. rewrite Z.add_0_l.
  rewrite H by lia. unfold rd. now rewrite Nat2Z.id.
Qed.

(** What [dect_build_sfmt_ie] does with the IE a build handler left
    in [dst], when the memory then holds the octets [x]. *)
Lemma commit_same (mb : dect_msg_buf) (dst : dect_sfmt_ie) (x : list Z) :
  ie_len dst = Z.of_nat (length x) ->
  same_octets (ie_data dst) x ->
  mb_data (mbuf_commit mb dst) = mb_data mb ++ x /\
  zeroed (mb_tail (mbuf_commit mb dst)) = true.
Proof.
  intros Hlen Hsame. unfold mbuf_commit. simpl. rewrite Hlen. split.
  - f_equal. now apply sub_same.
  - apply zeroed_skipn; [lia|]. intros k Hk.
    rewrite Hsame by lia. now apply rd_beyond.
Qed.

Lemma build_ie_vl (dh : dect_handle) (t id : Z) (mb : dect_msg_buf)
  (v : dect_ie_common)
  (build : dect_sfmt_ie -> dect_ie_common -> option dect_sfmt_ie)
  (dst : dect_sfmt_ie) (x : list Z) :
  build_type t v = id ->
  ieh_build (dect_ie_handlers id) = Some build ->
  build (build_dst mb) v = Some dst ->
  is_fixed_len id = false ->
  ie_len dst = Z.of_nat (length x) -> 2 < ie_len dst ->
  same_octets (wr (wr (ie_data dst) 1 (ie_len dst - 2)) 0 id) x ->
  exists mb',
    dect_build_sfmt_ie dh t mb v = Some (0, mb') /\
    mb_data mb' = mb_data mb ++ x /\ zeroed (mb_tail mb') = true.
Proof.
  intros Ht Hb Hdst Hvl Hlen H2 Hsame.
  unfold dect_build_sfmt_ie. rewrite Ht, Hb, Hdst.
  unfold dect_build_sfmt_ie_header. rewrite Hvl.
  destruct (Z.eqb_spec (ie_len dst) 2); [lia|].
  destruct (Z.gtb_spec (ie_len dst) 2); [|lia].
  eexists. split; [reflexivity|]. now apply commit_same.
Qed.


Lemma parse_ie_ok (dh : dect_handle) (t : Z) (ie : dect_sfmt_ie)
  (parse : dect_sfmt_ie -> option dect_ie_common) (v : dect_ie_common) :
  dh_nomem dh = false ->
  ieh_parse (dect_ie_handlers (ie_id ie)) = Some parse ->
  parse ie = Some v ->
  dect_parse_sfmt_ie dh t ie = (0, Some (Some v)).
Proof.
  intros Hmem Hp Hv. unfold dect_parse_sfmt_ie.
  rewrite Hp, Hmem, Hv. now rewrite andb_false_r.
Qed.

(** The header parser on a buffer that begins with a legitimate
    sample. *)
Lemma header_vl (id : Z) (c more tl : list Z) (ty : Z) :
  0 <= id < 256 -> is_fixed_len id = false ->
  dect_parse_sfmt_ie_header
    {| mb_data := (id :: Z.of_nat (length c) :: c) ++ more;
       mb_tail := tl; mb_type := ty |} =
  Some {| ie_id := id; ie_len := Z.of_nat (length c) + 2;
          ie_data := ((id :: Z.of_nat (length c) :: c) ++ more) ++ tl |}.
Proof.
  intros Hid Hvl. unfold dect_parse_sfmt_ie_header, mb_len, mb_mem.
  simpl mb_data. simpl mb_tail.
  assert (Hland : Z.land id DECT_SFMT_IE_FIXED_LEN = 0).
  { unfold is_fixed_len in Hvl. apply negb_false_iff in Hvl.
    now apply Z.eqb_eq. }
  repeat match goal with
  | |- context [rd ?d 0] => change (rd d 0) with id
  | |- context [rd ?d 1] => change (rd d 1) with (Z.of_nat (length c))
  end.
  rewrite Hland. change (is_fixed_len 0) with false. cbv iota.
  simpl length. rewrite length_app.
  destruct (Z.ltb_spec (Z.of_nat (S (S (length c + length more)))) 1); [lia|].
  destruct (Z.ltb_spec (Z.of_nat (S (S (length c + length more)))) 2); [lia|].
  destruct (Z.ltb_spec (Z.of_nat (S (S (length c + length more))))
              (2 + Z.of_nat (length c))); [lia|].
  reflexivity.
Qed.




Lemma same_octets_nat (d x : list Z) :
  (forall i : nat, rd d (Z.of_nat i) = nth i x 0) -> same_octets d x.
Proof.
  intros H k Hk. rewrite <- (Z2Nat.id k Hk), H. unfold rd.
  now rewrite Nat2Z.id.
Qed.

(** Reading back what the handlers wrote. *)
Ltac rd_written :=
  repeat first [ rewrite rd_wr by lia
               | rewrite rd_wr_or by lia
               | rewrite rd_memcpy by lia ].



(** The fields of the structures and the octets at the front of the
    memory, read off. *)
Ltac read_off :=
  cbn [ie_id ie_len ie_data set_data set_len app length
       bs_class bs_service display_len display_info keypad_len keypad_info
       it_group it_type la_type la_level
       at_auth_id at_auth_key_num at_auth_code_num
       td_coding td_interpretation td_year td_month td_day td_hour td_minute
       td_second td_timezone
       np_discriminator np_len np_data sc_page_capability sc_setup_capability
       cpn_type cpn_npi cpn_len cpn_address iwu_sr iwu_pd iwu_len iwu_data
       pi_location pi_progress];
  repeat match goal with
  | |- context [rd (?a :: ?l) 0] => change (rd (a :: l) 0) with a
  | |- context [rd (?a :: ?b :: ?l) 1] => change (rd (a :: b :: l) 1) with b
  | |- context [rd (?a :: ?b :: ?c :: ?l) 2] =>
    change (rd (a :: b :: c :: l) 2) with c
  | |- context [rd (?a :: ?b :: ?c :: ?d :: ?l) 3] =>
    change (rd (a :: b :: c :: d :: l) 3) with d
  | |- context [rd (_ :: _ :: _ :: _ :: ?e :: ?l) 4] =>
    match goal with
    | |- context [rd (?a :: ?b :: ?c :: ?d :: e :: l) 4] =>
      change (rd (a :: b :: c :: d :: e :: l) 4) with e
    end
  | |- context [rd (_ :: _ :: _ :: _ :: _ :: ?e :: ?l) 5] =>
    match goal with
    | |- context [rd (?a :: ?b :: ?c :: ?d :: ?f :: e :: l) 5] =>
      change (rd (a :: b :: c :: d :: f :: e :: l) 5) with e
    end
  | |- context [rd ?m 6] =>
    match m with
    | _ :: _ :: _ :: _ :: _ :: _ :: ?e :: _ => change (rd m 6) with e
    end
  | |- context [rd ?m 7] =>
    match m with
    | _ :: _ :: _ :: _ :: _ :: _ :: _ :: ?e :: _ => change (rd m 7) with e
    end
  | |- context [rd ?m 8] =>
    match m with
    | _ :: _ :: _ :: _ :: _ :: _ :: _ :: _ :: ?e :: _ => change (rd m 8) with e
    end
  | |- context [rd ?m 9] =>
    match m with
    | _ :: _ :: _ :: _ :: _ :: _ :: _ :: _ :: _ :: ?e :: _ =>
      change (rd m 9) with e
    end
  end.

Lemma same_octets_upto (d x : list Z) :
  (forall i, (i < length x)%nat -> rd d (Z.of_nat i) = nth i x 0) ->
  (forall k, Z.of_nat (length x) <= k -> rd d k = 0) ->
  same_octets d x.
Proof.
  intros Hin Hout k Hk.
  destruct (Z.lt_ge_cases k (Z.of_nat (length x))) as [Hlt|Hge].
  - rewrite <- (Z2Nat.id k Hk), Hin by lia. unfold rd. now rewrite Nat2Z.id.
  - rewrite Hout by lia. symmetry. now apply rd_beyond.
Qed.

(** Beyond the octets of the IE nothing was written. *)
Ltac untouched Hz :=
  let k := fresh "k" in
  let Hk := fresh "Hk" in
  intros k Hk; cbn [length] in Hk; rd_written;
  repeat match goal with
  | |- context [Z.eqb ?a ?b] => destruct (Z.eqb_spec a b); [lia|]
  end;
  apply zeroed_rd; exact Hz.

(** The octets of the IE, index by index. *)
Ltac written :=
  cbn [Z.of_nat Pos.of_succ_nat Pos.succ nth]; rd_written;
  cbn [Z.eqb Pos.eqb]; try reflexivity.










































(** ** The round trip of a message *)


Lemma policy_reject (dh : dect_handle) (d : dect_sfmt_ie_desc) (id err : Z) :
  dect_rx_policy dh d id = Reject err -> err <> DECT_SFMT_OK.
Proof.
  unfold dect_rx_policy.
  destruct (dect_rx_status dh d); destruct (type d =? id);
    try discriminate; try (intros [= <-]; discriminate).
  destruct (_ && _); [discriminate|]. destruct (_ && _); discriminate.
Qed.









(** The tables of cc.c and mm.c are written as [wf_desc] says. *)
Lemma descriptors_wf :
  forallb wf_desc
    [ cc_setup_msg_desc;
      cc_info_msg_desc;
      cc_setup_ack_msg_desc;
      cc_call_proc_msg_desc;
      cc_alerting_msg_desc;
      cc_connect_msg_desc;
      cc_connect_ack_msg_desc;
      cc_release_msg_desc;
      cc_release_com_msg_desc;
      cc_service_change_msg_desc;
      cc_service_accept_msg_desc;
      cc_service_reject_msg_desc;
      cc_notify_msg_desc;
      cc_iwu_info_msg_desc;
      mm_access_rights_accept_msg_desc;
      mm_access_rights_request_msg_desc;
      mm_access_rights_reject_msg_desc;
      mm_authentication_reject_msg_desc;
      mm_authentication_reply_msg_desc;
      mm_authentication_request_msg_desc;
      mm_key_allocate_msg_desc;
      mm_locate_accept_msg_desc;
      mm_locate_reject_msg_desc;
      mm_locate_request_msg_desc;
      mm_temporary_identity_assign_msg_desc;
      mm_temporary_identity_assign_ack_msg_desc;
      mm_temporary_identity_assign_rej_msg_desc ] = true.
Proof. reflexivity. Qed.



(** ** Further properties of the codec *)

Lemma fixed_id_stays_fixed :
  forall_octet (fun b =>
    let id := Z.land b DECT_SFMT_IE_FIXED_LEN in
    if is_fixed_len id then
      is_fixed_len (Z.lor id (Z.land b DECT_SFMT_IE_FIXED_ID_MASK)) &&
      is_fixed_len (Z.lor (Z.lor id (Z.land b DECT_SFMT_IE_FIXED_ID_MASK))
                          (Z.land b DECT_SFMT_IE_FIXED_VAL_MASK))
    else negb (is_fixed_len b)) = true.
Proof. vm_compute. reflexivity. Qed.

Lemma header_shape (mb : dect_msg_buf) (ie : dect_sfmt_ie) :
  octets (mb_data mb) = true ->
  dect_parse_sfmt_ie_header mb = Some ie ->
  1 <= ie_len ie <= mb_len mb /\
  ie_data ie = mb_mem mb /\
  (if is_fixed_len (ie_id ie) then ie_len ie <= 2
   else ie_id ie = rd (mb_data mb) 0 /\ ie_len ie = rd (mb_data mb) 1 + 2).
Proof.
  intros Ho Hh. split; [exact (header_len mb ie Ho Hh)|].
  revert Hh. unfold dect_parse_sfmt_ie_header.
  destruct (Z.ltb_spec (mb_len mb) 1) as [|H1]; [discriminate|].
  assert (Hb : 0 <= rd (mb_mem mb) 0 < 256).
  { unfold mb_mem. rewrite rd_app1 by (unfold mb_len in H1; lia).
    now apply rd_octet. }
  pose proof (forall_octet_spec _ fixed_id_stays_fixed _ Hb) as E.
  cbv beta zeta in E.
  destruct (is_fixed_len (Z.land (rd (mb_mem mb) 0) DECT_SFMT_IE_FIXED_LEN)).
  - apply andb_true_iff in E as [E1 E2].
    destruct (negb (_ =? DECT_IE_DOUBLE_OCTET_ELEMENT)).
    + intros [= <-]. simpl. split; [reflexivity|].
      destruct (_ =? DECT_IE_EXT_PREFIX); [rewrite E2 | rewrite E1]; lia.
    + destruct (mb_len mb <? 2); [discriminate|].
      intros [= <-]. simpl. split; [reflexivity|]. rewrite E2. lia.
  - destruct (Z.ltb_spec (mb_len mb) 2) as [|H2]; [discriminate|].
    destruct (mb_len mb <? 2 + rd (mb_mem mb) 1); [discriminate|].
    intros [= <-]. simpl. split; [reflexivity|].
    apply negb_true_iff in E. rewrite E.
    unfold mb_mem. rewrite !rd_app1 by (unfold mb_len in H2; lia).
    split; reflexivity.
Qed.

(** X1.  The IE [dect_parse_sfmt_ie_header] returns lies within the
    buffer: it has one octet or more and no more octets than the
    buffer holds, and it starts where the buffer starts.  A
    fixed-length IE has one or two octets; a variable-length IE has
    the identifier of the first octet and the length the second octet
    gives, plus the two octets of the header. *)
Theorem header_in_buffer (mb : dect_msg_buf) (ie : dect_sfmt_ie) :
  octets (mb_data mb) = true ->
  dect_parse_sfmt_ie_header mb = Some ie ->
  1 <= ie_len ie <= mb_len mb /\
  ie_data ie = mb_mem mb /\
  (if is_fixed_len (ie_id ie) then ie_len ie <= 2
   else ie_id ie = rd (mb_data mb) 0 /\ ie_len ie = rd (mb_data mb) 1 + 2).
Proof. apply header_shape. Qed.

(** An invariant of the buffer that holds when nothing is written and
    when an IE is committed, and that composes, is kept by the
    builder. *)
Section Builder_invariant.

Variable R : dect_msg_buf -> dect_msg_buf -> Prop.
Hypothesis R_refl : forall mb, R mb mb.
Hypothesis R_trans : forall a b c, R a b -> R b c -> R a c.
Hypothesis R_commit : forall mb dst, R mb (mbuf_commit mb dst).

Lemma dect_build_sfmt_ie_keeps (dh : dect_handle) (t : Z)
  (mb mb' : dect_msg_buf) (ie : dect_ie_common) (err : Z) :
  dect_build_sfmt_ie dh t mb ie = Some (err, mb') -> R mb mb'.
Proof.
  unfold dect_build_sfmt_ie.
  destruct (ieh_build _) as [build|].
  - destruct (build _ ie) as [dst|].
    + destruct (dect_build_sfmt_ie_header _ _) as [dst'|]; [|discriminate].
      intros [= _ <-]. apply R_commit.
    + intros [= _ <-]. apply R_refl.
  - intros [= _ <-]. apply R_refl.
Qed.

Lemma __dect_build_sfmt_ie_keeps (dh : dect_handle) (d : dect_sfmt_ie_desc)
  (mb mb' : dect_msg_buf) (ie : dect_ie_common) (err : Z) :
  __dect_build_sfmt_ie dh d mb ie = Some (err, mb') -> R mb mb'.
Proof.
  unfold __dect_build_sfmt_ie. destruct (dect_tx_status dh d).
  - intros [= _ <-]. apply R_refl.
  - apply dect_build_sfmt_ie_keeps.
  - apply dect_build_sfmt_ie_keeps.
Qed.

Lemma and_then_keeps (r : option (Z * dect_msg_buf))
  (k : dect_msg_buf -> option (Z * dect_msg_buf)) (mb mb' : dect_msg_buf)
  (err : Z) :
  (forall e m, r = Some (e, m) -> R mb m) ->
  (forall m e m', k m = Some (e, m') -> R m m') ->
  and_then r k = Some (err, mb') -> R mb mb'.
Proof.
  intros Hr Hk. unfold and_then. destruct r as [[e m]|]; [|discriminate].
  pose proof (Hr e m eq_refl) as Hm.
  destruct (negb (e =? DECT_SFMT_OK)).
  - now intros [= _ <-].
  - intros H. exact (R_trans _ _ _ Hm (Hk _ _ _ H)).
Qed.

Lemma build_elements_keeps (dh : dect_handle) (d : dect_sfmt_ie_desc)
  (l : list dect_ie_common) :
  forall mb err mb',
  build_elements dh d mb l = Some (err, mb') -> R mb mb'.
Proof.
  induction l as [|e l IH]; intros mb err mb'; simpl.
  - intros [= _ <-]. apply R_refl.
  - apply and_then_keeps.
    + intros e' m. apply __dect_build_sfmt_ie_keeps.
    + intros m e' m'. apply IH.
Qed.

Lemma dect_build_sfmt_msg_keeps_n (dh : dect_handle) (n : nat) :
  forall desc src mb err mb',
  (length desc <= n)%nat ->
  dect_build_sfmt_msg dh desc src mb = Some (err, mb') -> R mb mb'.
Proof.
  induction n as [|n IH]; intros desc src mb err mb' Hn.
  - destruct desc; [|simpl in Hn; lia].
    simpl. intros [= _ <-]. apply R_refl.
  - destruct desc as [|d rest].
    { simpl. intros [= _ <-]. apply R_refl. }
    simpl in Hn. simpl dect_build_sfmt_msg.
    destruct (type d =? DECT_IE_REPEAT_INDICATOR).
    + destruct src as [|[o|iel] next]; try discriminate.
      destruct (il_list iel) as [|e1 tl].
      * destruct rest as [|r rest]; [discriminate|].
        apply IH. simpl in Hn; lia.
      * apply and_then_keeps.
        -- intros e m. destruct tl.
           ++ intros [= _ <-]. apply R_refl.
           ++ apply __dect_build_sfmt_ie_keeps.
        -- intros m e m'. destruct rest as [|r rest]; [discriminate|].
           destruct (is_repeat r); [|discriminate].
           apply and_then_keeps.
           ++ intros e' m''. apply build_elements_keeps.
           ++ intros m'' e' m3. apply IH. simpl in Hn; lia.
    + destruct src as [|[o|iel] next]; try discriminate.
      destruct o as [ie|].
      * apply and_then_keeps.
        -- intros e m. apply __dect_build_sfmt_ie_keeps.
        -- intros m e m'. apply IH. lia.
      * destruct (is_mandatory (dect_tx_status dh d)).
        -- intros [= _ <-]. apply R_refl.
        -- apply IH. lia.
Qed.

End Builder_invariant.

(** X2.  [dect_build_sfmt_msg] only appends: whatever it returns, an
    error included, the octets the buffer held before are still at its
    front, and the message type of the buffer is what it was. *)
Theorem build_only_appends (dh : dect_handle) (desc : dect_sfmt_msg_desc)
  (src : dect_msg_common) (mb : dect_msg_buf) (err : Z) (mb' : dect_msg_buf) :
  dect_build_sfmt_msg dh desc src mb = Some (err, mb') ->
  (exists tl, mb_data mb' = mb_data mb ++ tl) /\ mb_type mb' = mb_type mb.
Proof.
  apply (dect_build_sfmt_msg_keeps_n
           (fun a b => (exists tl, mb_data b = mb_data a ++ tl) /\
                       mb_type b = mb_type a)) with (n := length desc).
  - intros a. split; [exists []; now rewrite app_nil_r | reflexivity].
  - intros a b c [[t1 H1] T1] [[t2 H2] T2]. split; [|congruence].
    exists (t1 ++ t2). now rewrite H2, H1, app_assoc.
  - intros a dst. split; [eexists; reflexivity | reflexivity].
  - apply Nat.le_refl.
Qed.

(** X3.  <<TIMER-RESTART>>, <<SERVICE-CHANGE-INFO>>, <<FACILITY>> and
    <<FEATURE-INDICATE>> have a parse handler and no build handler:
    [dect_build_sfmt_ie] returns OK for them and writes nothing, and
    [dect_build_sfmt_msg] goes on with the next entry as if the member
    were absent, also when the entry is MANDATORY. *)
Theorem parse_only_ie_is_skipped (dh : dect_handle) (d : dect_sfmt_ie_desc)
  (rest : dect_sfmt_msg_desc) (ie : dect_ie_common) (next : dect_msg_common)
  (mb : dect_msg_buf) :
  In (type d) parse_only_ids ->
  is_repeat d = false ->
  dect_tx_status dh d <> DECT_SFMT_IE_NONE ->
  ieh_parse (dect_ie_handlers (type d)) <> None /\
  dect_build_sfmt_ie dh (type d) mb ie = Some (DECT_SFMT_OK, mb) /\
  dect_build_sfmt_msg dh (d :: rest) (Member (Some ie) :: next) mb =
  dect_build_sfmt_msg dh rest next mb.
Proof.
  intros Hin Hrep Htx.
  assert (H : ieh_parse (dect_ie_handlers (type d)) <> None /\
              type d <> DECT_IE_REPEAT_INDICATOR /\
              dect_build_sfmt_ie dh (type d) mb ie = Some (DECT_SFMT_OK, mb)).
  { destruct Hin as [<-|[<-|[<-|[<-|[]]]]];
      (split; [discriminate|]); (split; [discriminate | reflexivity]). }
  destruct H as (Hp & Hri & Hb). split; [exact Hp|]. split; [exact Hb|].
  simpl. destruct (Z.eqb_spec (type d) DECT_IE_REPEAT_INDICATOR); [contradiction|].
  rewrite Hrep. unfold __dect_build_sfmt_ie.
  destruct (dect_tx_status dh d); [contradiction | |]; rewrite Hb; reflexivity.
Qed.

(** X4.  An IE that no entry of the table takes (an IE the message
    does not know, or one that comes after its place) ends the parse:
    [dect_parse_sfmt_msg] returns OK, every member is as initialised,
    and the IE and all that follows it stay in the buffer, unread. *)
Theorem unmatched_ie_ends_parse (dh : dect_handle)
  (mdesc : dect_sfmt_msg_desc) (mb : dect_msg_buf) (ie : dect_sfmt_ie) :
  0 < mb_len mb ->
  dect_parse_sfmt_ie_header mb = Some ie ->
  forallb (advances dh (ie_id ie)) mdesc = true ->
  dect_parse_sfmt_msg dh mdesc mb =
  {| p_err := DECT_SFMT_OK; p_msg := passed mdesc; p_mb := mb |}.
Proof.
  intros Hlen Hh Hadv.
  rewrite (dect_parse_sfmt_msg_walk dh _ mb ie Hlen Hh).
  rewrite <- (app_nil_r mdesc) at 1.
  rewrite parse_walk_passes by exact Hadv.
  unfold with_members. simpl. now rewrite app_nil_r.
Qed.

Lemma build_plain_prefix (dh : dect_handle) (pre : dect_sfmt_msg_desc) :
  forall spre l s mb err mb',
  forallb plain pre = true -> length spre = length pre ->
  dect_build_sfmt_msg dh (pre ++ l) (spre ++ s) mb = Some (err, mb') ->
  err <> DECT_SFMT_OK \/
  exists mb1, dect_build_sfmt_msg dh l s mb1 = Some (err, mb').
Proof.
  induction pre as [|d pre IH]; intros spre l s mb err mb' Hpl Hlen.
  - destruct spre; [|discriminate]. simpl. intros H. right. now exists mb.
  - destruct spre as [|m spre]; [discriminate|].
    simpl in Hpl. apply andb_true_iff in Hpl as [Hd Hpre].
    unfold plain in Hd. apply andb_true_iff in Hd as [Hri Hrep].
    apply negb_true_iff in Hri, Hrep.
    simpl app. simpl dect_build_sfmt_msg. rewrite Hri, Hrep.
    injection Hlen as Hlen.
    destruct m as [[ie|]|iel]; [| |discriminate].
    + unfold and_then.
      destruct (__dect_build_sfmt_ie dh d mb ie) as [[e m1]|]; [|discriminate].
      destruct (Z.eqb_spec e DECT_SFMT_OK) as [->|Hne]; simpl negb; cbv iota.
      * now apply IH.
      * intros [= <- _]. now left.
    + destruct (is_mandatory (dect_tx_status dh d)).
      * intros [= <- _]. left. discriminate.
      * now apply IH.
Qed.

(** X5.  [dect_build_sfmt_msg] polices the direction on transmit: at
    a plain entry that plain entries precede, a member that is present
    while the status of the entry for the sending role is NONE, or
    absent while it is MANDATORY, makes the build return an error. *)
Theorem transmit_policing (dh : dect_handle) (pre : dect_sfmt_msg_desc)
  (d : dect_sfmt_ie_desc) (rest : dect_sfmt_msg_desc)
  (spre : dect_msg_common) (o : option dect_ie_common) (next : dect_msg_common)
  (mb : dect_msg_buf) (err : Z) (mb' : dect_msg_buf) :
  forallb plain pre = true -> plain d = true ->
  length spre = length pre ->
  dect_build_sfmt_msg dh (pre ++ d :: rest) (spre ++ Member o :: next) mb =
    Some (err, mb') ->
  (dect_tx_status dh d = DECT_SFMT_IE_NONE -> o <> None -> err <> DECT_SFMT_OK) /\
  (dect_tx_status dh d = DECT_SFMT_IE_MANDATORY -> o = None ->
   err <> DECT_SFMT_OK).
Proof.
  intros Hpre Hd Hlen Hb.
  destruct (build_plain_prefix dh pre spre _ _ mb err mb' Hpre Hlen Hb)
    as [Hne | [mb1 H1]]; [now split|].
  unfold plain in Hd. apply andb_true_iff in Hd as [Hri Hrep].
  apply negb_true_iff in Hri, Hrep.
  simpl in H1. rewrite Hri, Hrep in H1.
  split; intros Hs Ho.
  - destruct o as [ie|]; [|contradiction].
    unfold __dect_build_sfmt_ie in H1. rewrite Hs in H1. simpl in H1.
    injection H1 as <- _. discriminate.
  - subst o. rewrite Hs in H1. simpl in H1. injection H1 as <- _. discriminate.
Qed.

Lemma dect_msg_free_shaped (dh : dect_handle) (desc : dect_sfmt_msg_desc)
  (msg : dect_msg_common) :
  wf_desc desc = true -> shaped desc msg = true ->
  dect_msg_free dh desc msg = Some (map IE_put (present msg)).
Proof.
  remember (length desc) as n eqn:Hn.
  assert (Hle : (length desc <= n)%nat) by lia. clear Hn.
  revert desc msg Hle. induction n as [|n IH]; intros desc msg Hle Hwf Hsh.
  - destruct desc; [|simpl in Hle; lia]. now destruct msg.
  - destruct desc as [|d rest]; [now destruct msg|].
    simpl in Hle. simpl in Hwf, Hsh. simpl dect_msg_free.
    destruct (type d =? DECT_IE_REPEAT_INDICATOR).
    + destruct rest as [|r rest']; [discriminate|].
      apply andb_true_iff in Hwf as [Hwf Hrest].
      apply andb_true_iff in Hwf as [Hrep Hri]. apply negb_true_iff in Hri.
      destruct msg as [|[o|iel] next]; try discriminate.
      simpl in Hsh. rewrite Hri, Hrep in Hsh.
      change (present (MemberList iel :: next)) with (present next).
      apply IH; [simpl in Hle; lia | assumption | assumption].
    + apply andb_true_iff in Hwf as [Hrep Hrest]. apply negb_true_iff in Hrep.
      rewrite Hrep in Hsh |- *.
      destruct msg as [|[o|iel] next]; try discriminate.
      rewrite (IH rest next) by (try lia; assumption).
      now destruct o.
Qed.

(** X6.  For a table written as those of cc.c and mm.c are, and a
    message of the structure of the table, [dect_msg_free] releases
    the IEs the plain members point to, each once and in the order of
    the table, and nothing else: it never calls [dect_ie_list_put], so
    that the elements of the lists of the message are not released. *)
Theorem msg_free_puts (dh : dect_handle) (desc : dect_sfmt_msg_desc)
  (msg : dect_msg_common) :
  wf_desc desc = true -> shaped desc msg = true ->
  dect_msg_free dh desc msg = Some (map IE_put (present msg)) /\
  forall o, ~ In (IE_list_put o) (map IE_put (present msg)).
Proof.
  intros Hwf Hsh. split; [now apply dect_msg_free_shaped|].
  intros o Hin. apply in_map_iff in Hin as (ie & Hie & _). discriminate.
Qed.

Lemma shaped_member (d : dect_sfmt_ie_desc) (rest : dect_sfmt_msg_desc)
  (m msg : dect_msg_common) :
  m = dect_msg_ie_init d \/ (exists s, m = stored_member d s) ->
  shaped (d :: rest) (m ++ msg) = shaped rest msg.
Proof.
  intros H. simpl shaped.
  destruct H as [->|[s ->]]; unfold stored_member, dect_msg_ie_init;
    destruct (type d =? DECT_IE_REPEAT_INDICATOR), (is_repeat d);
    try reflexivity; destruct s as [[[]|]|]; reflexivity.
Qed.

Lemma shaped_out (dh : dect_handle) (desc : dect_sfmt_msg_desc)
  (mb : dect_msg_buf) :
  p_err (parse_out dh desc mb) = DECT_SFMT_OK ->
  shaped desc (p_msg (parse_out dh desc mb)) = true.
Proof.
  induction desc as [|d desc IH]; [reflexivity|].
  cbn [parse_out]. destruct (is_mandatory _); [discriminate|]. intros H.
  change (p_msg (with_members (dect_msg_ie_init d) (parse_out dh desc mb)))
    with (dect_msg_ie_init d ++ p_msg (parse_out dh desc mb)).
  rewrite (shaped_member d desc) by now left. now apply IH.
Qed.

Lemma shaped_walk (dh : dect_handle) (desc : dect_sfmt_msg_desc) :
  forall ie mb,
  p_err (parse_walk dh desc ie mb) = DECT_SFMT_OK ->
  shaped desc (p_msg (parse_walk dh desc ie mb)) = true.
Proof.
  induction desc as [|d desc IH]; intros ie mb; [reflexivity|].
  destruct (dect_rx_policy dh d (ie_id ie)) eqn:Hp.
  - rewrite parse_walk_found by exact Hp. cbv zeta.
    destruct (_ && _); [discriminate|].
    rewrite p_err_with_members. intros H.
    match goal with
    | |- shaped _ (p_msg (with_members ?m ?r)) = true =>
      change (p_msg (with_members m r)) with (m ++ p_msg r)
    end.
    rewrite (shaped_member d desc) by (right; eexists; reflexivity).
    revert H. unfold dect_parse_sfmt_msg.
    destruct (_ >? 0); [|apply shaped_out].
    destruct (dect_parse_sfmt_ie_header _); [apply IH | discriminate].
  - cbn [parse_walk]. rewrite Hp. rewrite p_err_with_members. intros H.
    change (p_msg (with_members (dect_msg_ie_init d) (parse_walk dh desc ie mb)))
      with (dect_msg_ie_init d ++ p_msg (parse_walk dh desc ie mb)).
    rewrite (shaped_member d desc) by now left. now apply IH.
  - simpl. rewrite Hp. simpl. intros H. now apply policy_reject in Hp.
Qed.

(** X7.  A message that [dect_parse_sfmt_msg] has accepted has the
    structure of its table, and [dect_msg_free] releases every IE it
    holds, each once, and nothing else. *)
Theorem parsed_message_is_released (dh : dect_handle)
  (mdesc : dect_sfmt_msg_desc) (mb : dect_msg_buf) :
  wf_desc mdesc = true ->
  p_err (dect_parse_sfmt_msg dh mdesc mb) = DECT_SFMT_OK ->
  shaped mdesc (p_msg (dect_parse_sfmt_msg dh mdesc mb)) = true /\
  dect_msg_free dh mdesc (p_msg (dect_parse_sfmt_msg dh mdesc mb)) =
  Some (map IE_put (present (p_msg (dect_parse_sfmt_msg dh mdesc mb)))).
Proof.
  intros Hwf Hok.
  assert (Hsh : shaped mdesc (p_msg (dect_parse_sfmt_msg dh mdesc mb)) = true).
  { revert Hok. unfold dect_parse_sfmt_msg.
    destruct (_ >? 0); [|apply shaped_out].
    destruct (dect_parse_sfmt_ie_header mb); [apply shaped_walk | discriminate]. }
  split; [exact Hsh|]. now apply dect_msg_free_shaped.
Qed.

(** ** Handlers whose two directions differ *)

Lemma below_cases (n : nat) (p : Z -> bool) :
  forallb p (map Z.of_nat (seq 0 n)) = true ->
  forall a, 0 <= a < Z.of_nat n -> p a = true.
Proof.
  intros H a Ha. rewrite forallb_forall in H. apply H.
  apply in_map_iff. exists (Z.to_nat a). split; [lia|]. apply in_seq. lia.
Qed.

Lemma pair_cases (n m : nat) (p : Z -> Z -> bool) :
  forallb (fun a => forallb (p a) (map Z.of_nat (seq 0 m)))
          (map Z.of_nat (seq 0 n)) = true ->
  forall a b, 0 <= a < Z.of_nat n -> 0 <= b < Z.of_nat m -> p a b = true.
Proof.
  intros H a b Ha Hb.
  exact (below_cases m (p a) (below_cases n _ H a Ha) b Hb).
Qed.

Lemma cipher_info_octet2 (e a : Z) :
  e = 0 \/ e = 0x80 -> 0 <= a < 128 ->
  u8 (Z.lor (u8 e) a) = Z.lor e a /\
  Z.land (Z.lor e a) 0x80 = e /\ Z.land (Z.lor e a) 0x7f = a.
Proof.
  intros He Ha.
  assert (H0 : forallb (fun a => (u8 (Z.lor (u8 0) a) =? Z.lor 0 a) &&
                                 (Z.land (Z.lor 0 a) 0x80 =? 0) &&
                                 (Z.land (Z.lor 0 a) 0x7f =? a))
                       (map Z.of_nat (seq 0 128)) = true)
    by (vm_compute; reflexivity).
  assert (H1 : forallb (fun a => (u8 (Z.lor (u8 0x80) a) =? Z.lor 0x80 a) &&
                                 (Z.land (Z.lor 0x80 a) 0x80 =? 0x80) &&
                                 (Z.land (Z.lor 0x80 a) 0x7f =? a))
                       (map Z.of_nat (seq 0 128)) = true)
    by (vm_compute; reflexivity).
  destruct He as [->| ->];
    [pose proof (below_cases 128 _ H0 a Ha) as E
    |pose proof (below_cases 128 _ H1 a Ha) as E];
    cbv beta in E;
    apply andb_true_iff in E as [E E3]; apply andb_true_iff in E as [E1 E2];
    apply Z.eqb_eq in E1, E2, E3; now repeat split.
Qed.

Lemma cipher_info_octet3 (t n : Z) :
  0 <= t < 16 -> 0 <= n < 16 ->
  u8 (Z.lor (u8 (Z.shiftl t 4)) (Z.lor n 0x8)) =
    Z.lor (Z.shiftl t 4) (Z.lor n 0x8) /\
  Z.shiftr (Z.land (Z.lor (Z.shiftl t 4) (Z.lor n 0x8)) 0xf0) 4 = t /\
  Z.land (Z.lor (Z.shiftl t 4) (Z.lor n 0x8)) 0x0f = Z.lor n 0x8 /\
  0 <= Z.lor (Z.shiftl t 4) (Z.lor n 0x8) < 256.
Proof.
  intros Ht Hn.
  assert (H : forallb (fun t => forallb (fun n =>
                (u8 (Z.lor (u8 (Z.shiftl t 4)) (Z.lor n 0x8)) =?
                   Z.lor (Z.shiftl t 4) (Z.lor n 0x8)) &&
                (Z.shiftr (Z.land (Z.lor (Z.shiftl t 4) (Z.lor n 0x8)) 0xf0) 4 =? t) &&
                (Z.land (Z.lor (Z.shiftl t 4) (Z.lor n 0x8)) 0x0f =? Z.lor n 0x8) &&
                (0 <=? Z.lor (Z.shiftl t 4) (Z.lor n 0x8)) &&
                (Z.lor (Z.shiftl t 4) (Z.lor n 0x8) <? 256))
                (map Z.of_nat (seq 0 16))) (map Z.of_nat (seq 0 16)) = true)
    by (vm_compute; reflexivity).
  pose proof (pair_cases 16 16 _ H t n Ht Hn) as E. cbv beta in E.
  repeat (apply andb_true_iff in E as [E ?]).
  repeat match goal with
         | H : (_ =? _) = true |- _ => apply Z.eqb_eq in H
         | H : (_ <=? _) = true |- _ => apply Z.leb_le in H
         | H : (_ <? _) = true |- _ => apply Z.ltb_lt in H
         end.
  repeat split; assumption.
Qed.

(** X8.  The build handler of <<CIPHER-INFO>> sets bit 4 of the octet
    of the key (it ORs 0x8 to the key number), and the parse handler
    returns the four low bits as the key number: for a structure
    whose fields are in the range of their bits, [dect_build_sfmt_ie]
    appends the four octets of the IE, and what the peer parses from
    them is the structure with 8 ORed to the key number, and with the
    enable flag as 0x80 or 0. *)
Theorem cipher_info_key_number (dh dh' : dect_handle) (mb : dect_msg_buf)
  (v : dect_ie_cipher_info) :
  zeroed (mb_tail mb) = true -> dh_nomem dh' = false ->
  0 <= ci_cipher_alg_id v < 128 ->
  0 <= ci_cipher_key_type v < 16 ->
  0 <= ci_cipher_key_num v < 16 ->
  let e := if ci_enable v =? 0 then 0 else 0x80 in
  let x := [ DECT_IE_CIPHER_INFO; 2; Z.lor e (ci_cipher_alg_id v);
             Z.lor (Z.shiftl (ci_cipher_key_type v) 4)
                   (Z.lor (ci_cipher_key_num v) 0x8) ] in
  exists mb',
    dect_build_sfmt_ie dh DECT_IE_CIPHER_INFO mb (IE_cipher_info v) =
      Some (DECT_SFMT_OK, mb') /\
    mb_data mb' = mb_data mb ++ x /\
    forall more tl ty, exists ie,
      dect_parse_sfmt_ie_header
        {| mb_data := x ++ more; mb_tail := tl; mb_type := ty |} = Some ie /\
      dect_parse_sfmt_ie dh' DECT_IE_CIPHER_INFO ie =
        (0, Some (Some (IE_cipher_info
           {| ci_enable := e;
              ci_cipher_alg_id := ci_cipher_alg_id v;
              ci_cipher_key_type := ci_cipher_key_type v;
              ci_cipher_key_num := Z.lor (ci_cipher_key_num v) 0x8 |}))).
Proof.
  intros Hz Hmem Ha Ht Hn e x. subst x.
  assert (He : e = 0 \/ e = 0x80)
    by (unfold e; destruct (ci_enable v =? 0); [now left | now right]).
  destruct (cipher_info_octet2 e _ He Ha) as (E2 & E2e & E2a).
  destruct (cipher_info_octet3 _ _ Ht Hn) as (E3 & E3t & E3n & E3r).
  destruct (build_ie_vl dh DECT_IE_CIPHER_INFO DECT_IE_CIPHER_INFO mb
              (IE_cipher_info v) dect_sfmt_build_cipher_info
              {| ie_id := 0; ie_len := 4;
                 ie_data :=
                   wr_or (wr (wr_or (wr (mb_tail mb) 2 e) 2 (ci_cipher_alg_id v))
                             3 (Z.shiftl (ci_cipher_key_type v) 4))
                         3 (Z.lor (ci_cipher_key_num v) 0x8) |}
              [ DECT_IE_CIPHER_INFO; 2; Z.lor e (ci_cipher_alg_id v);
                Z.lor (Z.shiftl (ci_cipher_key_type v) 4)
                      (Z.lor (ci_cipher_key_num v) 0x8) ])
    as (mb' & Hb & Hd & _); try reflexivity; try (simpl; lia).
  { read_off. apply same_octets_upto; [|untouched Hz].
    intros i Hi. destruct i as [|[|[|[|i]]]]; [written .. | simpl in Hi; lia].
    - exact E2.
    - exact E3. }
  exists mb'. split; [exact Hb|]. split; [exact Hd|].
  intros more tl ty. eexists. split.
  - apply (header_vl DECT_IE_CIPHER_INFO
             [Z.lor e (ci_cipher_alg_id v);
              Z.lor (Z.shiftl (ci_cipher_key_type v) 4)
                    (Z.lor (ci_cipher_key_num v) 0x8)] more tl ty);
      [split; [now vm_compute | reflexivity] | reflexivity].
  - apply parse_ie_ok with (parse := dect_sfmt_parse_cipher_info);
      [exact Hmem | reflexivity |].
    unfold dect_sfmt_parse_cipher_info. read_off.
    change (negb (Z.of_nat 2 + 2 =? 4)) with false. cbv iota.
    now rewrite E2e, E2a, E3t, E3n.
Qed.

Lemma duration_octet (l t : Z) :
  0 <= l < 8 -> 0 <= t < 16 ->
  u8 (Z.lor (Z.shiftl l 4) t) = Z.lor (Z.shiftl l 4) t /\
  u8 (Z.lor (u8 (Z.lor (Z.shiftl l 4) t)) 0x80) =
    Z.lor (Z.lor (Z.shiftl l 4) t) 0x80 /\
  Z.land (Z.lor (Z.shiftl l 4) t) 0x70 = 16 * l /\
  Z.land (Z.lor (Z.shiftl l 4) t) 0x0f = t /\
  Z.land (Z.lor (Z.shiftl l 4) t) 0x80 = 0 /\
  Z.land (Z.lor (Z.lor (Z.shiftl l 4) t) 0x80) 0x70 = 16 * l /\
  Z.land (Z.lor (Z.lor (Z.shiftl l 4) t) 0x80) 0x0f = t /\
  Z.land (Z.lor (Z.lor (Z.shiftl l 4) t) 0x80) 0x80 = 0x80.
Proof.
  intros Hl Ht.
  assert (H : forallb (fun l => forallb (fun t =>
                let o := Z.lor (Z.shiftl l 4) t in
                (u8 o =? o) &&
                (u8 (Z.lor (u8 o) 0x80) =? Z.lor o 0x80) &&
                (Z.land o 0x70 =? 16 * l) &&
                (Z.land o 0x0f =? t) &&
                (Z.land o 0x80 =? 0) &&
                (Z.land (Z.lor o 0x80) 0x70 =? 16 * l) &&
                (Z.land (Z.lor o 0x80) 0x0f =? t) &&
                (Z.land (Z.lor o 0x80) 0x80 =? 0x80))
                (map Z.of_nat (seq 0 16))) (map Z.of_nat (seq 0 8)) = true)
    by (vm_compute; reflexivity).
  pose proof (pair_cases 8 16 _ H l t Hl Ht) as E. cbv beta zeta in E.
  repeat (apply andb_true_iff in E as [E ?]).
  repeat match goal with
         | H : (_ =? _) = true |- _ => apply Z.eqb_eq in H
         end.
  repeat split; assumption.
Qed.

(** X9.  The parse handler of <<DURATION>> returns the lock limit
    as the masked bits of the octet, not shifted down, while the build
    handler shifts the field up by four bits: for a structure whose
    fields are in the range of their bits, [dect_build_sfmt_ie]
    appends the IE, and what the peer parses from it has the lock
    limit multiplied by 16.  The time limit comes back as it was, and
    the duration when the time limit is one of the two defined ones. *)
Theorem duration_lock_limit (dh dh' : dect_handle) (mb : dect_msg_buf)
  (v : dect_ie_duration) :
  zeroed (mb_tail mb) = true -> dh_nomem dh' = false ->
  0 <= dur_lock v < 8 -> 0 <= dur_time v < 16 -> 0 <= dur_duration v < 256 ->
  exists mb' x,
    dect_build_sfmt_ie dh DECT_IE_DURATION mb (IE_duration v) =
      Some (DECT_SFMT_OK, mb') /\
    mb_data mb' = mb_data mb ++ x /\
    forall more tl ty, exists ie,
      dect_parse_sfmt_ie_header
        {| mb_data := x ++ more; mb_tail := tl; mb_type := ty |} = Some ie /\
      dect_parse_sfmt_ie dh' DECT_IE_DURATION ie =
        (0, Some (Some (IE_duration
           {| dur_lock := 16 * dur_lock v;
              dur_time := dur_time v;
              dur_duration :=
                if (dur_time v =? DECT_TIME_LIMIT_DEFINED_TIME_LIMIT_1) ||
                   (dur_time v =? DECT_TIME_LIMIT_DEFINED_TIME_LIMIT_2)
                then dur_duration v else 0 |}))).
Proof.
  intros Hz Hmem Hl Ht Hd.
  destruct (duration_octet _ _ Hl Ht)
    as (E1 & E2 & E3 & E4 & E5 & E6 & E7 & E8).
  set (o := Z.lor (Z.shiftl (dur_lock v) 4) (dur_time v)) in *.
  destruct ((dur_time v =? DECT_TIME_LIMIT_DEFINED_TIME_LIMIT_1) ||
            (dur_time v =? DECT_TIME_LIMIT_DEFINED_TIME_LIMIT_2)) eqn:Hdef.
  - (* a defined time limit: the duration follows *)
    destruct (build_ie_vl dh DECT_IE_DURATION DECT_IE_DURATION mb
                (IE_duration v) dect_sfmt_build_duration
                {| ie_id := 0; ie_len := 3 + 1;
                   ie_data := wr (wr (mb_tail mb) 2 o) 3 (dur_duration v) |}
                [DECT_IE_DURATION; 2; o; dur_duration v])
      as (mb' & Hb & Hdata & _); try reflexivity; try (simpl; lia).
    { unfold dect_sfmt_build_duration, build_dst. cbn [ie_data ie_id ie_len].
      fold o. rewrite <- negb_orb, Hdef. reflexivity. }
    { read_off. apply same_octets_upto; [|untouched Hz].
      intros i Hi. destruct i as [|[|[|[|i]]]]; [written .. | simpl in Hi; lia].
      - exact E1.
      - now apply u8_octet. }
    exists mb', [DECT_IE_DURATION; 2; o; dur_duration v].
    split; [exact Hb|]. split; [exact Hdata|].
    intros more tl ty. eexists. split.
    + apply (header_vl DECT_IE_DURATION [o; dur_duration v] more tl ty);
        [split; [now vm_compute | reflexivity] | reflexivity].
    + apply parse_ie_ok with (parse := dect_sfmt_parse_duration);
        [exact Hmem | reflexivity |].
      unfold dect_sfmt_parse_duration. read_off.
      change DECT_OCTET_GROUP_END with 0x80.
      now rewrite E3, E4, E5.
  - (* any other time limit: the octet closes its group *)
    destruct (build_ie_vl dh DECT_IE_DURATION DECT_IE_DURATION mb
                (IE_duration v) dect_sfmt_build_duration
                {| ie_id := 0; ie_len := 3;
                   ie_data := wr_or (wr (mb_tail mb) 2 o) 2 DECT_OCTET_GROUP_END |}
                [DECT_IE_DURATION; 1; Z.lor o 0x80])
      as (mb' & Hb & Hdata & _); try reflexivity; try (simpl; lia).
    { unfold dect_sfmt_build_duration, build_dst. cbn [ie_data ie_id ie_len].
      fold o. rewrite <- negb_orb, Hdef. reflexivity. }
    { read_off. apply same_octets_upto; [|untouched Hz].
      intros i Hi. destruct i as [|[|[|i]]]; [written .. | simpl in Hi; lia].
      exact E2. }
    exists mb', [DECT_IE_DURATION; 1; Z.lor o 0x80].
    split; [exact Hb|]. split; [exact Hdata|].
    intros more tl ty. eexists. split.
    + apply (header_vl DECT_IE_DURATION [Z.lor o 0x80] more tl ty);
        [split; [now vm_compute | reflexivity] | reflexivity].
    + apply parse_ie_ok with (parse := dect_sfmt_parse_duration);
        [exact Hmem | reflexivity |].
      unfold dect_sfmt_parse_duration. read_off.
      change DECT_OCTET_GROUP_END with 0x80.
      now rewrite E6, E7, E8.
Qed.

(** ** The arrays of the parsed structures *)

Ltac bounds_leaf :=
  cbn [ieh_parse ieh_sized handler];
  unfold dect_sfmt_parse_repeat_indicator, dect_sfmt_parse_empty_single_octet,
    dect_sfmt_parse_basic_service, dect_sfmt_parse_release_reason,
    dect_sfmt_parse_signal, dect_sfmt_parse_timer_restart,
    dect_sfmt_parse_single_display, dect_sfmt_parse_single_keypad,
    dect_sfmt_parse_identity_type, dect_sfmt_parse_location_area,
    dect_sfmt_parse_allocation_type, dect_sfmt_parse_auth_value,
    dect_sfmt_parse_auth_res, dect_sfmt_parse_service_change_info,
    dect_sfmt_parse_cipher_info, dect_sfmt_parse_facility,
    dect_sfmt_parse_progress_indicator, dect_sfmt_parse_time_date,
    dect_sfmt_parse_multi_display, dect_sfmt_parse_multi_keypad,
    dect_sfmt_parse_feature_activate, dect_sfmt_parse_feature_indicate,
    dect_sfmt_parse_network_parameter, dect_sfmt_parse_reject_reason,
    dect_sfmt_parse_setup_capability, dect_sfmt_parse_called_party_number,
    dect_sfmt_parse_duration, dect_sfmt_parse_iwu_to_iwu, x_parse_handler;
  cbv zeta;
  repeat match goal with
         | |- context [if ?c then _ else _] => destruct c eqn:?
         | |- context [match x_parse X ?i with _ => _ end] =>
           destruct (x_parse X i)
         | |- context [match ?p ?i with Some _ => Some _ | None => None end] =>
           destruct (p i)
         end;
  try discriminate; intros [= <-]; try reflexivity.

Ltac bounds_array Hlen :=
  cbn [in_bounds display_len display_info keypad_len keypad_info np_len np_data
       cpn_len cpn_address iwu_len iwu_data fac_len fac_components];
  unfold within; rewrite ?length_sub;
  repeat match goal with
         | H : (ie_id _ =? _) = true |- _ =>
           apply Z.eqb_eq in H; rewrite H in Hlen
         | H : (_ >? _) = false |- _ =>
           rewrite Z.gtb_ltb in H; apply Z.ltb_ge in H
         end;
  try specialize (Hlen eq_refl);
  repeat match goal with
         | H : _ = false |- _ => clear H
         | H : _ = true |- _ => clear H
         end;
  apply andb_true_iff; split;
    [apply andb_true_iff; split; apply Z.leb_le | apply Z.eqb_eq];
  cbn [length]; lia.

(** X10.  The parse handlers keep within the arrays of the IE
    structures: for an IE of a received buffer that is not empty, a
    structure that [dect_parse_sfmt_ie] returns holds a length that
    is not above the size of its array, and as many octets as its
    length says; the value of <<RAND>> and <<RS>> has 8 octets and
    that of <<RES>> 4. *)
Theorem parsed_ie_in_bounds (dh : dect_handle) (t : Z) (mb : dect_msg_buf)
  (ie : dect_sfmt_ie) (v : dect_ie_common) :
  octets (mb_data mb) = true ->
  dect_parse_sfmt_ie_header mb = Some ie ->
  is_empty_ie ie = false ->
  1 <= display_info_size X -> 1 <= keypad_info_size X ->
  dect_parse_sfmt_ie dh t ie = (0, Some (Some v)) ->
  in_bounds v = true.
Proof.
  intros Ho Hh Hne Hd Hk.
  assert (Hlen : is_fixed_len (ie_id ie) = false -> 3 <= ie_len ie).
  { intros Hvl. destruct (header_shape mb ie Ho Hh) as (_ & _ & Hs).
    rewrite Hvl in Hs. destruct Hs as [_ Hs].
    unfold is_empty_ie in Hne. rewrite Hvl in Hne. simpl in Hne.
    apply Z.eqb_neq in Hne.
    pose proof (rd_octet (mb_data mb) 1 Ho). lia. }
  unfold dect_parse_sfmt_ie. cbv zeta. unfold dect_ie_handlers.
  repeat (match goal with
          | |- context [ieh_parse (if ?c then _ else _)] => destruct c eqn:?
          end; cbv iota).
  all: bounds_leaf.
  all: bounds_array Hlen.
Qed.

(** ** Further properties of Call Control *)

Lemma closings_app (a b : list event) :
  closings (a ++ b) = (closings a + closings b)%nat.
Proof. unfold closings. now rewrite filter_app, length_app. Qed.

Lemma dect_lce_send_closings (dh : dect_handle) (desc : dect_sfmt_msg_desc)
  (msg : dect_msg_common) (t err : Z) (sent : list event) :
  dect_lce_send dh desc msg t = Some (err, sent) ->
  closings sent = 0%nat /\ (sent = [] \/ exists octets, sent = [Sent t octets]).
Proof.
  intros H. apply dect_lce_send_out in H as [[_ ->] | [_ [octets ->]]].
  - split; [reflexivity | now left].
  - split; [reflexivity | right; now exists octets].
Qed.

(** X11.  A message of an open CC transaction that the codec rejects
    is dropped: whatever its type, [dect_cc_rcv] leaves the call as it
    was and delivers nothing; so does a message of a type the switch
    of [dect_cc_rcv] does not know. *)
Theorem invalid_message_is_dropped (dh : dect_handle) (call : dect_call)
  (mb : dect_msg_buf) (out : list event) :
  (forall desc, cc_msg_desc (mb_type mb) = Some desc ->
     p_err (dect_parse_sfmt_msg dh desc mb) < 0 ->
     dect_cc_rcv dh call mb out = {| w_call := Some call; w_out := out |}) /\
  (cc_msg_desc (mb_type mb) = None ->
   dect_cc_rcv dh call mb out = {| w_call := Some call; w_out := out |}).
Proof.
  unfold cc_msg_desc, dect_cc_rcv. cbv zeta.
  split.
  - intros desc.
    repeat (destruct (mb_type mb =? _);
            [intros [= <-] H;
             unfold dect_cc_rcv_alerting, dect_cc_rcv_call_proc,
               dect_cc_rcv_connect, dect_cc_rcv_setup_ack,
               dect_cc_rcv_connect_ack, dect_cc_rcv_service_change,
               dect_cc_rcv_service_accept, dect_cc_rcv_service_reject,
               dect_cc_rcv_release, dect_cc_rcv_release_com,
               dect_cc_rcv_iwu_info, dect_cc_rcv_notify, dect_cc_rcv_info,
               rcv_only_parse; cbv zeta;
             match goal with
             | H : p_err ?r < 0 |- _ =>
               destruct (Z.ltb_spec (p_err r) 0); [reflexivity | lia]
             end |]).
    discriminate.
  - repeat (destruct (mb_type mb =? _); [discriminate|]). reflexivity.
Qed.


(** X13.  MNCC_RELEASE-res, MNCC_REJECT-req and the shutdown of the
    transaction end the call: each closes the transaction once, with
    the release mode NORMAL, and destroys the call.  The two
    primitives return 0 whether or not CC-RELEASE-COM could be built:
    when the build fails nothing is sent, and the transaction is
    closed all the same; the shutdown delivers MNCC_REJECT-ind with a
    [NULL] parameter first. *)
Theorem release_closes_once (dh : dect_handle) (call : dect_call)
  (msg : dect_msg_common) (out : list event) (e : Z) (mb' : dect_msg_buf) :
  dect_build_sfmt_msg dh cc_release_com_msg_desc msg
    {| mb_data := []; mb_tail := []; mb_type := CC_RELEASE_COM |} =
  Some (e, mb') ->
  let sent := if e <? 0 then [] else [Sent CC_RELEASE_COM (mb_data mb')] in
  let w := {| w_call := None;
              w_out := out ++ sent ++ [Closed DECT_DDL_RELEASE_NORMAL] |} in
  dect_mncc_release_res dh call msg out = Some (0, w) /\
  dect_mncc_reject_req dh call msg out = Some (0, w) /\
  closings (w_out w) = S (closings out) /\
  dect_cc_shutdown dh call out =
  {| w_call := None;
     w_out := out ++ [MNCC_REJECT_ind None; Closed DECT_DDL_RELEASE_NORMAL] |}.
Proof.
  intros Hb sent w.
  assert (Hs : dect_lce_send dh cc_release_com_msg_desc msg CC_RELEASE_COM =
               Some (if e <? 0 then -1 else 0, sent)).
  { unfold dect_lce_send. rewrite Hb. unfold sent. now destruct (e <? 0). }
  split; [|split; [|split]].
  - unfold dect_mncc_release_res. rewrite Hs. unfold close_and_destroy, w.
    now rewrite <- app_assoc.
  - unfold dect_mncc_reject_req. rewrite Hs. unfold close_and_destroy, w.
    now rewrite <- app_assoc.
  - unfold w. cbn [w_out]. rewrite !closings_app.
    destruct (dect_lce_send_closings dh _ msg _ _ sent Hs) as [Hc _].
    rewrite Hc. change (closings [Closed DECT_DDL_RELEASE_NORMAL]) with 1%nat.
    lia.
  - unfold dect_cc_shutdown, close_and_destroy. now rewrite <- app_assoc.
Qed.

(** X14.  MNCC_RELEASE-req, MNCC_CONNECT-req and MNCC_INFO-req do not
    look at the result of the send: each returns 0 also when its
    message could not be built, in which case nothing is sent.
    MNCC_RELEASE-req puts the call in RELEASE PENDING and leaves the
    transaction, the timer and the U-plane as they were;
    MNCC_CONNECT-req leaves the state of the call as it was, and the
    call holds the U-plane socket if and only if the kernel granted
    it; MNCC_INFO-req leaves the call as it was. *)
Theorem requests_ignore_send_result (dh : dect_handle) (call : dect_call)
  (msg : dect_msg_common) :
  (forall e mb',
     dect_build_sfmt_msg dh cc_release_msg_desc msg
       {| mb_data := []; mb_tail := []; mb_type := CC_RELEASE |} =
     Some (e, mb') ->
     exists call',
       dect_mncc_release_req dh call msg =
       Some (0, call',
             if e <? 0 then [] else [Sent CC_RELEASE (mb_data mb')]) /\
       state call' = DECT_CC_RELEASE_PENDING /\
       transaction call' = transaction call /\
       setup_timer call' = setup_timer call /\ lu_sap call' = lu_sap call) /\
  (forall sock e mb',
     dect_build_sfmt_msg dh cc_connect_msg_desc msg
       {| mb_data := []; mb_tail := []; mb_type := CC_CONNECT |} =
     Some (e, mb') ->
     exists call',
       dect_mncc_connect_req dh call sock msg =
       Some (0, call',
             if e <? 0 then [] else [Sent CC_CONNECT (mb_data mb')]) /\
       state call' = state call /\
       transaction call' = transaction call /\
       lu_sap call' = (if sock then Some tt else None)) /\
  (forall e mb',
     dect_build_sfmt_msg dh cc_info_msg_desc msg
       {| mb_data := []; mb_tail := []; mb_type := CC_INFO |} =
     Some (e, mb') ->
     dect_mncc_info_req dh call msg =
     Some (0, call, if e <? 0 then [] else [Sent CC_INFO (mb_data mb')])).
Proof.
  split; [|split].
  - intros e mb' Hb. unfold dect_mncc_release_req, dect_lce_send. rewrite Hb.
    eexists. split; [now destruct (e <? 0)|]. now repeat split.
  - intros sock e mb' Hb. unfold dect_mncc_connect_req, dect_lce_send.
    rewrite Hb. eexists. split; [now destruct (e <? 0)|].
    unfold dect_call_connect_uplane. destruct sock; now repeat split.
  - intros e mb' Hb. unfold dect_mncc_info_req, dect_lce_send. rewrite Hb.
    now destruct (e <? 0).
Qed.

End Libdect.

Arguments p_err {X}.
Arguments p_msg {X}.
Arguments p_mb {X}.
Arguments w_call {X}.
Arguments w_out {X}.
Arguments Member {X}.
Arguments MemberList {X}.
Arguments Sent {X}.
Arguments Closed {X}.
Arguments MNCC_REJECT_ind {X}.
Arguments MNCC_CONNECT_ind {X}.

(** * The statements on samples

    The theorems above hold for every choice of the externals; here
    they are applied to [sample_externals] and to messages of Call
    Control and Mobility Management. *)




(** A <<SINGLE-DISPLAY>> in a <<CC-INFO>> the FP receives: the entry
    of the IE is NONE from the PP to the FP, and the message is
    rejected. *)
Lemma direction_policing_witness :
  octets [0xe8; 0x41] = true /\
  p_err (dect_parse_sfmt_msg sample_externals fp cc_info_msg_desc
           (mbuf_of [0xe8; 0x41])) < 0.
Proof.
  split; [reflexivity|].
  destruct (direction_policing sample_externals fp cc_info_msg_desc
              (mbuf_of [0xe8; 0x41]) eq_refl) as (_ & H & _).
  destruct (H (firstn 6 cc_info_msg_desc)
              (DECT_SFMT_IE DECT_IE_SINGLE_DISPLAY DECT_SFMT_IE_OPTIONAL
                            DECT_SFMT_IE_NONE 0)
              (skipn 7 cc_info_msg_desc)
              {| ie_id := 0xe8; ie_len := 2; ie_data := [0xe8; 0x41] |}
              eq_refl eq_refl eq_refl eq_refl) as [Hnone _].
  exact (Hnone eq_refl eq_refl).
Defined.

(** A <<SINGLE-DISPLAY>> behind a <<SINGLE-KEYPAD>> in a <<CC-INFO>>
    the FP receives: the table has an entry of the identifier of the
    IE whose status from the PP to the FP is NONE, the seventh, but
    the cursor is past it when the IE comes, and the message is
    accepted. *)
Lemma direction_policing_counterexample :
  ie_ids (mbuf_of [0xe9; 0x35; 0xe8; 0x41]) =
    [DECT_IE_SINGLE_KEYPAD; DECT_IE_SINGLE_DISPLAY] /\
  nth_error cc_info_msg_desc 6 =
    Some (DECT_SFMT_IE DECT_IE_SINGLE_DISPLAY DECT_SFMT_IE_OPTIONAL
                       DECT_SFMT_IE_NONE 0) /\
  dect_rx_status fp (DECT_SFMT_IE DECT_IE_SINGLE_DISPLAY DECT_SFMT_IE_OPTIONAL
                                  DECT_SFMT_IE_NONE 0) = DECT_SFMT_IE_NONE /\
  p_err (dect_parse_sfmt_msg sample_externals fp cc_info_msg_desc
           (mbuf_of [0xe9; 0x35; 0xe8; 0x41])) = DECT_SFMT_OK.
Proof. repeat split; vm_compute; reflexivity. Qed.

(** A <<MULTI-KEYPAD>> of 65 digits, one more than the structure
    holds, in a <<CC-INFO>> the PP receives: the parse handler fails,
    the entry is OPTIONAL, and the parse goes on behind the IE as if
    it were absent.  Behind a <<SINGLE-DISPLAY>>, the message is
    delivered as MNCC_INFO-ind with the display and without keypad.
    A <<REPEAT-INDICATOR>> of list type 3 in a <<CC-INFO>> the FP
    receives: the handler rejects the type, the entry is OPTIONAL, the
    list has no element and the type 3, and the parse goes on. *)
Lemma corrupt_ie_policy_witness :
  dect_parse_sfmt_msg sample_externals pp cc_info_msg_desc
    (mbuf_of ([0x2c; 65] ++ repeat 0x31 65)) =
  with_members sample_externals
    (passed sample_externals (firstn 7 cc_info_msg_desc) ++ [Member None])
    (dect_parse_sfmt_msg sample_externals pp (skipn 8 cc_info_msg_desc)
       (mbuf_of [])) /\
  dect_parse_sfmt_msg sample_externals fp cc_info_msg_desc (mbuf_of [0xd3]) =
  with_members sample_externals
    (passed sample_externals (firstn 2 cc_info_msg_desc) ++
     [MemberList {| il_type := 3; il_list := [] |}])
    (dect_parse_sfmt_msg sample_externals fp (skipn 3 cc_info_msg_desc)
       (mbuf_of [])) /\
  dect_cc_rcv_info sample_externals pp
    {| state := DECT_CC_ACTIVE; transaction := DECT_TRANSACTION_OPEN;
       setup_timer := None; lu_sap := None |}
    {| mb_data := [0xe8; 0x41] ++ [0x2c; 65] ++ repeat 0x31 65;
       mb_tail := []; mb_type := CC_INFO |} [] =
  {| w_call := Some {| state := DECT_CC_ACTIVE;
                       transaction := DECT_TRANSACTION_OPEN;
                       setup_timer := None; lu_sap := None |};
     w_out :=
       [MNCC_INFO_ind sample_externals
          (members sample_externals
             [0; 1; 2; 3; 4; 5; 6; 7; 8; 9; 12; 13; 11; 18; 14; 16; 17]%nat
             (passed sample_externals (firstn 6 cc_info_msg_desc) ++
              Member (Some (IE_display sample_externals
                              {| display_len := 1; display_info := [0x41] |})) ::
              passed sample_externals (skipn 7 cc_info_msg_desc)))] |}.
Proof.
  split.
  - destruct (corrupt_ie_policy sample_externals pp
                (firstn 7 cc_info_msg_desc)
                (DECT_SFMT_IE DECT_IE_SINGLE_KEYPAD DECT_SFMT_IE_OPTIONAL
                              DECT_SFMT_IE_OPTIONAL 0)
                (skipn 8 cc_info_msg_desc)
                (mbuf_of ([0x2c; 65] ++ repeat 0x31 65))
                {| ie_id := 0x2c; ie_len := 67;
                   ie_data := [0x2c; 65] ++ repeat 0x31 65 |}
                eq_refl eq_refl eq_refl eq_refl eq_refl eq_refl) as [_ Hopt].
    exact (proj1 (Hopt eq_refl)).
  - split; [|vm_compute; reflexivity].
    destruct (corrupt_ie_policy sample_externals fp
                (firstn 2 cc_info_msg_desc)
                (DECT_SFMT_IE DECT_IE_REPEAT_INDICATOR DECT_SFMT_IE_OPTIONAL
                              DECT_SFMT_IE_OPTIONAL 0)
                (skipn 3 cc_info_msg_desc)
                (mbuf_of [0xd3])
                {| ie_id := 0xd0; ie_len := 1; ie_data := [0xd3] |}
                eq_refl eq_refl eq_refl eq_refl eq_refl eq_refl) as [_ Hopt].
    exact (proj1 (Hopt eq_refl)).
Defined.



(** A CC-CONNECT without IEs received by the FP for a call in CALL
    PRESENT: the timer is gone, MNCC_CONNECT-ind is delivered, and the
    call has no U-plane socket.  The application answers with a
    display, the kernel grants the socket: CC-CONNECT-ACK leaves with
    the display, the call holds the socket and is ACTIVE. *)
Lemma connect_in_call_present_witness :
  exists call',
    w_call (cc_step sample_externals fp
              {| w_call :=
                   Some {| state := DECT_CC_CALL_PRESENT;
                           transaction := DECT_TRANSACTION_OPEN;
                           setup_timer := Some {| t_armed := true |};
                           lu_sap := None |};
                 w_out := [] |}
              (Rcv {| mb_data := []; mb_tail := []; mb_type := CC_CONNECT |})) =
      Some call' /\
    setup_timer call' = None /\
    lu_sap call' = None /\
    w_out (cc_step sample_externals fp
             {| w_call :=
                  Some {| state := DECT_CC_CALL_PRESENT;
                          transaction := DECT_TRANSACTION_OPEN;
                          setup_timer := Some {| t_armed := true |};
                          lu_sap := None |};
                w_out := [] |}
             (Rcv {| mb_data := []; mb_tail := []; mb_type := CC_CONNECT |})) =
      [MNCC_CONNECT_ind
         (members sample_externals [4; 5; 6; 7; 8; 11; 12; 13; 15; 16]%nat
            (p_msg (dect_parse_sfmt_msg sample_externals fp cc_connect_msg_desc
                      {| mb_data := []; mb_tail := [];
                         mb_type := CC_CONNECT |})))] /\
    exists call'',
      dect_mncc_connect_res sample_externals fp call' true
        [Member (Some (IE_display sample_externals
                         {| display_len := 1; display_info := [0x41] |}));
         Member None; MemberList {| il_type := 0; il_list := [] |};
         Member None; Member None] =
      Some (0, call'', [Sent CC_CONNECT_ACK [0xe8; 0x41]]) /\
      state call'' = DECT_CC_ACTIVE /\
      lu_sap call'' = Some tt.
Proof.
  assert (Hok : 0 <= p_err (dect_parse_sfmt_msg sample_externals fp
                              cc_connect_msg_desc
                              {| mb_data := []; mb_tail := [];
                                 mb_type := CC_CONNECT |}))
    by (vm_compute; discriminate).
  destruct (connect_in_call_present sample_externals fp
              {| state := DECT_CC_CALL_PRESENT;
                 transaction := DECT_TRANSACTION_OPEN;
                 setup_timer := Some {| t_armed := true |};
                 lu_sap := None |}
              {| mb_data := []; mb_tail := []; mb_type := CC_CONNECT |} []
              eq_refl eq_refl Hok)
    as (call' & Hcall & Htimer & _ & Hout & _ & Hlu & Hres).
  exists call'. split; [exact Hcall|]. split; [exact Htimer|].
  split; [exact Hlu|]. split; [exact (Hout eq_refl)|].
  assert (Herr : 0 <= 0) by lia.
  destruct (Hres [Member (Some (IE_display sample_externals
                                  {| display_len := 1;
                                     display_info := [0x41] |}));
                  Member None; MemberList {| il_type := 0; il_list := [] |};
                  Member None; Member None]
              0
              {| mb_data := [0xe8; 0x41]; mb_tail := [];
                 mb_type := CC_CONNECT_ACK |}
              eq_refl Herr) as (call'' & Hsent & Hstate & Hsap & _).
  exists call''. split; [exact Hsent|]. split; [exact Hstate | exact Hsap].
Defined.

(** The call that received CC-CONNECT in CALL PRESENT is neither in
    ACTIVE on the FP nor in CONNECT PENDING on the PP, and has no
    U-plane socket: it is where it was. *)
Lemma connect_in_call_present_counterexample :
  option_map (fun call => (state call, lu_sap call))
    (w_call (cc_step sample_externals fp
               {| w_call :=
                    Some {| state := DECT_CC_CALL_PRESENT;
                            transaction := DECT_TRANSACTION_OPEN;
                            setup_timer := Some {| t_armed := true |};
                            lu_sap := None |};
                  w_out := [] |}
               (Rcv {| mb_data := []; mb_tail := []; mb_type := CC_CONNECT |}))) =
    Some (DECT_CC_CALL_PRESENT, None) /\
  option_map (fun call => (state call, lu_sap call))
    (w_call (cc_step sample_externals pp
               {| w_call :=
                    Some {| state := DECT_CC_CALL_PRESENT;
                            transaction := DECT_TRANSACTION_OPEN;
                            setup_timer := Some {| t_armed := true |};
                            lu_sap := None |};
                  w_out := [] |}
               (Rcv {| mb_data := []; mb_tail := []; mb_type := CC_CONNECT |}))) =
    Some (DECT_CC_CALL_PRESENT, None).
Proof. split; vm_compute; reflexivity. Qed.

(** LOCATE-ACCEPT for a portable identity and a location area: the
    message is sent and the transaction is as it was, open. *)
Lemma locate_res_keeps_transaction_witness :
  dect_mm_locate_res sample_externals fp
    {| mm_transaction := DECT_TRANSACTION_OPEN |}
    {| portable_identity := Some (IE_other sample_externals [0x80; 0x11]);
       location_area :=
         Some (IE_location_area sample_externals
                 {| la_type := 1; la_level := 36 |});
       nwk_assigned_identity := None; duration := None; iwu_to_iwu := None;
       model_identifier := None; reject_reason := None |} =
  Some (0, {| mm_transaction := DECT_TRANSACTION_OPEN |},
        [Sent DECT_MM_LOCATE_ACCEPT [5; 2; 128; 17; 7; 1; 100]]) /\
  filter (is_closed sample_externals)
    [Sent DECT_MM_LOCATE_ACCEPT [5; 2; 128; 17; 7; 1; 100]] = [].
Proof.
  assert (H : dect_mm_locate_res sample_externals fp
    {| mm_transaction := DECT_TRANSACTION_OPEN |}
    {| portable_identity := Some (IE_other sample_externals [0x80; 0x11]);
       location_area :=
         Some (IE_location_area sample_externals
                 {| la_type := 1; la_level := 36 |});
       nwk_assigned_identity := None; duration := None; iwu_to_iwu := None;
       model_identifier := None; reject_reason := None |} =
    Some (0, {| mm_transaction := DECT_TRANSACTION_OPEN |},
          [Sent DECT_MM_LOCATE_ACCEPT [5; 2; 128; 17; 7; 1; 100]]))
    by (vm_compute; reflexivity).
  split; [exact H|].
  exact (proj1 (proj2 (proj1 (locate_res_keeps_transaction sample_externals fp
                                _ _) _ _ _ H))).
Defined.

(** The <<REPEAT-INDICATOR>> entry and the entry of the repeated
    <<IWU-TO-IWU>> of <<CC-CONNECT-ACK>>.  For a list of the type
    NORMAL with two elements the FP builds the octet 0xd1 and the two
    elements behind it.  The PP that receives these octets returns OK
    with the list empty and the second element still in the buffer;
    the FP that receives one element without indicator returns OK
    with the buffer read to its end and the list empty.  In a
    <<CC-SETUP>> with the IEs it requires, the indicator and two
    <<IWU-TO-IWU>>, the FP returns OK with every list empty and the
    second element still in the buffer. *)
Lemma repeat_indicator_framing_witness :
  (exists mb1 chunks mb2 tl,
     mb_data mb1 = [0xd1] /\
     built_in_order sample_externals fp
       (DECT_SFMT_IE DECT_IE_IWU_TO_IWU DECT_SFMT_IE_OPTIONAL
                     DECT_SFMT_IE_OPTIONAL DECT_SFMT_IE_REPEAT)
       mb1
       [IE_iwu_to_iwu sample_externals
          {| iwu_sr := 0; iwu_pd := 1; iwu_len := 1; iwu_data := [0x41] |};
        IE_iwu_to_iwu sample_externals
          {| iwu_sr := 0; iwu_pd := 1; iwu_len := 1; iwu_data := [0x42] |}]
       chunks mb2 /\
     dect_build_sfmt_msg sample_externals fp (skipn 4 cc_connect_ack_msg_desc)
       [Member None; Member None] mb2 =
     Some (DECT_SFMT_OK,
           mbuf_of [0xd1; 0x77; 0x02; 0x81; 0x41; 0x77; 0x02; 0x81; 0x42]) /\
     [0xd1; 0x77; 0x02; 0x81; 0x41; 0x77; 0x02; 0x81; 0x42] =
     [0xd1] ++ concat chunks ++ tl) /\
  dect_parse_sfmt_msg sample_externals pp cc_connect_ack_msg_desc
    (mbuf_of [0xd1; 0x77; 0x02; 0x81; 0x41; 0x77; 0x02; 0x81; 0x42]) =
  {| p_err := DECT_SFMT_OK;
     p_msg := [Member None; Member None;
               MemberList {| il_type := DECT_IE_LIST_NORMAL; il_list := [] |};
               Member None; Member None];
     p_mb := mbuf_of [0x77; 0x02; 0x81; 0x42] |} /\
  dect_parse_sfmt_msg sample_externals fp cc_connect_ack_msg_desc
    (mbuf_of [0x77; 0x02; 0x81; 0x41]) =
  with_members sample_externals
    [Member None; Member None; MemberList (dect_ie_list_init sample_externals)]
    (dect_parse_sfmt_msg sample_externals fp (skipn 4 cc_connect_ack_msg_desc)
       (mbuf_of [])) /\
  p_err (dect_parse_sfmt_msg sample_externals fp cc_setup_msg_desc
           (mbuf_of [0x05; 0x02; 0x80; 0x11; 0x06; 0x02; 0xa0; 0x33;
                     0xe0; 0x80; 0xd1; 0x77; 0x02; 0x81; 0x41;
                     0x77; 0x02; 0x81; 0x42])) = DECT_SFMT_OK /\
  lists_empty sample_externals
    (p_msg (dect_parse_sfmt_msg sample_externals fp cc_setup_msg_desc
              (mbuf_of [0x05; 0x02; 0x80; 0x11; 0x06; 0x02; 0xa0; 0x33;
                        0xe0; 0x80; 0xd1; 0x77; 0x02; 0x81; 0x41;
                        0x77; 0x02; 0x81; 0x42]))) = true /\
  mb_data
    (p_mb (dect_parse_sfmt_msg sample_externals fp cc_setup_msg_desc
             (mbuf_of [0x05; 0x02; 0x80; 0x11; 0x06; 0x02; 0xa0; 0x33;
                       0xe0; 0x80; 0xd1; 0x77; 0x02; 0x81; 0x41;
                       0x77; 0x02; 0x81; 0x42]))) =
  [0x77; 0x02; 0x81; 0x42].
Proof.
  assert (Htr : DECT_IE_IWU_TO_IWU <> DECT_IE_REPEAT_INDICATOR) by discriminate.
  assert (Hlen : 0 < 9) by lia.
  assert (Hlen1 : 0 < 8) by lia.
  assert (Hlen2 : 0 < 4) by lia.
  destruct (repeat_indicator_framing sample_externals fp
              (DECT_SFMT_IE DECT_IE_REPEAT_INDICATOR DECT_SFMT_IE_OPTIONAL
                            DECT_SFMT_IE_OPTIONAL 0)
              (DECT_SFMT_IE DECT_IE_IWU_TO_IWU DECT_SFMT_IE_OPTIONAL
                            DECT_SFMT_IE_OPTIONAL DECT_SFMT_IE_REPEAT)
              eq_refl Htr eq_refl) as (Hbuild & _ & Hempty & Hone & _).
  destruct (repeat_indicator_framing sample_externals pp
              (DECT_SFMT_IE DECT_IE_REPEAT_INDICATOR DECT_SFMT_IE_OPTIONAL
                            DECT_SFMT_IE_OPTIONAL 0)
              (DECT_SFMT_IE DECT_IE_IWU_TO_IWU DECT_SFMT_IE_OPTIONAL
                            DECT_SFMT_IE_OPTIONAL DECT_SFMT_IE_REPEAT)
              eq_refl Htr eq_refl) as (_ & _ & _ & _ & Htwo).
  split; [|split; [|split; [|split; [reflexivity|split; [|reflexivity]]]]].
  - exact (Hbuild (skipn 4 cc_connect_ack_msg_desc)
             {| il_type := DECT_IE_LIST_NORMAL;
                il_list :=
                  [IE_iwu_to_iwu sample_externals
                     {| iwu_sr := 0; iwu_pd := 1; iwu_len := 1;
                        iwu_data := [0x41] |};
                   IE_iwu_to_iwu sample_externals
                     {| iwu_sr := 0; iwu_pd := 1; iwu_len := 1;
                        iwu_data := [0x42] |}] |}
             [Member None; Member None] (mbuf_of [])
             (mbuf_of [0xd1; 0x77; 0x02; 0x81; 0x41; 0x77; 0x02; 0x81; 0x42])
             eq_refl).
  - exact (Htwo (firstn 2 cc_connect_ack_msg_desc)
             (skipn 4 cc_connect_ack_msg_desc)
             (mbuf_of [0xd1; 0x77; 0x02; 0x81; 0x41; 0x77; 0x02; 0x81; 0x42])
             {| ie_id := 0xd0; ie_len := 1;
                ie_data := [0xd1; 0x77; 0x02; 0x81; 0x41;
                            0x77; 0x02; 0x81; 0x42] |}
             {| ie_id := 0x77; ie_len := 4;
                ie_data := [0x77; 0x02; 0x81; 0x41; 0x77; 0x02; 0x81; 0x42] |}
             {| ie_id := 0x77; ie_len := 4;
                ie_data := [0x77; 0x02; 0x81; 0x42] |}
             eq_refl eq_refl eq_refl eq_refl Hlen eq_refl eq_refl
             Hlen1 eq_refl eq_refl Hlen2 eq_refl eq_refl).
  - exact (Hone (firstn 2 cc_connect_ack_msg_desc)
             (skipn 4 cc_connect_ack_msg_desc)
             (mbuf_of [0x77; 0x02; 0x81; 0x41])
             {| ie_id := 0x77; ie_len := 4;
                ie_data := [0x77; 0x02; 0x81; 0x41] |}
             eq_refl eq_refl Hlen2 eq_refl eq_refl).
  - exact (Hempty cc_setup_msg_desc _).
Defined.

(** An empty <<MULTI-KEYPAD>> before a <<SENDING-COMPLETE>> in a
    <<CC-INFO>> the FP receives: the member of the keypad stays
    [NULL] and the parse goes on with the <<SENDING-COMPLETE>>.  An
    empty <<FEATURE-INDICATE>>, which the table bars from the PP to
    the FP, is rejected; an empty <<INFO-TYPE>>, which the table does
    not hold, ends the parse and stays in the buffer. *)
Lemma empty_ie_is_absent_witness :
  dect_parse_sfmt_msg sample_externals fp cc_info_msg_desc
    (mbuf_of [0x2c; 0; 0xa1]) =
  with_members sample_externals
    (passed sample_externals (firstn 7 cc_info_msg_desc) ++ [Member None])
    (dect_parse_sfmt_msg sample_externals fp (skipn 8 cc_info_msg_desc)
       (mbuf_of [0xa1])) /\
  p_err (dect_parse_sfmt_msg sample_externals fp cc_info_msg_desc
           (mbuf_of [0x39; 0; 0xa1])) = -1 /\
  dect_parse_sfmt_msg sample_externals fp cc_info_msg_desc
    (mbuf_of [0x05; 0; 0xa1]) =
  {| p_err := DECT_SFMT_OK; p_msg := passed sample_externals cc_info_msg_desc;
     p_mb := mbuf_of [0x05; 0; 0xa1] |}.
Proof.
  assert (Hk : 0 <= 0x2c < 0x80) by lia.
  assert (Hf : 0 <= 0x39 < 0x80) by lia.
  assert (Hi : 0 <= 0x05 < 0x80) by lia.
  split; [|split].
  - exact (proj1 (empty_ie_is_absent sample_externals fp
                    (firstn 7 cc_info_msg_desc)
                    (DECT_SFMT_IE DECT_IE_SINGLE_KEYPAD DECT_SFMT_IE_OPTIONAL
                                  DECT_SFMT_IE_OPTIONAL 0)
                    (skipn 8 cc_info_msg_desc)
                    (mbuf_of [0x2c; 0; 0xa1]) 0x2c [0xa1]
                    Hk eq_refl eq_refl) eq_refl).
  - exact (proj1 (proj2 (empty_ie_is_absent sample_externals fp
                    (firstn 10 cc_info_msg_desc)
                    (DECT_SFMT_IE DECT_IE_FEATURE_INDICATE DECT_SFMT_IE_OPTIONAL
                                  DECT_SFMT_IE_NONE 0)
                    (skipn 11 cc_info_msg_desc)
                    (mbuf_of [0x39; 0; 0xa1]) 0x39 [0xa1]
                    Hf eq_refl eq_refl)) (-1) eq_refl).
  - exact (proj2 (proj2 (empty_ie_is_absent sample_externals fp
                    cc_info_msg_desc
                    (DECT_SFMT_IE DECT_IE_SENDING_COMPLETE DECT_SFMT_IE_OPTIONAL
                                  DECT_SFMT_IE_OPTIONAL 0)
                    []
                    (mbuf_of [0x05; 0; 0xa1]) 0x05 [0xa1]
                    Hi eq_refl eq_refl))).
Defined.

(** An empty <<FEATURE-INDICATE>> before a <<SENDING-COMPLETE>> in a
    <<CC-INFO>> the FP receives is not treated as absent: the message
    is rejected, whereas the <<SENDING-COMPLETE>> alone is accepted
    and parsed.  An empty <<INFO-TYPE>> in its place is not passed
    either: the parse ends at it and the <<SENDING-COMPLETE>> behind
    it is not read. *)
Lemma empty_ie_counterexample :
  p_err (dect_parse_sfmt_msg sample_externals fp cc_info_msg_desc
           (mbuf_of [0x39; 0; 0xa1])) = -1 /\
  present sample_externals
    (p_msg (dect_parse_sfmt_msg sample_externals fp cc_info_msg_desc
              (mbuf_of [0x05; 0; 0xa1]))) = [] /\
  mb_data (p_mb (dect_parse_sfmt_msg sample_externals fp cc_info_msg_desc
                   (mbuf_of [0x05; 0; 0xa1]))) = [0x05; 0; 0xa1] /\
  p_err (dect_parse_sfmt_msg sample_externals fp cc_info_msg_desc
           (mbuf_of [0xa1])) = DECT_SFMT_OK /\
  present sample_externals
    (p_msg (dect_parse_sfmt_msg sample_externals fp cc_info_msg_desc
              (mbuf_of [0xa1]))) = [IE_empty sample_externals] /\
  mb_data (p_mb (dect_parse_sfmt_msg sample_externals fp cc_info_msg_desc
                   (mbuf_of [0xa1]))) = [].
Proof. repeat split; vm_compute; reflexivity. Qed.

(** A display of two characters built for a <<SINGLE-DISPLAY>> slot
    leaves as <<MULTI-DISPLAY>>. *)
Lemma single_slot_emits_multi_witness :
  exists mb',
    dect_build_sfmt_ie sample_externals fp DECT_IE_SINGLE_DISPLAY (mbuf_of [])
      (IE_display sample_externals
         {| display_len := 2; display_info := [0x41; 0x42] |}) =
      Some (DECT_SFMT_OK, mb') /\
    mb_data mb' = [DECT_IE_MULTI_DISPLAY; 2; 0x41; 0x42].
Proof.
  assert (Hlen : 1 < 2) by lia.
  exact (proj1 (single_slot_emits_multi sample_externals fp (mbuf_of []))
           {| display_len := 2; display_info := [0x41; 0x42] |} Hlen).
Defined.

(** A display without characters built as <<MULTI-DISPLAY>>: the
    handler leaves the two octets of the header, and nothing is
    appended. *)
Lemma empty_payload_appends_nothing_witness :
  exists mb',
    dect_build_sfmt_ie sample_externals fp DECT_IE_MULTI_DISPLAY
      (mbuf_of [0x7b])
      (IE_display sample_externals
         {| display_len := 0; display_info := [] |}) =
      Some (DECT_SFMT_OK, mb') /\
    mb_data mb' = [0x7b].
Proof.
  destruct (empty_payload_appends_nothing sample_externals fp
              DECT_IE_MULTI_DISPLAY (mbuf_of [0x7b])
              (IE_display sample_externals
                 {| display_len := 0; display_info := [] |})
              (dect_sfmt_build_multi_display sample_externals)
              {| ie_id := 0; ie_len := 2; ie_data := [] |}
              eq_refl eq_refl eq_refl eq_refl) as (mb' & Hb & Hd & _).
  exists mb'. split; [exact Hb | exact Hd].
Defined.

(** A <<MULTI-KEYPAD>> of two digits at the front of a buffer: the
    header gives the IE its four octets. *)
Lemma header_in_buffer_witness :
  1 <= 4 <= mb_len (mbuf_of [0x2c; 0x02; 0x35; 0x36; 0xa1]) /\
  [0x2c; 0x02; 0x35; 0x36; 0xa1] = mb_mem (mbuf_of [0x2c; 0x02; 0x35; 0x36; 0xa1]) /\
  0x2c = rd [0x2c; 0x02; 0x35; 0x36; 0xa1] 0 /\
  4 = rd [0x2c; 0x02; 0x35; 0x36; 0xa1] 1 + 2.
Proof.
  exact (header_in_buffer (mbuf_of [0x2c; 0x02; 0x35; 0x36; 0xa1])
           {| ie_id := 0x2c; ie_len := 4;
              ie_data := [0x2c; 0x02; 0x35; 0x36; 0xa1] |}
           eq_refl eq_refl).
Defined.

(** A <<CC-CONNECT-ACK>> with a display, built by the FP behind the
    two octets of the message header. *)
Lemma build_only_appends_witness :
  dect_build_sfmt_msg sample_externals fp cc_connect_ack_msg_desc
    [Member (Some (IE_display sample_externals
                     {| display_len := 1; display_info := [0x41] |}));
     Member None; MemberList {| il_type := 0; il_list := [] |};
     Member None; Member None]
    {| mb_data := [0x03; 0x0f]; mb_tail := []; mb_type := CC_CONNECT_ACK |} =
  Some (DECT_SFMT_OK,
        {| mb_data := [0x03; 0x0f; 0xe8; 0x41]; mb_tail := [];
           mb_type := CC_CONNECT_ACK |}) /\
  (exists tl, [0x03; 0x0f; 0xe8; 0x41] = [0x03; 0x0f] ++ tl) /\
  CC_CONNECT_ACK = CC_CONNECT_ACK.
Proof.
  split; [reflexivity|].
  exact (build_only_appends sample_externals fp cc_connect_ack_msg_desc
           [Member (Some (IE_display sample_externals
                            {| display_len := 1; display_info := [0x41] |}));
            Member None; MemberList {| il_type := 0; il_list := [] |};
            Member None; Member None]
           {| mb_data := [0x03; 0x0f]; mb_tail := []; mb_type := CC_CONNECT_ACK |}
           0
           {| mb_data := [0x03; 0x0f; 0xe8; 0x41]; mb_tail := [];
              mb_type := CC_CONNECT_ACK |}
           eq_refl).
Defined.

(** A <<FEATURE-INDICATE>> in a <<CC-INFO>> the FP builds: nothing is
    written for it. *)
Lemma parse_only_ie_is_skipped_witness :
  dect_build_sfmt_msg sample_externals fp (skipn 10 cc_info_msg_desc)
    (Member (Some (IE_empty sample_externals)) ::
     skipn 10 (tl (passed sample_externals cc_info_msg_desc)))
    (mbuf_of []) =
  dect_build_sfmt_msg sample_externals fp (skipn 11 cc_info_msg_desc)
    (skipn 10 (tl (passed sample_externals cc_info_msg_desc)))
    (mbuf_of []).
Proof.
  assert (Hin : In DECT_IE_FEATURE_INDICATE parse_only_ids)
    by (simpl; auto).
  assert (Htx : dect_tx_status fp
                  (DECT_SFMT_IE DECT_IE_FEATURE_INDICATE DECT_SFMT_IE_OPTIONAL
                                DECT_SFMT_IE_NONE 0) <> DECT_SFMT_IE_NONE)
    by discriminate.
  exact (proj2 (proj2 (parse_only_ie_is_skipped sample_externals fp
           (DECT_SFMT_IE DECT_IE_FEATURE_INDICATE DECT_SFMT_IE_OPTIONAL
                         DECT_SFMT_IE_NONE 0)
           (skipn 11 cc_info_msg_desc)
           (IE_empty sample_externals)
           (skipn 10 (tl (passed sample_externals cc_info_msg_desc)))
           (mbuf_of []) Hin eq_refl Htx))).
Defined.

(** An <<INFO-TYPE>>, which <<CC-INFO>> does not hold, before a
    <<SENDING-COMPLETE>>: the FP returns OK and has read nothing. *)
Lemma unmatched_ie_ends_parse_witness :
  dect_parse_sfmt_msg sample_externals fp cc_info_msg_desc
    (mbuf_of [0x01; 0x01; 0x80; 0xa1]) =
  {| p_err := DECT_SFMT_OK; p_msg := passed sample_externals cc_info_msg_desc;
     p_mb := mbuf_of [0x01; 0x01; 0x80; 0xa1] |}.
Proof.
  assert (Hlen : 0 < 4) by lia.
  exact (unmatched_ie_ends_parse sample_externals fp cc_info_msg_desc
           (mbuf_of [0x01; 0x01; 0x80; 0xa1])
           {| ie_id := 0x01; ie_len := 3; ie_data := [0x01; 0x01; 0x80; 0xa1] |}
           Hlen eq_refl eq_refl).
Defined.

(** The FP builds a <<CC-INFO>> with a <<LOCATION-AREA>>, which only
    the PP may send, and a <<CC-SETUP>> without the
    <<PORTABLE-IDENTITY>> it requires: both builds fail. *)
Lemma transmit_policing_witness :
  dect_build_sfmt_msg sample_externals fp cc_info_msg_desc
    (Member (Some (IE_location_area sample_externals
                     {| la_type := 1; la_level := 2 |})) ::
     tl (passed sample_externals cc_info_msg_desc)) (mbuf_of []) =
  Some (DECT_SFMT_INVALID_IE, mbuf_of []) /\
  DECT_SFMT_INVALID_IE <> DECT_SFMT_OK /\
  dect_build_sfmt_msg sample_externals fp cc_setup_msg_desc
    (Member None :: tl (passed sample_externals cc_setup_msg_desc))
    (mbuf_of []) =
  Some (DECT_SFMT_MANDATORY_IE_MISSING, mbuf_of []) /\
  DECT_SFMT_MANDATORY_IE_MISSING <> DECT_SFMT_OK.
Proof.
  assert (Hla : Some (IE_location_area sample_externals
                        {| la_type := 1; la_level := 2 |}) <> None)
    by discriminate.
  split; [reflexivity|]. split; [|split; [reflexivity|]].
  - exact (proj1 (transmit_policing sample_externals fp []
                    (DECT_SFMT_IE DECT_IE_LOCATION_AREA DECT_SFMT_IE_NONE
                                  DECT_SFMT_IE_OPTIONAL 0)
                    (tl cc_info_msg_desc) []
                    (Some (IE_location_area sample_externals
                             {| la_type := 1; la_level := 2 |}))
                    (tl (passed sample_externals cc_info_msg_desc))
                    (mbuf_of []) DECT_SFMT_INVALID_IE (mbuf_of [])
                    eq_refl eq_refl eq_refl eq_refl) eq_refl Hla).
  - exact (proj2 (transmit_policing sample_externals fp []
                    (DECT_SFMT_IE DECT_IE_PORTABLE_IDENTITY
                                  DECT_SFMT_IE_MANDATORY
                                  DECT_SFMT_IE_MANDATORY 0)
                    (tl cc_setup_msg_desc) [] None
                    (tl (passed sample_externals cc_setup_msg_desc))
                    (mbuf_of []) DECT_SFMT_MANDATORY_IE_MISSING (mbuf_of [])
                    eq_refl eq_refl eq_refl eq_refl) eq_refl eq_refl).
Defined.

(** A <<CC-CONNECT-ACK>> with a display and a list of two
    <<IWU-TO-IWU>>: the display is released, the elements of the list
    are not. *)
Lemma msg_free_puts_witness :
  dect_msg_free sample_externals fp cc_connect_ack_msg_desc
    [Member (Some (IE_display sample_externals
                     {| display_len := 1; display_info := [0x41] |}));
     Member None;
     MemberList
       {| il_type := DECT_IE_LIST_NORMAL;
          il_list :=
            [IE_iwu_to_iwu sample_externals
               {| iwu_sr := 0; iwu_pd := 1; iwu_len := 1; iwu_data := [0x41] |};
             IE_iwu_to_iwu sample_externals
               {| iwu_sr := 0; iwu_pd := 1; iwu_len := 1; iwu_data := [0x42] |}] |};
     Member None; Member None] =
  Some [IE_put sample_externals
          (IE_display sample_externals
             {| display_len := 1; display_info := [0x41] |})].
Proof.
  exact (proj1 (msg_free_puts sample_externals fp cc_connect_ack_msg_desc
           [Member (Some (IE_display sample_externals
                            {| display_len := 1; display_info := [0x41] |}));
            Member None;
            MemberList
              {| il_type := DECT_IE_LIST_NORMAL;
                 il_list :=
                   [IE_iwu_to_iwu sample_externals
                      {| iwu_sr := 0; iwu_pd := 1; iwu_len := 1;
                         iwu_data := [0x41] |};
                    IE_iwu_to_iwu sample_externals
                      {| iwu_sr := 0; iwu_pd := 1; iwu_len := 1;
                         iwu_data := [0x42] |}] |};
            Member None; Member None]
           eq_refl eq_refl)).
Defined.

(** A <<CC-INFO>> with a <<MULTI-KEYPAD>> and a <<SENDING-COMPLETE>>
    that the FP has parsed: the two IEs are released. *)
Lemma parsed_message_is_released_witness :
  dect_msg_free sample_externals fp cc_info_msg_desc
    (p_msg (dect_parse_sfmt_msg sample_externals fp cc_info_msg_desc
              (mbuf_of [0x2c; 0x02; 0x35; 0x36; 0xa1]))) =
  Some [IE_put sample_externals
          (IE_keypad sample_externals
             {| keypad_len := 2; keypad_info := [0x35; 0x36] |});
        IE_put sample_externals (IE_empty sample_externals)].
Proof.
  exact (proj2 (parsed_message_is_released sample_externals fp cc_info_msg_desc
                  (mbuf_of [0x2c; 0x02; 0x35; 0x36; 0xa1]) eq_refl eq_refl)).
Defined.

(** A <<CIPHER-INFO>> with the key number 3: the FP builds the key
    octet 0x9b, and the peer reads the key number 11. *)
Lemma cipher_info_key_number_witness :
  exists mb',
    dect_build_sfmt_ie sample_externals fp DECT_IE_CIPHER_INFO (mbuf_of [])
      (IE_cipher_info sample_externals
         {| ci_enable := 1; ci_cipher_alg_id := 1; ci_cipher_key_type := 9;
            ci_cipher_key_num := 3 |}) = Some (DECT_SFMT_OK, mb') /\
    mb_data mb' = [0x19; 0x02; 0x81; 0x9b] /\
    exists ie,
      dect_parse_sfmt_ie_header (mbuf_of [0x19; 0x02; 0x81; 0x9b]) = Some ie /\
      dect_parse_sfmt_ie sample_externals pp DECT_IE_CIPHER_INFO ie =
      (0, Some (Some (IE_cipher_info sample_externals
                        {| ci_enable := 0x80; ci_cipher_alg_id := 1;
                           ci_cipher_key_type := 9;
                           ci_cipher_key_num := 11 |}))).
Proof.
  assert (H1 : 0 <= 1 < 128) by lia.
  assert (H2 : 0 <= 9 < 16) by lia.
  assert (H3 : 0 <= 3 < 16) by lia.
  destruct (cipher_info_key_number sample_externals fp pp (mbuf_of [])
              {| ci_enable := 1; ci_cipher_alg_id := 1; ci_cipher_key_type := 9;
                 ci_cipher_key_num := 3 |}
              eq_refl eq_refl H1 H2 H3) as (mb' & Hb & Hd & Hp).
  exists mb'. split; [exact Hb|]. split; [exact Hd|].
  exact (Hp [] [] 0).
Defined.

(** A <<DURATION>> with the lock limit 6: the FP builds the octet
    0x61, and the peer reads the lock limit 96. *)
Lemma duration_lock_limit_witness :
  exists mb' x,
    dect_build_sfmt_ie sample_externals fp DECT_IE_DURATION (mbuf_of [])
      (IE_duration sample_externals
         {| dur_lock := 6; dur_time := 1; dur_duration := 5 |}) =
      Some (DECT_SFMT_OK, mb') /\
    mb_data mb' = x /\
    exists ie,
      dect_parse_sfmt_ie_header
        {| mb_data := x; mb_tail := []; mb_type := 0 |} = Some ie /\
      exists d,
      dect_parse_sfmt_ie sample_externals pp DECT_IE_DURATION ie =
      (0, Some (Some (IE_duration sample_externals
                        {| dur_lock := 96; dur_time := 1;
                           dur_duration := d |}))).
Proof.
  assert (H1 : 0 <= 6 < 8) by lia.
  assert (H2 : 0 <= 1 < 16) by lia.
  assert (H3 : 0 <= 5 < 256) by lia.
  destruct (duration_lock_limit sample_externals fp pp (mbuf_of [])
              {| dur_lock := 6; dur_time := 1; dur_duration := 5 |}
              eq_refl eq_refl H1 H2 H3) as (mb' & x & Hb & Hd & Hp).
  exists mb', x. split; [exact Hb|]. split; [exact Hd|].
  destruct (Hp [] [] 0) as (ie & Hh & Hie).
  exists ie. split; [now rewrite app_nil_r in Hh|].
  eexists. exact Hie.
Defined.

(** A <<MULTI-KEYPAD>> of two digits: the structure holds two digits
    and the length 2. *)
Lemma parsed_ie_in_bounds_witness :
  in_bounds sample_externals
    (IE_keypad sample_externals
       {| keypad_len := 2; keypad_info := [0x35; 0x36] |}) = true.
Proof.
  assert (H1 : 1 <= 256) by lia.
  assert (H2 : 1 <= 64) by lia.
  exact (parsed_ie_in_bounds sample_externals fp DECT_IE_MULTI_KEYPAD
           (mbuf_of [0x2c; 0x02; 0x35; 0x36])
           {| ie_id := 0x2c; ie_len := 4; ie_data := [0x2c; 0x02; 0x35; 0x36] |}
           (IE_keypad sample_externals
              {| keypad_len := 2; keypad_info := [0x35; 0x36] |})
           eq_refl eq_refl eq_refl H1 H2 eq_refl).
Defined.

(** A <<CC-INFO>> with a <<SINGLE-DISPLAY>>, which the FP must not
    receive: the call and what has left the library stay as they
    were. *)
Lemma invalid_message_is_dropped_witness :
  dect_cc_rcv sample_externals fp
    {| state := DECT_CC_ACTIVE; transaction := DECT_TRANSACTION_OPEN;
       setup_timer := None; lu_sap := Some tt |}
    {| mb_data := [0xe8; 0x41]; mb_tail := []; mb_type := CC_INFO |} [] =
  {| w_call := Some {| state := DECT_CC_ACTIVE;
                       transaction := DECT_TRANSACTION_OPEN;
                       setup_timer := None; lu_sap := Some tt |};
     w_out := [] |}.
Proof.
  assert (H : p_err (dect_parse_sfmt_msg sample_externals fp cc_info_msg_desc
                       {| mb_data := [0xe8; 0x41]; mb_tail := [];
                          mb_type := CC_INFO |}) < 0)
    by (vm_compute; reflexivity).
  exact (proj1 (invalid_message_is_dropped sample_externals fp
                  {| state := DECT_CC_ACTIVE;
                     transaction := DECT_TRANSACTION_OPEN;
                     setup_timer := None; lu_sap := Some tt |}
                  {| mb_data := [0xe8; 0x41]; mb_tail := [];
                     mb_type := CC_INFO |} [])
           cc_info_msg_desc eq_refl H).
Defined.


(** MNCC_RELEASE-res with a release reason for an active call:
    CC-RELEASE-COM is sent, the transaction closed, the call gone. *)
Lemma release_closes_once_witness :
  dect_mncc_release_res sample_externals fp
    {| state := DECT_CC_ACTIVE; transaction := DECT_TRANSACTION_OPEN;
       setup_timer := None; lu_sap := Some tt |}
    (Member (Some (IE_release_reason sample_externals 0)) ::
     tl (passed sample_externals cc_release_com_msg_desc)) [] =
  Some (0, {| w_call := None;
              w_out := [Sent CC_RELEASE_COM [0xe2; 0x00];
                        Closed DECT_DDL_RELEASE_NORMAL] |}) /\
  closings sample_externals
    [Sent CC_RELEASE_COM [0xe2; 0x00]; Closed DECT_DDL_RELEASE_NORMAL] =
  1%nat.
Proof.
  destruct (release_closes_once sample_externals fp
              {| state := DECT_CC_ACTIVE; transaction := DECT_TRANSACTION_OPEN;
                 setup_timer := None; lu_sap := Some tt |}
              (Member (Some (IE_release_reason sample_externals 0)) ::
               tl (passed sample_externals cc_release_com_msg_desc)) [] 0
              {| mb_data := [0xe2; 0x00]; mb_tail := [];
                 mb_type := CC_RELEASE_COM |} eq_refl)
    as (Hres & _ & Hc & _).
  split; [exact Hres | exact Hc].
Defined.

(** MNCC_RELEASE-req with a release reason for an active call:
    CC-RELEASE is sent and the call is in RELEASE PENDING. *)
Lemma requests_ignore_send_result_witness :
  exists call',
    dect_mncc_release_req sample_externals fp
      {| state := DECT_CC_ACTIVE; transaction := DECT_TRANSACTION_OPEN;
         setup_timer := None; lu_sap := Some tt |}
      (Member (Some (IE_release_reason sample_externals 0)) ::
       tl (passed sample_externals cc_release_msg_desc)) =
    Some (0, call', [Sent CC_RELEASE [0xe2; 0x00]]) /\
    state call' = DECT_CC_RELEASE_PENDING /\
    lu_sap call' = Some tt.
Proof.
  destruct (proj1 (requests_ignore_send_result sample_externals fp
                     {| state := DECT_CC_ACTIVE;
                        transaction := DECT_TRANSACTION_OPEN;
                        setup_timer := None; lu_sap := Some tt |}
                     (Member (Some (IE_release_reason sample_externals 0)) ::
                      tl (passed sample_externals cc_release_msg_desc)))
              0
              {| mb_data := [0xe2; 0x00]; mb_tail := [];
                 mb_type := CC_RELEASE |} eq_refl)
    as (call' & Hres & Hs & _ & _ & Hlu).
  exists call'. split; [exact Hres|]. split; [exact Hs | exact Hlu].
Defined.
